(** * gltf2usd: the glTF 2.0 loader (Source/_gltf2usd/gltf2loader.py)

    A shallow embedding of [GLTF2Loader]: the binary-container demuxer of
    [__init__], the graph assembler [_initialize] and the accessor decoder
    [get_data], together with the fragment of Python's dynamic semantics
    those functions rely on (subscription, membership, slicing, [int],
    [struct.unpack]).

    Conventions.
    - Python values that travel through [json_data] are [pyval]s; a dict is
      an association list in insertion order, looked up by its first match.
    - A raised exception is [Raise e]; normal completion is [Ok v].
    - Python floats are IEEE 754 binary64 numbers: Rocq's primitive floats.
    - [struct.unpack] without a byte-order prefix uses the native order; the
      embedding fixes it to little-endian (x86, ARM).
    - Python 3 semantics are assumed ([/] is true division, [bytes] index to
      integers). *)

From Stdlib Require Import ZArith String Ascii List Bool Lia.
From Stdlib Require Import Strings.Byte.
From Stdlib Require Import Floats.PrimFloat Floats.FloatOps Floats.SpecFloat.
From Stdlib Require Import Numbers.Cyclic.Int63.Uint63.
From stdpp Require Import base option list gmap.

Open Scope Z_scope.
Set Warnings "-register-all".

(** ** Python values and exceptions *)

Inductive pyval :=
| PNone
| PBool (b : bool)
| PInt (z : Z)
| PFloat (f : float)
| PStr (s : string)
| PBytes (b : list byte)        (* bytes: immutable, hashable *)
| PByteArray (b : list byte)    (* bytearray: unhashable *)
| PList (l : list pyval)
| PDict (d : list (string * pyval)).

Inductive exn :=
| Exception (msg : string)
| NotImplementedError (msg : string)
| ValueError
| TypeError
| KeyError (key : pyval)
| IndexError
| AttributeError (attr : string)
| struct_error
| OverflowError
| UnicodeDecodeError
| OSError.

Inductive outcome (A : Type) :=
| Ok (a : A)
| Raise (e : exn).

Arguments Ok {A} a.
Arguments Raise {A} e.

Definition bind {A B} (c : outcome A) (k : A -> outcome B) : outcome B :=
  match c with
  | Ok a => k a
  | Raise e => Raise e
  end.

Notation "x <- c ;; k" := (bind c (fun x => k))
  (at level 100, c at next level, right associativity).

Definition is_ok {A} (c : outcome A) : bool :=
  match c with Ok _ => true | Raise _ => false end.

(** ** The fragment of Python the loader uses *)

Module Py.

(** [d[k]] on a dict with a string key: the first binding of [k]. *)
Fixpoint dict_get (d : list (string * pyval)) (k : string) : option pyval :=
  match d with
  | [] => None
  | (k', v) :: d' => if String.eqb k' k then Some v else dict_get d' k
  end.

(** [d[k] = v]: rebinds [k] in place when present, appends it otherwise. *)
Fixpoint dict_set (d : list (string * pyval)) (k : string) (v : pyval)
  : list (string * pyval) :=
  match d with
  | [] => [(k, v)]
  | (k', v') :: d' =>
      if String.eqb k' k then (k', v) :: d' else (k', v') :: dict_set d' k v
  end.

(** A sequence index [l[i]] with Python's wrap-around of negative indices. *)
Definition seq_index {A} (l : list A) (i : Z) : outcome A :=
  let n := Z.of_nat (length l) in
  let i' := if i <? 0 then i + n else i in
  if (0 <=? i') && (i' <? n) then
    match nth_error l (Z.to_nat i') with
    | Some x => Ok x
    | None => Raise IndexError
    end
  else Raise IndexError.

(** Clamping of one slice bound against a sequence of length [n]. *)
Definition clamp (n : Z) (i : Z) : Z :=
  if i <? 0 then Z.max 0 (i + n) else Z.min i n.

(** [l[lo:hi]]; an omitted bound is [None]. *)
Definition seq_slice {A} (l : list A) (lo hi : option Z) : list A :=
  let n := Z.of_nat (length l) in
  let a := match lo with Some i => clamp n i | None => 0 end in
  let b := match hi with Some i => clamp n i | None => n end in
  firstn (Z.to_nat (b - a)) (skipn (Z.to_nat a) l).

(** [operator.index]: what Python accepts as a list index or slice bound. *)
Definition as_index (v : pyval) : outcome Z :=
  match v with
  | PInt z => Ok z
  | PBool b => Ok (if b then 1 else 0)
  | _ => Raise TypeError
  end.

Definition as_bound (v : pyval) : outcome (option Z) :=
  match v with
  | PNone => Ok None
  | _ => i <- as_index v ;; Ok (Some i)
  end.

Definition str_of_ascii (c : ascii) : string := String c EmptyString.

(** [o[k]] (subscription). Dict keys are strings, so any other hashable key
    is absent; lists, dicts and bytearrays are unhashable. *)
Definition getitem (o k : pyval) : outcome pyval :=
  match o with
  | PDict d =>
      match k with
      | PStr s =>
          match dict_get d s with
          | Some v => Ok v
          | None => Raise (KeyError k)
          end
      | PList _ | PDict _ | PByteArray _ => Raise TypeError
      | _ => Raise (KeyError k)
      end
  | PList l => i <- as_index k ;; seq_index l i
  | PStr s =>
      i <- as_index k ;;
      c <- seq_index (list_ascii_of_string s) i ;;
      Ok (PStr (str_of_ascii c))
  | PBytes b | PByteArray b =>
      i <- as_index k ;;
      c <- seq_index b i ;;
      Ok (PInt (Z.of_N (Byte.to_N c)))
  | _ => Raise TypeError
  end.

(** [o[lo:hi]] with the bounds already evaluated. *)
Definition getslice (o : pyval) (lo hi : pyval) : outcome pyval :=
  a <- as_bound lo ;;
  b <- as_bound hi ;;
  match o with
  | PBytes l => Ok (PBytes (seq_slice l a b))
  | PByteArray l => Ok (PByteArray (seq_slice l a b))
  | PList l => Ok (PList (seq_slice l a b))
  | PStr s =>
      Ok (PStr (string_of_list_ascii (seq_slice (list_ascii_of_string s) a b)))
  | _ => Raise TypeError
  end.

(** Is [p] a substring of [s]? *)
Fixpoint substr_of (p s : string) : bool :=
  if String.prefix p s then true
  else match s with
       | EmptyString => false
       | String _ s' => substr_of p s'
       end.

(** [k in o] for a string [k]. *)
Definition contains (k : string) (o : pyval) : outcome bool :=
  match o with
  | PDict d => Ok (match dict_get d k with Some _ => true | None => false end)
  | PList l =>
      Ok (existsb (fun v => match v with
                            | PStr s => String.eqb s k
                            | _ => false
                            end) l)
  | PStr s => Ok (substr_of k s)
  | _ => Raise TypeError
  end.

(** Truth value of an object, as [if o:] tests it. *)
Definition truthy (v : pyval) : bool :=
  match v with
  | PNone => false
  | PBool b => b
  | PInt z => negb (z =? 0)
  | PFloat f => negb (PrimFloat.eqb f 0%float)
  | PStr s => match s with EmptyString => false | _ => true end
  | PBytes b | PByteArray b => match b with [] => false | _ => true end
  | PList l => match l with [] => false | _ => true end
  | PDict d => match d with [] => false | _ => true end
  end.

(** [v == True]: [True] is the integer 1. *)
Definition eq_True (v : pyval) : bool :=
  match v with
  | PBool b => b
  | PInt z => z =? 1
  | PFloat f => PrimFloat.eqb f 1%float
  | _ => false
  end.

(** [float(z)] for an integer below 2^63 (exact below 2^53). *)
Definition float_of_Z (z : Z) : float :=
  if z <? 0 then PrimFloat.opp (PrimFloat.of_uint63 (Uint63.of_Z (- z)))
  else PrimFloat.of_uint63 (Uint63.of_Z z).

(** [int(f)]: truncation toward zero. *)
Definition int_of_float (f : float) : outcome Z :=
  match Prim2SF f with
  | S754_zero _ => Ok 0
  | S754_infinity _ => Raise OverflowError
  | S754_nan => Raise ValueError
  | S754_finite s m e =>
      let a := if 0 <=? e then Z.pos m * 2 ^ e else Z.pos m / 2 ^ (- e) in
      Ok (if s then - a else a)
  end.

(** [for x in o]: the items iteration yields. *)
Definition iter (o : pyval) : outcome (list pyval) :=
  match o with
  | PList l => Ok l
  | PDict d => Ok (map (fun kv => PStr (fst kv)) d)
  | PStr s => Ok (map (fun c => PStr (str_of_ascii c)) (list_ascii_of_string s))
  | PBytes b | PByteArray b => Ok (map (fun c => PInt (Z.of_N (Byte.to_N c))) b)
  | _ => Raise TypeError
  end.

(** The value of a little-endian unsigned integer. *)
Definition le_uint (bs : list byte) : Z :=
  fold_right (fun b acc => Z.of_N (Byte.to_N b) + 256 * acc) 0 bs.

(** The binary64 value of an IEEE 754 binary32 bit pattern. *)
Definition float_of_bits32 (w : Z) : float :=
  let s := Z.testbit w 31 in
  let e := (w / 2 ^ 23) mod 256 in
  let m := w mod 2 ^ 23 in
  let mag :=
    if e =? 255 then (if m =? 0 then infinity else nan)
    else if e =? 0 then Z.ldexp (float_of_Z m) (-149)
    else Z.ldexp (float_of_Z (m + 2 ^ 23)) (e - 150) in
  if s then PrimFloat.opp mag else mag.

(** [struct.unpack(fmt, window)[0]] for the formats the loader passes. *)
Definition struct_unpack (fmt : string) (window : pyval) : outcome pyval :=
  match window with
  | PBytes w | PByteArray w =>
      if String.eqb fmt "f" then
        if (length w =? 4)%nat then Ok (PFloat (float_of_bits32 (le_uint w)))
        else Raise struct_error
      else if String.eqb fmt "I" then
        if (length w =? 4)%nat then Ok (PInt (le_uint w)) else Raise struct_error
      else if String.eqb fmt "H" then
        if (length w =? 2)%nat then Ok (PInt (le_uint w)) else Raise struct_error
      else if String.eqb fmt "B" then
        if (length w =? 1)%nat then Ok (PInt (le_uint w)) else Raise struct_error
      else Raise struct_error
  | _ => Raise TypeError
  end.

(** [v / d] where [v] came out of [struct_unpack] and [d] is a float. *)
Definition truediv (v : pyval) (d : float) : outcome float :=
  match v with
  | PInt z => Ok (PrimFloat.div (float_of_Z z) d)
  | PFloat f => Ok (PrimFloat.div f d)
  | _ => Raise TypeError
  end.

(** [s.split(sep)] for a one-character separator. *)
Fixpoint str_split (sep : ascii) (s : string) : list string :=
  match s with
  | EmptyString => [EmptyString]
  | String c s' =>
      if Ascii.eqb c sep then EmptyString :: str_split sep s'
      else match str_split sep s' with
           | [] => [String c EmptyString]
           | w :: ws => String c w :: ws
           end
  end.

(** The text after the first occurrence of [sep], if there is one. *)
Fixpoint str_after (sep : ascii) (s : string) : option string :=
  match s with
  | EmptyString => None
  | String c s' => if Ascii.eqb c sep then Some s' else str_after sep s'
  end.

(** The text before the first line feed. *)
Fixpoint first_line (s : string) : string :=
  match s with
  | EmptyString => EmptyString
  | String c s' =>
      if Ascii.eqb c "010"%char then EmptyString else String c (first_line s')
  end.

(** [re.match(r'^data:.*?;base64,', s)] as a truth value: [.] stands for
    any character but a line feed, so the marker has to occur on the first
    line of what follows [data:]. *)
Definition re_match_data_base64 (s : string) : bool :=
  match str_after ":" s with
  | Some rest =>
      String.prefix "data:" s && substr_of ";base64," (first_line rest)
  | None => false
  end.

End Py.

(** ** Enumerations and tables of the module *)

Inductive AccessorType :=
| SCALAR | VEC2 | VEC3 | VEC4 | MAT2 | MAT3 | MAT4.

Inductive AccessorComponentType :=
| BYTE | UNSIGNED_BYTE | SHORT | UNSIGNED_SHORT | UNSIGNED_INT | FLOAT.

(** [AccessorType(v)]: the member whose value equals [v], else [ValueError]. *)
Definition AccessorType_of (v : pyval) : outcome AccessorType :=
  match v with
  | PStr s =>
      if String.eqb s "SCALAR" then Ok SCALAR
      else if String.eqb s "VEC2" then Ok VEC2
      else if String.eqb s "VEC3" then Ok VEC3
      else if String.eqb s "VEC4" then Ok VEC4
      else if String.eqb s "MAT2" then Ok MAT2
      else if String.eqb s "MAT3" then Ok MAT3
      else if String.eqb s "MAT4" then Ok MAT4
      else Raise ValueError
  | _ => Raise ValueError
  end.

Definition component_type_of_Z (z : Z) : outcome AccessorComponentType :=
  if z =? 5120 then Ok BYTE
  else if z =? 5121 then Ok UNSIGNED_BYTE
  else if z =? 5122 then Ok SHORT
  else if z =? 5123 then Ok UNSIGNED_SHORT
  else if z =? 5125 then Ok UNSIGNED_INT
  else if z =? 5126 then Ok FLOAT
  else Raise ValueError.

(** [AccessorComponentType(v)]. Members are found by value, and a float that
    equals a member's integer value finds it too. *)
Definition AccessorComponentType_of (v : pyval) : outcome AccessorComponentType :=
  match v with
  | PInt z => component_type_of_Z z
  | PFloat f =>
      if PrimFloat.eqb f 5120%float then Ok BYTE
      else if PrimFloat.eqb f 5121%float then Ok UNSIGNED_BYTE
      else if PrimFloat.eqb f 5122%float then Ok SHORT
      else if PrimFloat.eqb f 5123%float then Ok UNSIGNED_SHORT
      else if PrimFloat.eqb f 5125%float then Ok UNSIGNED_INT
      else if PrimFloat.eqb f 5126%float then Ok FLOAT
      else Raise ValueError
  | _ => Raise ValueError
  end.

(** [accessor_type_count(x)]: a lookup in a dict literal keyed by strings. *)
Definition accessor_type_count (x : pyval) : outcome Z :=
  n <- Py.getitem
         (PDict [("SCALAR", PInt 1); ("VEC2", PInt 2); ("VEC3", PInt 3);
                 ("VEC4", PInt 4); ("MAT2", PInt 4); ("MAT3", PInt 9);
                 ("MAT4", PInt 16)]%string) x ;;
  Py.as_index n.

Definition accessor_component_type_bytesize (x : AccessorComponentType) : Z :=
  match x with
  | BYTE => 1
  | UNSIGNED_BYTE => 1
  | SHORT => 2
  | UNSIGNED_SHORT => 2
  | UNSIGNED_INT => 4
  | FLOAT => 4
  end.

(** ** What the loader takes from outside this file *)

(** The interpreter's library: [os.path], [open], [json], [base64],
    [requests] and the [int] builtin on text. *)
Class Platform := {
  os_path_isfile : string -> bool;
  os_path_dirname : string -> string;
  os_path_join : string -> string -> string;
  (** [open(path, 'rb').read()] *)
  open_rb : string -> outcome (list byte);
  (** [json.loads(b.decode('utf-8'))]; [UnicodeDecodeError] when the bytes
      are not UTF-8. *)
  json_loads : list byte -> outcome pyval;
  (** [json.load] of a file opened with the platform's default encoding *)
  json_load_default : list byte -> outcome pyval;
  base64_b64decode : string -> outcome (list byte);
  (** [requests.get(url)]: the status code and the content *)
  requests_get : string -> outcome (Z * list byte);
  (** [int(x)] for a str, bytes or bytearray [x] *)
  int_of_text : pyval -> outcome Z;
}.

(** A decoded accessor entry: a bare number or a tuple of numbers. *)
Inductive entry :=
| Scalar (x : float)
| Tuple (xs : list float).

(** List objects live in a heap and are passed around by reference, so that
    "the same object" can be told from "an equal one". [get_data] allocates
    the [data_arr] it returns; the cache maps an accessor index to it. *)
Definition ref := nat.
Definition heap := list (list entry).

Definition alloc (h : heap) (data_arr : list entry) : ref * heap :=
  (length h, h ++ [data_arr]).

(** The part of the loader a collaborator's constructor can change by
    calling [get_data] on it: the accessor cache and the heap. *)
Record mem := Mem {
  mem_cache : gmap Z ref;
  mem_heap : heap;
}.

(** The classes of the [gltf2] package and the USDZ profile, which are not
    part of this file. A constructor that receives the loader sees its JSON
    document and may fill its accessor cache. *)
Class Gltf2 := {
  USDZProfile : Type;
  Asset : Type;
  GLTFImage : Type;
  Material : Type;
  Mesh : Type;
  NodeBase : Type;
  Skin : Type;
  Scene : Type;
  Animation : Type;
}.

Section Loader.
Context {P : Platform} {G : Gltf2}.

(** A [Node] object: what its class keeps to itself, and the attributes the
    loader reads and writes. Nodes refer to each other by their position in
    [self.nodes]. *)
Record Node := mkNode {
  node_base : NodeBase;
  _skin_index : pyval;
  _parent : option nat;
  _children : list nat;
  _skin : option Skin;
}.

Class Gltf2Ctors := {
  Asset_new : pyval -> outcome Asset;
  GLTFImage_new :
    pyval -> pyval -> Z -> bool -> bool -> mem -> outcome (GLTFImage * mem);
  Material_new : pyval -> pyval -> Z -> mem -> outcome (Material * mem);
  Mesh_new : pyval -> pyval -> Z -> mem -> outcome (Mesh * mem);
  Node_new : pyval -> pyval -> Z -> mem -> outcome (Node * mem);
  Skin_new : pyval -> pyval -> mem -> outcome (Skin * mem);
  Scene_new : pyval -> Z -> list Node -> outcome Scene;
  Animation_new : pyval -> pyval -> Z -> mem -> outcome (Animation * mem);
}.
Context {C : Gltf2Ctors}.

Record GLTF2Loader := mkLoader {
  usdz_profile : USDZProfile;
  _accessor_data_map : gmap Z ref;
  root_dir : string;
  _optimize_textures : bool;
  _generate_texture_transform_texture : bool;
  json_data : pyval;
  binary : bool;
  _asset : option Asset;
  _images : list GLTFImage;
  _materials : list Material;
  _meshes : list Mesh;
  nodes : list Node;
  skins : list Skin;
  _scenes : list Scene;
  _main_scene : option Scene;
  animations : list Animation;
}.

Definition set_accessor_data_map (self : GLTF2Loader) (m : gmap Z ref)
  : GLTF2Loader :=
  {| usdz_profile := usdz_profile self;
     _accessor_data_map := m;
     root_dir := root_dir self;
     _optimize_textures := _optimize_textures self;
     _generate_texture_transform_texture :=
       _generate_texture_transform_texture self;
     json_data := json_data self;
     binary := binary self;
     _asset := _asset self;
     _images := _images self;
     _materials := _materials self;
     _meshes := _meshes self;
     nodes := nodes self;
     skins := skins self;
     _scenes := _scenes self;
     _main_scene := _main_scene self;
     animations := animations self |}.

(** [int(v)] *)
Definition py_int (v : pyval) : outcome Z :=
  match v with
  | PInt z => Ok z
  | PBool b => Ok (if b then 1 else 0)
  | PFloat f => Py.int_of_float f
  | PStr _ | PBytes _ | PByteArray _ => int_of_text v
  | _ => Raise TypeError
  end.

(** ** [load_uri] (lines 98-112) *)

Definition load_uri (s : pyval) (folder : string) : outcome pyval :=
  match s with
  | PStr u =>
      if String.prefix "data:" u then
        match Py.str_after "," u with
        | Some payload =>
            b <- base64_b64decode payload ;;
            Ok (PBytes b)
        | None => Raise ValueError
        end
      else if String.prefix "http" u then
        r <- requests_get u ;;
        if 400 <=? fst r then Ok PNone else Ok (PBytes (snd r))
      else
        let path :=
          match folder with
          | EmptyString => u
          | _ => os_path_join folder u
          end in
        b <- open_rb path ;;
        Ok (PBytes b)
  | PBytes _ | PByteArray _ => Raise TypeError
  | _ => Raise (AttributeError "startswith")
  end.

(** ** [GLTF2Loader.get_data] (lines 316-389) *)

(** [buffer_fptr.seek(off, 1)] on a freshly opened file: the new position. *)
Definition file_seek_cur (off : pyval) : outcome Z :=
  i <- Py.as_index off ;;
  if i <? 0 then Raise OSError else Ok i.

(** [buffer_fptr.read(n)] at position [pos]: everything that is left for
    [None] and for -1, at most [n] bytes for a size that is not negative,
    and [ValueError] for any other negative size. *)
Definition file_read (content : list byte) (pos : Z) (n : pyval)
  : outcome (list byte) :=
  let rest := skipn (Z.to_nat pos) content in
  match n with
  | PNone => Ok rest
  | _ =>
      k <- Py.as_index n ;;
      if k <? -1 then Raise ValueError
      else if k <? 0 then Ok rest
      else Ok (firstn (Z.to_nat k) rest)
  end.

(** [buffer_data[bufferview['byteOffset']:]] if the view has that key. *)
Definition drop_view_offset (bufferview buffer_data : pyval) : outcome pyval :=
  has <- Py.contains "byteOffset" bufferview ;;
  if has then
    off <- Py.getitem bufferview (PStr "byteOffset") ;;
    Py.getslice buffer_data off PNone
  else Ok buffer_data.

(** Lines 323-343: the bytes behind a buffer view, from the bound binary
    chunk, from a base64 data URI, or from a file next to the document. *)
Definition resolve_buffer_data (self : GLTF2Loader) (bufferview buffer : pyval)
  : outcome pyval :=
  if binary self then
    buffer_data <- Py.getitem buffer (PStr "data") ;;
    drop_view_offset bufferview buffer_data
  else
    uri <- Py.getitem buffer (PStr "uri") ;;
    match uri with
    | PStr u =>
        if Py.re_match_data_base64 u then
          uri_data <- Py.seq_index (Py.str_split "," u) 1 ;;
          b <- base64_b64decode uri_data ;;
          drop_view_offset bufferview (PBytes b)
        else
          let buffer_file := os_path_join (root_dir self) u in
          content <- open_rb buffer_file ;;
          has <- Py.contains "byteOffset" bufferview ;;
          pos <- (if has
                  then off <- Py.getitem bufferview (PStr "byteOffset") ;;
                       file_seek_cur off
                  else Ok 0) ;;
          n <- Py.getitem bufferview (PStr "byteLength") ;;
          b <- file_read content pos n ;;
          Ok (PBytes b)
    | _ => Raise TypeError
    end.

(** [d if 'normalized' in accessor and accessor['normalized'] == True
    else 1.0] *)
Definition normalize_divisor_of (accessor : pyval) (d : float) : outcome float :=
  has <- Py.contains "normalized" accessor ;;
  if has then
    v <- Py.getitem accessor (PStr "normalized") ;;
    Ok (if Py.eq_True v then d else 1%float)
  else Ok 1%float.

(** Lines 377-380: the components of one entry, [j] counting up. *)
Fixpoint read_entries (buffer_data : pyval) (data_type : string)
    (data_type_size accessor_component_type_size : Z)
    (normalize_divisor : float) (offset : Z) (todo : nat) (j : Z)
  : outcome (list float) :=
  match todo with
  | O => Ok []
  | S todo' =>
      let x := offset + j * accessor_component_type_size in
      window <- Py.getslice buffer_data (PInt x) (PInt (x + data_type_size)) ;;
      v <- Py.struct_unpack data_type window ;;
      q <- Py.truediv v normalize_divisor ;;
      rest <- read_entries buffer_data data_type data_type_size
                accessor_component_type_size normalize_divisor offset
                todo' (j + 1) ;;
      Ok (q :: rest)
  end.

(** Lines 382-385: a tuple for more than one component, else [entries[0]]. *)
Definition pack_entries (entries : list float) : outcome entry :=
  if (1 <? length entries)%nat then Ok (Tuple entries)
  else match entries with
       | x :: _ => Ok (Scalar x)
       | [] => Raise IndexError
       end.

(** Lines 375-386: the loop over [range(0, accessor['count'])]. *)
Fixpoint decode_loop (buffer_data : pyval) (data_type : string)
    (data_type_size accessor_component_type_size accessor_type_size : Z)
    (normalize_divisor : float) (bytestride : Z)
    (todo : nat) (offset : Z) (data_arr : list entry)
  : outcome (list entry) :=
  match todo with
  | O => Ok data_arr
  | S todo' =>
      entries <- read_entries buffer_data data_type data_type_size
                   accessor_component_type_size normalize_divisor offset
                   (Z.to_nat accessor_type_size) 0 ;;
      e <- pack_entries entries ;;
      decode_loop buffer_data data_type data_type_size
        accessor_component_type_size accessor_type_size normalize_divisor
        bytestride todo' (offset + bytestride) (data_arr ++ [e])
  end.

(** Lines 355-373: the [struct] format, its size and the divisor. *)
Definition data_format (accessor : pyval)
    (accessor_component_type : AccessorComponentType)
  : outcome (string * Z * float) :=
  match accessor_component_type with
  | FLOAT => Ok ("f"%string, 4, 1%float)
  | UNSIGNED_INT => Ok ("I"%string, 4, 1%float)
  | UNSIGNED_SHORT =>
      d <- normalize_divisor_of accessor 65535%float ;;
      Ok ("H"%string, 2, d)
  | UNSIGNED_BYTE =>
      d <- normalize_divisor_of accessor 255%float ;;
      Ok ("B"%string, 1, d)
  | _ => Raise (Exception "unsupported accessor component type!")
  end.

(** Lines 351-352: [int(bufferview['byteStride'])] if the view has that
    key, else the size of a tightly packed entry. *)
Definition bytestride_of (bufferview : pyval) (packed : Z) : outcome Z :=
  has_stride <- Py.contains "byteStride" bufferview ;;
  if has_stride
  then v <- Py.getitem bufferview (PStr "byteStride") ;; py_int v
  else Ok packed.

(** Line 353: [int(accessor['byteOffset'])] if the accessor has that key,
    else 0. *)
Definition offset_of (accessor : pyval) : outcome Z :=
  has_offset <- Py.contains "byteOffset" accessor ;;
  if has_offset
  then v <- Py.getitem accessor (PStr "byteOffset") ;; py_int v
  else Ok 0.

(** Lines 345-386: decoding [buffer_data] as the accessor describes. *)
Definition decode (accessor bufferview buffer_data : pyval)
  : outcome (list entry) :=
  ct <- Py.getitem accessor (PStr "componentType") ;;
  accessor_component_type <- AccessorComponentType_of ct ;;
  ty <- Py.getitem accessor (PStr "type") ;;
  accessor_type_size <- accessor_type_count ty ;;
  let accessor_component_type_size :=
    accessor_component_type_bytesize accessor_component_type in
  bytestride <- bytestride_of bufferview
                  (accessor_type_size * accessor_component_type_size) ;;
  offset <- offset_of accessor ;;
  fmt <- data_format accessor accessor_component_type ;;
  let '(data_type, data_type_size, normalize_divisor) := fmt in
  count <- Py.getitem accessor (PStr "count") ;;
  n <- Py.as_index count ;;
  decode_loop buffer_data data_type data_type_size
    accessor_component_type_size accessor_type_size normalize_divisor
    bytestride (Z.to_nat n) offset [].

(** Lines 320-321: the buffer view of the accessor and its buffer. *)
Definition lookup_view (self : GLTF2Loader) (accessor : pyval)
  : outcome (pyval * pyval) :=
  bufferViews <- Py.getitem (json_data self) (PStr "bufferViews") ;;
  bv <- Py.getitem accessor (PStr "bufferView") ;;
  bufferview <- Py.getitem bufferViews bv ;;
  buffers <- Py.getitem (json_data self) (PStr "buffers") ;;
  b <- Py.getitem bufferview (PStr "buffer") ;;
  buffer <- Py.getitem buffers b ;;
  Ok (bufferview, buffer).

(** Line 322: [AccessorType(accessor['type'])]. *)
Definition accessor_type_of (accessor : pyval) : outcome AccessorType :=
  ty <- Py.getitem accessor (PStr "type") ;;
  AccessorType_of ty.

(** Lines 320-386: everything [get_data] does on a cache miss before it
    stores the result. Only locals are assigned here. *)
Definition get_data_miss (self : GLTF2Loader) (accessor : pyval)
  : outcome (list entry) :=
  view <- lookup_view self accessor ;;
  let '(bufferview, buffer) := view in
  accessor_type <- accessor_type_of accessor ;;
  buffer_data <- resolve_buffer_data self bufferview buffer ;;
  decode accessor bufferview buffer_data.

(** [get_data(self, accessor, accessor_index)]: the reference it returns (or
    the exception it raises) and the loader and heap afterwards. *)
Definition get_data (self : GLTF2Loader) (h : heap)
    (accessor : pyval) (accessor_index : Z)
  : outcome ref * GLTF2Loader * heap :=
  match _accessor_data_map self !! accessor_index with
  | Some r => (Ok r, self, h)
  | None =>
      match get_data_miss self accessor with
      | Raise e => (Raise e, self, h)
      | Ok data_arr =>
          let '(r, h') := alloc h data_arr in
          (Ok r,
           set_accessor_data_map self
             (<[accessor_index := r]> (_accessor_data_map self)),
           h')
      end
  end.

(** ** The graph assembler: [_initialize] (lines 184-296) *)

(** Reading [self.json_data], which only a parsed document binds. *)
Definition read_json_data (bound : option pyval) : outcome pyval :=
  match bound with
  | Some v => Ok v
  | None => Raise (AttributeError "json_data")
  end.

Definition _initialize_asset (json_data : pyval) : outcome (option Asset) :=
  has <- Py.contains "asset" json_data ;;
  if has then
    entry <- Py.getitem json_data (PStr "asset") ;;
    a <- Asset_new entry ;;
    Ok (Some a)
  else Ok None.

(** [for i, e in enumerate(entries): objs.append(ctor(e, i, self))] *)
Fixpoint build_each {T} (ctor : pyval -> Z -> mem -> outcome (T * mem))
    (entries : list pyval) (i : Z) (m : mem) (objs : list T)
  : outcome (list T * mem) :=
  match entries with
  | [] => Ok (objs, m)
  | e :: entries' =>
      r <- ctor e i m ;;
      build_each ctor entries' (i + 1) (snd r) (objs ++ [fst r])
  end.

(** The shape shared by the image, material, mesh, node and animation
    stages: an empty list unless the document has the section. *)
Definition build_section {T} (ctor : pyval -> Z -> mem -> outcome (T * mem))
    (key : string) (json_data : pyval) (m : mem) : outcome (list T * mem) :=
  has <- Py.contains key json_data ;;
  if has then
    section <- Py.getitem json_data (PStr key) ;;
    entries <- Py.iter section ;;
    build_each ctor entries 0 m []
  else Ok ([], m).

Definition _initialize_images (opt gen : bool) (json_data : pyval) (m : mem)
  : outcome (list GLTFImage * mem) :=
  build_section (fun e i => GLTFImage_new json_data e i opt gen)
    "images" json_data m.

Definition _initialize_materials (json_data : pyval) (m : mem)
  : outcome (list Material * mem) :=
  build_section (Material_new json_data) "materials" json_data m.

Definition _initialize_meshes (json_data : pyval) (m : mem)
  : outcome (list Mesh * mem) :=
  build_section (Mesh_new json_data) "meshes" json_data m.

Definition _initialize_animations (json_data : pyval) (m : mem)
  : outcome (list Animation * mem) :=
  build_section (Animation_new json_data) "animations" json_data m.

Definition set_parent (n : Node) (p : nat) : Node :=
  mkNode (node_base n) (_skin_index n) (Some p) (_children n) (_skin n).

Definition add_child (n : Node) (c : nat) : Node :=
  mkNode (node_base n) (_skin_index n) (_parent n) (_children n ++ [c])
    (_skin n).

Definition set_skin (n : Node) (s : Skin) : Node :=
  mkNode (node_base n) (_skin_index n) (_parent n) (_children n) (Some s).

(** The position [l[i]] denotes, after wrap-around. *)
Definition seq_position {A} (l : list A) (i : Z) : outcome nat :=
  _ <- Py.seq_index l i ;;
  Ok (Z.to_nat (if i <? 0 then i + Z.of_nat (length l) else i)).

(** Lines 220-223: the children of node [i]. *)
Fixpoint wire_children (i : nat) (children : list pyval) (ns : list Node)
  : outcome (list Node) :=
  match children with
  | [] => Ok ns
  | child_index :: children' =>
      k <- Py.as_index child_index ;;
      c <- seq_position ns k ;;
      let ns := alter (fun child => set_parent child i) c ns in
      let ns := alter (fun parent => add_child parent c) i ns in
      wire_children i children' ns
  end.

(** Lines 217-223: the second pass over [json_data['nodes']]. *)
Fixpoint wire_nodes (entries : list pyval) (i : nat) (ns : list Node)
  : outcome (list Node) :=
  match entries with
  | [] => Ok ns
  | node_entry :: entries' =>
      has <- Py.contains "children" node_entry ;;
      ns' <- (if has
              then cs <- Py.getitem node_entry (PStr "children") ;;
                   children <- Py.iter cs ;;
                   wire_children i children ns
              else Ok ns) ;;
      wire_nodes entries' (S i) ns'
  end.

Definition _initialize_nodes (json_data : pyval) (m : mem)
  : outcome (list Node * mem) :=
  has <- Py.contains "nodes" json_data ;;
  if has then
    section <- Py.getitem json_data (PStr "nodes") ;;
    entries <- Py.iter section ;;
    r <- build_each (Node_new json_data) entries 0 m [] ;;
    section' <- Py.getitem json_data (PStr "nodes") ;;
    entries' <- Py.iter section' ;;
    ns <- wire_nodes entries' 0 (fst r) ;;
    Ok (ns, snd r)
  else Ok ([], m).

(** [[Skin(self, skin) for skin in entries]] *)
Fixpoint build_skins (json_data : pyval) (entries : list pyval) (m : mem)
  : outcome (list Skin * mem) :=
  match entries with
  | [] => Ok ([], m)
  | skin :: entries' =>
      r <- Skin_new json_data skin m ;;
      rest <- build_skins json_data entries' (snd r) ;;
      Ok (fst r :: fst rest, snd rest)
  end.

(** Lines 294-296: every node with a skin index gets that skin. *)
Fixpoint bind_skins (sk : list Skin) (ns : list Node) : outcome (list Node) :=
  match ns with
  | [] => Ok []
  | node :: ns' =>
      node' <- match _skin_index node with
               | PNone => Ok node
               | idx =>
                   k <- Py.as_index idx ;;
                   s <- Py.seq_index sk k ;;
                   Ok (set_skin node s)
               end ;;
      rest <- bind_skins sk ns' ;;
      Ok (node' :: rest)
  end.

Definition _initialize_skins (json_data : pyval) (ns : list Node) (m : mem)
  : outcome (list Skin * list Node * mem) :=
  has <- Py.contains "skins" json_data ;;
  if has then
    section <- Py.getitem json_data (PStr "skins") ;;
    entries <- Py.iter section ;;
    r <- build_skins json_data entries m ;;
    ns' <- bind_skins (fst r) ns ;;
    Ok (fst r, ns', snd r)
  else Ok ([], ns, m).

(** [for i, e in enumerate(entries): scenes.append(Scene(e, i, self.nodes))] *)
Fixpoint build_scenes (ns : list Node) (entries : list pyval) (i : Z)
    (scenes : list Scene) : outcome (list Scene) :=
  match entries with
  | [] => Ok scenes
  | scene_entry :: entries' =>
      scene <- Scene_new scene_entry i ns ;;
      build_scenes ns entries' (i + 1) (scenes ++ [scene])
  end.

(** Lines 233-244: [self._scenes] and [self._main_scene]. *)
Definition _initialize_scenes (json_data : pyval) (ns : list Node)
  : outcome (list Scene * option Scene) :=
  has <- Py.contains "scenes" json_data ;;
  if has then
    section <- Py.getitem json_data (PStr "scenes") ;;
    entries <- Py.iter section ;;
    scenes <- build_scenes ns entries 0 [] ;;
    has_scene <- Py.contains "scene" json_data ;;
    if has_scene then
      idx <- Py.getitem json_data (PStr "scene") ;;
      k <- Py.as_index idx ;;
      main <- Py.seq_index scenes k ;;
      Ok (scenes, Some main)
    else
      main <- Py.seq_index scenes 0 ;;
      Ok (scenes, Some main)
  else Ok ([], None).

(** What [__init__] has assigned when it calls [_initialize]. *)
Record bare_loader := mkBare {
  bare_usdz_profile : USDZProfile;
  bare_root_dir : string;
  bare_optimize_textures : bool;
  bare_generate_texture_transform_texture : bool;
  bare_json_data : option pyval;
  bare_binary : bool;
}.

(** Lines 184-195. *)
Definition _initialize (self : bare_loader) (h : heap)
  : outcome (GLTF2Loader * heap) :=
  json_data <- read_json_data (bare_json_data self) ;;
  asset <- _initialize_asset json_data ;;
  let m := Mem ∅ h in
  images <- _initialize_images (bare_optimize_textures self)
              (bare_generate_texture_transform_texture self) json_data m ;;
  materials <- _initialize_materials json_data (snd images) ;;
  meshes <- _initialize_meshes json_data (snd materials) ;;
  ns <- _initialize_nodes json_data (snd meshes) ;;
  sk <- _initialize_skins json_data (fst ns) (snd ns) ;;
  sc <- _initialize_scenes json_data (snd (fst sk)) ;;
  anims <- _initialize_animations json_data (snd sk) ;;
  Ok (mkLoader (bare_usdz_profile self) (mem_cache (snd anims))
        (bare_root_dir self) (bare_optimize_textures self)
        (bare_generate_texture_transform_texture self)
        json_data (bare_binary self) asset (fst images) (fst materials)
        (fst meshes) (snd (fst sk)) (fst (fst sk)) (fst sc) (snd sc)
        (fst anims),
      mem_heap (snd anims)).

Definition get_scenes (self : GLTF2Loader) : list Scene := _scenes self.

Definition get_main_scene (self : GLTF2Loader) : option Scene :=
  _main_scene self.

(** ** [GLTF2Loader.__init__] (lines 119-182) *)

Definition MAGIC : Z := 0x46546C67.
Definition JSON_CHUNK : Z := 0x4E4F534A.
Definition BINARY_CHUNK : Z := 0x004E4942.

(** [np.frombuffer(b, dtype='uint32')]: the little-endian words of [b]. *)
Fixpoint frombuffer_uint32 (b : list byte) : outcome (list Z) :=
  match b with
  | [] => Ok []
  | b0 :: b1 :: b2 :: b3 :: b' =>
      ws <- frombuffer_uint32 b' ;;
      Ok (Py.le_uint [b0; b1; b2; b3] :: ws)
  | _ => Raise ValueError
  end.

(** ['text' + n] for a numpy [uint32] [n]: [str] cannot append a number and
    numpy's [add] has no loop for a string operand, so the sum raises. *)
Definition str_add_uint32 (s : string) (n : Z) : outcome string :=
  Raise TypeError.

(** [buffer.get('uri')] *)
Definition dict_method_get (o : pyval) (k : string) : outcome pyval :=
  match o with
  | PDict d =>
      Ok (match Py.dict_get d k with Some v => v | None => PNone end)
  | _ => Raise (AttributeError "get")
  end.

(** [buffer['data'] = data] where [buffer] is [json_data['buffers'][0]]:
    the dict is changed in place, so the document changes with it. *)
Definition bind_buffer0_data (json_data data : pyval) : pyval :=
  match json_data with
  | PDict d =>
      match Py.dict_get d "buffers" with
      | Some (PList (PDict buffer :: others)) =>
          PDict (Py.dict_set d "buffers"
                   (PList (PDict (Py.dict_set buffer "data" data) :: others)))
      | _ => json_data
      end
  | _ => json_data
  end.

(** [a + b] where [b] is a numpy [uint32] and [a] a Python integer or a
    [uint32]: under NumPy 2 the sum is a [uint32] again and wraps around
    at 2^32. (Older versions promote the sum to a 64-bit integer, which
    gives the same count wherever the byte count stays below 2^32.) *)
Definition uint32_add (a b : Z) : Z := (a + b) mod 2 ^ 32.

(** The local state of the chunk loop: the read position of [file_buffer]
    (as the bytes still ahead), the running byte count and
    [self.json_data]. The count starts as the Python integer 12; adding
    the first chunk size makes it a [uint32], which it stays. *)
Record demux_state := mkDemux {
  file_buffer : list byte;
  total_bytes_read : Z;
  demux_json_data : option pyval;
}.

Inductive loop_step :=
| Break
| Next (s : demux_state).

(** Lines 162-171: what is done with a chunk of the given type. *)
Definition handle_chunk (root : string) (json : option pyval)
    (chunk_type : Z) (chunk : list byte) : outcome pyval :=
  if chunk_type =? JSON_CHUNK then
    json_loads chunk
  else if chunk_type =? BINARY_CHUNK then
    json_data <- read_json_data json ;;
    buffers <- Py.getitem json_data (PStr "buffers") ;;
    buffer <- Py.getitem buffers (PInt 0) ;;
    uri <- dict_method_get buffer "uri" ;;
    data <- (if Py.truthy uri
             then u <- Py.getitem buffer (PStr "uri") ;;
                  load_uri u root
             else n <- Py.getitem buffer (PStr "byteLength") ;;
                  Py.getslice (PByteArray chunk) PNone n) ;;
    Ok (bind_buffer0_data json_data data)
  else
    msg <- str_add_uint32 "Invalid chunk type: " chunk_type ;;
    Raise TypeError.

(** Lines 152-171: one turn of the [while True] loop. The count of line
    158 is wrapped together with the addition of line 161: where the count
    is a [uint32] already, line 158 wraps by itself, to the same result. *)
Definition chunk_step (root : string) (file_size : Z) (s : demux_state)
  : outcome loop_step :=
  let header_bytes := firstn 8 (file_buffer s) in
  let ahead := skipn 8 (file_buffer s) in
  match header_bytes with
  | [] =>
      if negb (total_bytes_read s =? file_size) then
        msg <- str_add_uint32 "Expected " file_size ;;
        Raise ValueError
      else Ok Break
  | _ =>
      let total := total_bytes_read s + 8 in
      ws <- frombuffer_uint32 header_bytes ;;
      match ws with
      | [chunk_size; chunk_type] =>
          let chunk := firstn (Z.to_nat chunk_size) ahead in
          let ahead := skipn (Z.to_nat chunk_size) ahead in
          let total := uint32_add total chunk_size in
          json_data <- handle_chunk root (demux_json_data s)
                         chunk_type chunk ;;
          Ok (Next (mkDemux ahead total (Some json_data)))
      | _ => Raise ValueError
      end
  end.

(** The [while True] loop. Every turn that goes on has read a chunk header,
    so [fuel] beyond the length of the file is never used up. *)
Fixpoint chunk_loop (fuel : nat) (root : string) (file_size : Z)
    (s : demux_state) : option (outcome demux_state) :=
  match fuel with
  | O => None
  | S fuel' =>
      match chunk_step root file_size s with
      | Raise e => Some (Raise e)
      | Ok Break => Some (Ok s)
      | Ok (Next s') => chunk_loop fuel' root file_size s'
      end
  end.

(** Lines 138-172: the binary container. The result is [self.json_data],
    bound or not, when [self.binary = True] is reached. *)
Definition demux_glb (root : string) (content : list byte)
  : option (outcome (option pyval)) :=
  match frombuffer_uint32 (firstn 12 content) with
  | Raise e => Some (Raise e)
  | Ok [magic; glb_version; file_size] =>
      if magic =? MAGIC then
        if negb (glb_version =? 2) then
          Some (Raise (NotImplementedError "Only glb version 2 is supported!"))
        else
          match chunk_loop (S (length content)) root file_size
                  (mkDemux (skipn 12 content) 12 None) with
          | None => None
          | Some (Raise e) => Some (Raise e)
          | Some (Ok s) => Some (Ok (demux_json_data s))
          end
      else Some (Ok None)
  | Ok _ => Some (Raise ValueError)
  end.

(** Lines 174-180: the text container, read as UTF-8 and, failing that, in
    the platform's default encoding. *)
Definition load_gltf (gltf_file : string) : outcome pyval :=
  content <- open_rb gltf_file ;;
  match json_loads content with
  | Raise UnicodeDecodeError =>
      content' <- open_rb gltf_file ;;
      json_load_default content'
  | r => r
  end.

(** [s.endswith(suffix)] *)
Definition str_endswith (s suffix : string) : bool :=
  let n := String.length s in
  let k := String.length suffix in
  (k <=? n)%nat && String.eqb (String.substring (n - k) k s) suffix.

(** [GLTF2Loader(gltf_file, usdz_profile, optimize_textures,
    generate_texture_transform_texture)], started on heap [h]. [None] would
    mean the chunk loop ran out of fuel. *)
Definition __init__ (gltf_file : string) (profile : USDZProfile)
    (optimize_textures generate_texture_transform_texture : bool) (h : heap)
  : option (outcome (GLTF2Loader * heap)) :=
  if negb (os_path_isfile gltf_file) then
    Some (Raise (Exception ("file " ++ gltf_file ++ " does not exist")))
  else if negb (str_endswith gltf_file ".gltf")
          && negb (str_endswith gltf_file ".glb") then
    Some (Raise (Exception "Can only accept .gltf/glb files"))
  else
    let root := os_path_dirname gltf_file in
    let bare := mkBare profile root optimize_textures
                  generate_texture_transform_texture in
    if str_endswith gltf_file ".glb" then
      match open_rb gltf_file with
      | Raise e => Some (Raise e)
      | Ok content =>
          match demux_glb root content with
          | None => None
          | Some (Raise e) => Some (Raise e)
          | Some (Ok bound) => Some (_initialize (bare bound true) h)
          end
      end
    else
      match load_gltf gltf_file with
      | Raise e => Some (Raise e)
      | Ok doc => Some (_initialize (bare (Some doc) false) h)
      end.

End Loader.

(** ** Vocabulary of the statements *)

(** The little-endian bytes of a 32-bit word, as container files hold it. *)
Definition byte_of_Z (z : Z) : byte :=
  match Byte.of_N (Z.to_N (z mod 256)) with
  | Some b => b
  | None => x00
  end.

Definition uint32_le (z : Z) : list byte :=
  [byte_of_Z z; byte_of_Z (z / 256); byte_of_Z (z / 65536);
   byte_of_Z (z / 16777216)].

(** A chunk of a binary container: length, type tag, payload. *)
Definition chunk_bytes (chunk_type : Z) (payload : list byte) : list byte :=
  uint32_le (Z.of_nat (length payload)) ++ uint32_le chunk_type ++ payload.

(** The 12-byte header of a binary container. *)
Definition glb_header (magic version total : Z) : list byte :=
  uint32_le magic ++ uint32_le version ++ uint32_le total.

(** The component types [get_data] decodes. *)
Definition supported (ct : AccessorComponentType) : bool :=
  match ct with
  | UNSIGNED_BYTE | UNSIGNED_SHORT | UNSIGNED_INT | FLOAT => true
  | BYTE | SHORT => false
  end.

(** Does the accessor name a component type [get_data] decodes? *)
Definition names_supported_type (accessor : pyval) : bool :=
  match (ct <- Py.getitem accessor (PStr "componentType") ;;
         AccessorComponentType_of ct) with
  | Ok ct => supported ct
  | Raise _ => false
  end.

(** The bytes of a bytes or bytearray object. *)
Definition bytes_of (v : pyval) : option (list byte) :=
  match v with
  | PBytes b | PByteArray b => Some b
  | _ => None
  end.

(** The decoded sequence in the words of the specification (its data model
    and step 5 of the accessor decoder), to be compared with what
    [get_data] computes: entry [i], component [j] is the number stored at
    [offset + i*stride + j*size], divided by the normalization divisor. *)
Module Spec.

Definition component_count (t : AccessorType) : Z :=
  match t with
  | SCALAR => 1 | VEC2 => 2 | VEC3 => 3 | VEC4 => 4
  | MAT2 => 4 | MAT3 => 9 | MAT4 => 16
  end.

Definition stride (declared : option Z) (t : AccessorType)
    (ct : AccessorComponentType) : Z :=
  match declared with
  | Some s => s
  | None => component_count t * accessor_component_type_bytesize ct
  end.

Definition divisor (ct : AccessorComponentType) (normalized : bool) : float :=
  match ct, normalized with
  | UNSIGNED_BYTE, true => 255%float
  | UNSIGNED_SHORT, true => 65535%float
  | _, _ => 1%float
  end.

(** The bytes [x .. x + n - 1] of [data]. *)
Definition window (data : list byte) (x n : Z) : list byte :=
  firstn (Z.to_nat n) (skipn (Z.to_nat x) data).

(** The number read at byte [x]. *)
Definition number_at (ct : AccessorComponentType) (data : list byte) (x : Z)
  : float :=
  let w := Py.le_uint (window data x (accessor_component_type_bytesize ct)) in
  match ct with
  | FLOAT => Py.float_of_bits32 w
  | _ => Py.float_of_Z w
  end.

Definition component (ct : AccessorComponentType) (normalized : bool)
    (data : list byte) (offset stride : Z) (i j : nat) : float :=
  PrimFloat.div
    (number_at ct data
       (offset + Z.of_nat i * stride
        + Z.of_nat j * accessor_component_type_bytesize ct))
    (divisor ct normalized).

Definition entry_at (t : AccessorType) (ct : AccessorComponentType)
    (normalized : bool) (data : list byte) (offset stride : Z) (i : nat)
  : entry :=
  match t with
  | SCALAR => Scalar (component ct normalized data offset stride i 0)
  | _ =>
      Tuple (map (component ct normalized data offset stride i)
               (seq 0 (Z.to_nat (component_count t))))
  end.

(** Every component of every entry lies inside [data]. *)
Definition fits (t : AccessorType) (ct : AccessorComponentType)
    (data : list byte) (offset stride count : Z) : Prop :=
  forall i j : Z,
    0 <= i < count -> 0 <= j < component_count t ->
    0 <= offset + i * stride + j * accessor_component_type_bytesize ct /\
    offset + i * stride + j * accessor_component_type_bytesize ct
      + accessor_component_type_bytesize ct <= Z.of_nat (length data).

End Spec.

Section Calls.
Context {P : Platform} {G : Gltf2}.

(** A run of [get_data] calls, whatever each of them returns. *)
Fixpoint run_calls (calls : list (pyval * Z)) (self : GLTF2Loader) (h : heap)
  : GLTF2Loader * heap :=
  match calls with
  | [] => (self, h)
  | (accessor, accessor_index) :: calls' =>
      let '(_, self', h') := get_data self h accessor accessor_index in
      run_calls calls' self' h'
  end.

(** The chunk loop gets from one state to another by handling, without an
    error, chunks whose headers announce the given lengths. *)
Inductive consumes (root : string) (file_size : Z)
  : demux_state -> list Z -> demux_state -> Prop :=
| consumes_nil s : consumes root file_size s [] s
| consumes_cons s s1 s2 chunk_size chunk_type sizes :
    frombuffer_uint32 (firstn 8 (file_buffer s)) = Ok [chunk_size; chunk_type] ->
    chunk_step root file_size s = Ok (Next s1) ->
    consumes root file_size s1 sizes s2 ->
    consumes root file_size s (chunk_size :: sizes) s2.

End Calls.

(** The byte count of a container whose chunk headers announce [sizes]:
    12 for the header and 8 + chunkLength for every chunk. *)
Definition consumed_bytes (sizes : list Z) : Z :=
  12 + fold_right (fun size rest => 8 + size + rest) 0 sizes.

(** ** Sample documents *)

Module Sample.

(** A world of one directory without network: [files] gives the content
    of the files there are, [loads] the parse of the JSON texts there are. *)
Definition platform_of (files : string -> outcome (list byte))
    (loads : list byte -> outcome pyval) : Platform :=
  {| os_path_isfile := fun f => is_ok (files f);
     os_path_dirname := fun _ => EmptyString;
     os_path_join := fun a b => (a ++ "/" ++ b)%string;
     open_rb := files;
     json_loads := loads;
     json_load_default := loads;
     base64_b64decode := fun _ => Raise ValueError;
     requests_get := fun _ => Raise OSError;
     int_of_text := fun _ => Raise ValueError |}.

Definition no_json : list byte -> outcome pyval := fun _ => Raise ValueError.

Definition no_files : string -> outcome (list byte) := fun _ => Raise OSError.

Definition platform (loads : list byte -> outcome pyval) : Platform :=
  platform_of no_files loads.

(** The one file [name]. *)
Definition one_file (name : string) (content : list byte)
  : string -> outcome (list byte) :=
  fun f => if String.eqb f name then Ok content else Raise OSError.

(** Collaborators that keep nothing. *)
Definition gltf2 : Gltf2 :=
  {| USDZProfile := unit; Asset := unit; GLTFImage := unit; Material := unit;
     Mesh := unit; NodeBase := unit; Skin := unit; Scene := Z;
     Animation := unit |}.

Definition ctors : @Gltf2Ctors gltf2 :=
  {| Asset_new := fun _ => Ok (tt : @Asset gltf2);
     GLTFImage_new := fun _ _ _ _ _ m => Ok (tt : @GLTFImage gltf2, m);
     Material_new := fun _ _ _ m => Ok (tt : @Material gltf2, m);
     Mesh_new := fun _ _ _ m => Ok (tt : @Mesh gltf2, m);
     Node_new := fun _ _ _ m =>
       Ok (@mkNode gltf2 (tt : @NodeBase gltf2) PNone None [] None, m);
     Skin_new := fun _ _ m => Ok (tt : @Skin gltf2, m);
     Scene_new := fun _ i _ => Ok (i : @Scene gltf2);
     Animation_new := fun _ _ _ m => Ok (tt : @Animation gltf2, m) |}.

(** A loader over document [doc] with nothing decoded yet. *)
Definition loader (doc : pyval) (is_binary : bool) : @GLTF2Loader gltf2 :=
  @mkLoader gltf2 tt ∅ EmptyString false true doc is_binary
    None [] [] [] [] [] [] None [].

(** One buffer of the given bytes and one view of [view_length] bytes. *)
Definition doc_of (data : list byte) (view_length : Z) (stride : option Z)
  : pyval :=
  PDict
    [("bufferViews"%string,
      PList [PDict ([("buffer"%string, PInt 0);
                     ("byteLength"%string, PInt view_length)]
                    ++ match stride with
                       | Some s => [("byteStride"%string, PInt s)]
                       | None => []
                       end)]);
     ("buffers"%string,
      PList [PDict [("byteLength"%string, PInt (Z.of_nat (length data)));
                    ("data"%string, PByteArray data)]])].

Definition accessor (type : string) (component_type count : Z)
    (normalized : bool) : pyval :=
  PDict [("bufferView"%string, PInt 0);
         ("componentType"%string, PInt component_type);
         ("type"%string, PStr type);
         ("count"%string, PInt count);
         ("normalized"%string, PBool normalized)].

(** The VEC3 example: normalized unsigned bytes 255, 0, 128. *)
Definition vec3_loader : @GLTF2Loader gltf2 :=
  loader (doc_of [xff; x00; x80] 3 None) true.

Definition vec3_accessor : pyval := accessor "VEC3" 5121 1 true.

Definition vec3_call : outcome ref * @GLTF2Loader gltf2 * heap :=
  @get_data (platform no_json) gltf2 vec3_loader [] vec3_accessor 0.

(** The JSON text [{"buffers":[{"byteLength":4}]}], padded with two
    spaces to a multiple of four bytes, and its parse. *)
Definition json_text : list byte :=
  [x7b; x22; x62; x75; x66; x66; x65; x72; x73; x22; x3a; x5b; x7b; x22;
   x62; x79; x74; x65; x4c; x65; x6e; x67; x74; x68; x22; x3a; x34; x7d;
   x5d; x7d; x20; x20].

Definition json_doc : pyval :=
  PDict [("buffers"%string, PList [PDict [("byteLength"%string, PInt 4)]])].

Fixpoint bytes_eqb (a b : list byte) : bool :=
  match a, b with
  | [], [] => true
  | x :: a', y :: b' => Byte.eqb x y && bytes_eqb a' b'
  | _, _ => false
  end.

(** A parser that knows this one text. *)
Definition loads : list byte -> outcome pyval :=
  fun b => if bytes_eqb b json_text then Ok json_doc else Raise ValueError.

Definition bin_payload : list byte := [x01; x02; x03; x04].

(** A container with the JSON chunk first, as the format lays it out. *)
Definition glb_json_first : list byte :=
  glb_header MAGIC 2 64 ++ chunk_bytes JSON_CHUNK json_text
    ++ chunk_bytes BINARY_CHUNK bin_payload.

(** The same two chunks in the other order. *)
Definition glb_binary_first : list byte :=
  glb_header MAGIC 2 64 ++ chunk_bytes BINARY_CHUNK bin_payload
    ++ chunk_bytes JSON_CHUNK json_text.

(** The first container with its magic word zeroed. *)
Definition glb_bad_magic : list byte :=
  glb_header 0 2 64 ++ chunk_bytes JSON_CHUNK json_text
    ++ chunk_bytes BINARY_CHUNK bin_payload.

(** A container of one JSON chunk (52 bytes) that declares 999 bytes. *)
Definition glb_wrong_total : list byte :=
  glb_header MAGIC 2 999 ++ chunk_bytes JSON_CHUNK json_text.

(** A world that knows the base64 text [AQID] of the bytes 1, 2, 3. *)
Definition platform_b64 : Platform :=
  {| os_path_isfile := fun _ => false;
     os_path_dirname := fun _ => EmptyString;
     os_path_join := fun a b => (a ++ "/" ++ b)%string;
     open_rb := no_files;
     json_loads := no_json;
     json_load_default := no_json;
     base64_b64decode := fun t =>
       if String.eqb t "AQID" then Ok [x01; x02; x03] else Raise ValueError;
     requests_get := fun _ => Raise OSError;
     int_of_text := fun _ => Raise ValueError |}.

(** A node as [ctors] builds it, with the given attributes. *)
Definition node (skin_index : pyval) (parent : option nat)
    (children : list nat) (skin : option unit) : @Node gltf2 :=
  @mkNode gltf2 tt skin_index parent children skin.

(** Two nodes, the first with the second as its child, and one mesh. *)
Definition doc_two_nodes : pyval :=
  PDict [("meshes"%string, PList [PDict []]);
         ("nodes"%string,
          PList [PDict [("children"%string, PList [PInt 1])]; PDict []])].

(** The loader that a text file with this document gives. *)
Definition loader_two_nodes : @GLTF2Loader gltf2 :=
  @mkLoader gltf2 tt ∅ EmptyString false true doc_two_nodes false
    None [] [] [tt]
    [node PNone None [1%nat] None; node PNone (Some 0%nat) [] None]
    [] [] None [].

(** A document whose only buffer was to be fetched and holds [None]. *)
Definition doc_unfetched : pyval :=
  PDict
    [("bufferViews"%string, PList [PDict [("buffer"%string, PInt 0)]]);
     ("buffers"%string,
      PList [PDict [("uri"%string, PStr "http://example.org/b.bin");
                    ("data"%string, PNone)]])].

End Sample.

(** ** The rest of the module *)

(** [GLTF2Loader.align(value, size)] (lines 312-314): [value] rounded up to
    a multiple of [size]. [None] stands for the [ZeroDivisionError] of
    [value % 0]; [%] takes the sign of the divisor, as [mod] does. *)
Definition align (value size : Z) : option Z :=
  if size =? 0 then None
  else
    let remainder := value mod size in
    Some (if remainder =? 0 then value else value + size - remainder).

(** The values the class [AccessorTypeCount] (lines 58-65) gives to the
    names of the accessor types. *)
Definition AccessorTypeCount_value (t : AccessorType) : Z :=
  match t with
  | SCALAR => 1 | VEC2 => 2 | VEC3 => 3 | VEC4 => 4
  | MAT2 => 4 | MAT3 => 9 | MAT4 => 16
  end.

(** ** Vocabulary of the further statements *)

Section MoreVocabulary.
Context {P : Platform} {G : Gltf2} {C : Gltf2Ctors}.

(** Every cached reference is the address of an object on the heap, and no
    two accessor indices share an object. *)
Definition cache_sound (self : GLTF2Loader) (h : heap) : Prop :=
  (forall k r, _accessor_data_map self !! k = Some r -> (r < length h)%nat) /\
  (forall k k' r,
      _accessor_data_map self !! k = Some r ->
      _accessor_data_map self !! k' = Some r -> k = k').

(** The entries a stage iterates over: those of the section [key] of the
    document, none when the document has no such section. *)
Definition entries_of (json_data : pyval) (key : string) : list pyval :=
  match (has <- Py.contains key json_data ;;
         if has
         then section <- Py.getitem json_data (PStr key) ;; Py.iter section
         else Ok []) with
  | Ok entries => entries
  | Raise _ => []
  end.

(** The positions in [self.nodes] that the child indices of a node entry
    stand for, [n] being the number of nodes. *)
Fixpoint child_positions (n : nat) (children : list pyval)
  : outcome (list nat) :=
  match children with
  | [] => Ok []
  | child_index :: children' =>
      k <- Py.as_index child_index ;;
      c <- seq_position (repeat tt n) k ;;
      rest <- child_positions n children' ;;
      Ok (c :: rest)
  end.

(** The positions a node entry names as its children; none without a
    [children] key. *)
Definition entry_children (n : nat) (node_entry : pyval)
  : outcome (list nat) :=
  has <- Py.contains "children" node_entry ;;
  if has
  then cs <- Py.getitem node_entry (PStr "children") ;;
       children <- Py.iter cs ;;
       child_positions n children
  else Ok [].

End MoreVocabulary.

(** * Properties *)

(** ** The error monad *)

Lemma bind_ok {A B} (c : outcome A) (k : A -> outcome B) (b : B) :
  bind c k = Ok b -> exists a, c = Ok a /\ k a = Ok b.
Proof. destruct c as [a|e]; simpl; [eauto | discriminate]. Qed.

Lemma bind_raise {A B} (c : outcome A) (k : A -> outcome B) (e : exn) :
  c = Raise e -> bind c k = Raise e.
Proof. intros ->. reflexivity. Qed.

Lemma bind_ok_eq {A B} (c : outcome A) (k : A -> outcome B) (a : A) :
  c = Ok a -> bind c k = k a.
Proof. intros ->. reflexivity. Qed.

(** Splits a hypothesis [x <- c ;; k = Ok v] into its two steps. *)
Ltac bind_inv H :=
  let a := fresh "a" in
  let H1 := fresh "H" in
  apply bind_ok in H; destruct H as (a & H1 & H).

(** ** [get_data]: what a call changes *)

Section GetDataState.
Context {P : Platform} {G : Gltf2}.

Lemma get_data_hit (self : GLTF2Loader) (h : heap) (accessor : pyval)
    (accessor_index : Z) (r : ref) :
  _accessor_data_map self !! accessor_index = Some r ->
  get_data self h accessor accessor_index = (Ok r, self, h).
Proof. intros Hc. unfold get_data. rewrite Hc. reflexivity. Qed.

Lemma get_data_raise (self : GLTF2Loader) (h : heap) (accessor : pyval)
    (accessor_index : Z) (e : exn) :
  _accessor_data_map self !! accessor_index = None ->
  get_data_miss self accessor = Raise e ->
  get_data self h accessor accessor_index = (Raise e, self, h).
Proof. intros Hc Hm. unfold get_data. rewrite Hc, Hm. reflexivity. Qed.

Lemma get_data_store (self : GLTF2Loader) (h : heap) (accessor : pyval)
    (accessor_index : Z) (data_arr : list entry) :
  _accessor_data_map self !! accessor_index = None ->
  get_data_miss self accessor = Ok data_arr ->
  get_data self h accessor accessor_index =
    (Ok (length h),
     set_accessor_data_map self
       (<[accessor_index := length h]> (_accessor_data_map self)),
     h ++ [data_arr]).
Proof. intros Hc Hm. unfold get_data. rewrite Hc, Hm. reflexivity. Qed.

(** The three ways a call can end. *)
Lemma get_data_cases (self : GLTF2Loader) (h : heap) (accessor : pyval)
    (accessor_index : Z) :
  (exists r, _accessor_data_map self !! accessor_index = Some r /\
             get_data self h accessor accessor_index = (Ok r, self, h)) \/
  (exists e, _accessor_data_map self !! accessor_index = None /\
             get_data self h accessor accessor_index = (Raise e, self, h)) \/
  (exists data_arr,
      _accessor_data_map self !! accessor_index = None /\
      get_data_miss self accessor = Ok data_arr /\
      get_data self h accessor accessor_index =
        (Ok (length h),
         set_accessor_data_map self
           (<[accessor_index := length h]> (_accessor_data_map self)),
         h ++ [data_arr])).
Proof.
  destruct (_accessor_data_map self !! accessor_index) as [r|] eqn:Hc.
  - left. exists r. split; [reflexivity | now apply get_data_hit].
  - destruct (get_data_miss self accessor) as [data_arr|e] eqn:Hm.
    + right; right. exists data_arr. repeat split; try assumption.
      now apply get_data_store.
    + right; left. exists e. split; [reflexivity | now apply get_data_raise].
Qed.

(** A call never drops or rebinds a cache entry and never touches an object
    that is already on the heap. *)
Lemma get_data_preserves (self self' : GLTF2Loader) (h h' : heap)
    (accessor : pyval) (accessor_index : Z) (res : outcome ref) :
  get_data self h accessor accessor_index = (res, self', h') ->
  (forall k r, _accessor_data_map self !! k = Some r ->
               _accessor_data_map self' !! k = Some r) /\
  (forall l o, h !! l = Some o -> h' !! l = Some o).
Proof.
  intros Hg.
  destruct (get_data_cases self h accessor accessor_index)
    as [(r & Hc & E) | [(e & Hc & E) | (d & Hc & Hm & E)]];
    rewrite E in Hg; inversion Hg; subst; clear Hg; split; auto.
  - intros k r Hk. simpl.
    destruct (decide (accessor_index = k)) as [->|Hne].
    + congruence.
    + now rewrite lookup_insert_ne.
  - intros l o Hl. now apply lookup_app_l_Some.
Qed.

(** After a normal return the index is bound to the returned reference. *)
Lemma get_data_binds (self self' : GLTF2Loader) (h h' : heap)
    (accessor : pyval) (accessor_index : Z) (r : ref) :
  get_data self h accessor accessor_index = (Ok r, self', h') ->
  _accessor_data_map self' !! accessor_index = Some r.
Proof.
  intros Hg.
  destruct (get_data_cases self h accessor accessor_index)
    as [(r0 & Hc & E) | [(e & Hc & E) | (d & Hc & Hm & E)]];
    rewrite E in Hg; inversion Hg; subst; clear Hg.
  - assumption.
  - simpl. apply lookup_insert_eq.
Qed.

Lemma run_calls_preserves (calls : list (pyval * Z))
    (self self' : GLTF2Loader) (h h' : heap) :
  run_calls calls self h = (self', h') ->
  (forall k r, _accessor_data_map self !! k = Some r ->
               _accessor_data_map self' !! k = Some r) /\
  (forall l o, h !! l = Some o -> h' !! l = Some o).
Proof.
  revert self h. induction calls as [|[a i] calls IH]; intros self h Hr.
  - simpl in Hr. inversion Hr; subst. auto.
  - simpl in Hr.
    destruct (get_data self h a i) as [[res self1] h1] eqn:Hg.
    apply get_data_preserves in Hg. destruct Hg as [Hc Hh].
    apply IH in Hr. destruct Hr as [Hc' Hh']. split; eauto.
Qed.

End GetDataState.

Section GetDataClaims.
Context {P : Platform} {G : Gltf2}.

(** C10. A [get_data] call that returns normally changes nothing but the
    accessor cache, and there only the entry of its own index: the cache
    afterwards is the old one with [accessor_index] bound to the returned
    reference, every other index and every entry cached before is as it
    was, and the JSON document, nodes, scenes, skins, meshes, materials,
    images, animations, root directory and all remaining fields of the
    loader are unchanged. Objects already on the heap stay as they were. *)
Theorem get_data_frame (self self' : GLTF2Loader) (h h' : heap)
    (accessor : pyval) (accessor_index : Z) (r : ref) :
  get_data self h accessor accessor_index = (Ok r, self', h') ->
  _accessor_data_map self'
    = <[accessor_index := r]> (_accessor_data_map self) /\
  (forall k, k <> accessor_index ->
     _accessor_data_map self' !! k = _accessor_data_map self !! k) /\
  (forall k r0, _accessor_data_map self !! k = Some r0 ->
     _accessor_data_map self' !! k = Some r0) /\
  (json_data self' = json_data self /\ nodes self' = nodes self /\
   _scenes self' = _scenes self /\ _main_scene self' = _main_scene self /\
   skins self' = skins self /\ _meshes self' = _meshes self /\
   _materials self' = _materials self /\ _images self' = _images self /\
   animations self' = animations self /\ root_dir self' = root_dir self /\
   _asset self' = _asset self /\ binary self' = binary self /\
   usdz_profile self' = usdz_profile self /\
   _optimize_textures self' = _optimize_textures self /\
   _generate_texture_transform_texture self'
     = _generate_texture_transform_texture self) /\
  (forall l o, h !! l = Some o -> h' !! l = Some o).
Proof.
  intros Hg.
  pose proof (get_data_preserves _ _ _ _ _ _ _ Hg) as [Hkeep Hheap].
  destruct (get_data_cases self h accessor accessor_index)
    as [(r0 & Hc & E) | [(e & Hc & E) | (d & Hc & Hm & E)]];
    rewrite E in Hg; inversion Hg; subst; clear Hg.
  - repeat split; auto. symmetry. now apply insert_id.
  - repeat split; auto. intros k Hk. simpl. now rewrite lookup_insert_ne.
Qed.

(** C2. [get_data] is memoized per accessor index for the lifetime of the
    loader. Once a call for an index has returned a sequence object, every
    later call for that index, after any run of other [get_data] calls and
    whatever accessor it is given, returns that very object (the same
    reference) and changes neither the loader nor the heap, and the object
    still holds what it held. Nothing is read for it: the answer is the
    same on any platform (files, network) and for any loader whose cache
    binds the index alike, whatever its document says. *)
Theorem get_data_memoized (self self1 : GLTF2Loader) (h h1 : heap)
    (accessor : pyval) (accessor_index : Z) (r : ref) :
  get_data self h accessor accessor_index = (Ok r, self1, h1) ->
  forall (calls : list (pyval * Z)) (self2 : GLTF2Loader) (h2 : heap)
         (P' : Platform) (accessor' : pyval),
    run_calls calls self1 h1 = (self2, h2) ->
    @get_data P' G self2 h2 accessor' accessor_index = (Ok r, self2, h2) /\
    (forall o, h1 !! r = Some o -> h2 !! r = Some o) /\
    (forall (self3 : GLTF2Loader) (h3 : heap),
        _accessor_data_map self3 !! accessor_index
          = _accessor_data_map self2 !! accessor_index ->
        @get_data P' G self3 h3 accessor' accessor_index = (Ok r, self3, h3)).
Proof.
  intros Hg calls self2 h2 P' accessor' Hrun.
  assert (Hc1 : _accessor_data_map self1 !! accessor_index = Some r)
    by now apply get_data_binds in Hg.
  apply run_calls_preserves in Hrun. destruct Hrun as [Hkeep Hheap].
  assert (Hc2 : _accessor_data_map self2 !! accessor_index = Some r) by auto.
  repeat split.
  - now apply get_data_hit.
  - intros o Ho. auto.
  - intros self3 h3 Hagree. apply get_data_hit. congruence.
Qed.

End GetDataClaims.

(** C10 at the VEC3 example. *)
Lemma get_data_frame_witness :
  Sample.vec3_call
    = (Ok 0%nat, snd (fst Sample.vec3_call), snd Sample.vec3_call) /\
  json_data (snd (fst Sample.vec3_call)) = json_data Sample.vec3_loader /\
  _accessor_data_map (snd (fst Sample.vec3_call)) !! 0 = Some 0%nat.
Proof.
  assert (H : Sample.vec3_call
              = (Ok 0%nat, snd (fst Sample.vec3_call), snd Sample.vec3_call))
    by (vm_compute; reflexivity).
  split; [exact H|].
  destruct (@get_data_frame (Sample.platform Sample.no_json) Sample.gltf2
              _ _ _ _ _ _ _ H) as (Hmap & _ & _ & (Hjson & _) & _).
  split; [exact Hjson|].
  rewrite Hmap. apply lookup_insert_eq.
Defined.

(** C2 at the VEC3 example: asked again with a different accessor. *)
Lemma get_data_memoized_witness :
  Sample.vec3_call
    = (Ok 0%nat, snd (fst Sample.vec3_call), snd Sample.vec3_call) /\
  @get_data (Sample.platform Sample.no_json) Sample.gltf2
    (snd (fst Sample.vec3_call)) (snd Sample.vec3_call)
    (Sample.accessor "SCALAR" 5120 7 false) 0
  = (Ok 0%nat, snd (fst Sample.vec3_call), snd Sample.vec3_call).
Proof.
  assert (H : Sample.vec3_call
              = (Ok 0%nat, snd (fst Sample.vec3_call), snd Sample.vec3_call))
    by (vm_compute; reflexivity).
  split; [exact H|].
  exact (proj1 (@get_data_memoized (Sample.platform Sample.no_json)
                  Sample.gltf2 _ _ _ _ _ _ _ H [] _ _
                  (Sample.platform Sample.no_json)
                  (Sample.accessor "SCALAR" 5120 7 false) eq_refl)).
Defined.

(** ** [get_data]: the failures before and at the component type *)

(** Case analysis on the first step of a chain whose outcome is a failure
    whichever way the step goes. *)
Ltac step_bind :=
  match goal with
  | |- context [bind ?c _] =>
      let E := fresh "E" in
      destruct c eqn:E; cbn [bind]; [| try (eexists; reflexivity)]
  end.

Section GetDataFailures.
Context {P : Platform} {G : Gltf2}.

Lemma data_format_unsupported (accessor : pyval)
    (ct : AccessorComponentType) :
  supported ct = false ->
  data_format accessor ct
    = Raise (Exception "unsupported accessor component type!").
Proof. destruct ct; simpl; intros H; try discriminate; reflexivity. Qed.

(** Whatever the bytes, decoding stops with an exception when the
    component type is not one of the four that are decoded. *)
Lemma decode_unsupported (accessor bufferview buffer_data : pyval) :
  names_supported_type accessor = false ->
  exists e, decode accessor bufferview buffer_data = Raise e.
Proof.
  unfold names_supported_type, decode. intros H.
  destruct (Py.getitem accessor (PStr "componentType")) as [v|e]; simpl in *;
    [| eauto].
  destruct (AccessorComponentType_of v) as [ct|e]; simpl in *; [| eauto].
  rewrite (data_format_unsupported accessor ct H).
  repeat step_bind. eauto.
Qed.

Lemma get_data_miss_unsupported (self : GLTF2Loader) (accessor : pyval) :
  names_supported_type accessor = false ->
  exists e, get_data_miss self accessor = Raise e.
Proof.
  intros H. unfold get_data_miss.
  step_bind. destruct a as [bufferview buffer].
  repeat step_bind.
  apply decode_unsupported. exact H.
Qed.

End GetDataFailures.

Section GetDataFailureClaims.
Context {P : Platform} {G : Gltf2}.

(** The table of [accessor_type_count] agrees with the enumeration. *)
Lemma accessor_type_count_of (accessor : pyval) (t : AccessorType) :
  accessor_type_of accessor = Ok t ->
  exists ty, Py.getitem accessor (PStr "type") = Ok ty /\
             accessor_type_count ty = Ok (Spec.component_count t).
Proof.
  unfold accessor_type_of. intros H. bind_inv H. exists a. split; [assumption|].
  destruct a; simpl in H; try discriminate.
  unfold AccessorType_of in H.
  repeat match type of H with
         | (if String.eqb ?x ?y then _ else _) = _ =>
             destruct (String.eqb_spec x y) as [->|_];
               [inversion H; subst; reflexivity|]
         end.
  discriminate.
Qed.

(** C5. An accessor whose component type is BYTE or SHORT, or no member of
    the enumeration at all, is never decoded. On a cache miss [get_data]
    raises, stores nothing in the cache and allocates no sequence. Where
    the lines before the component type go through (the view and its bytes
    are found), the exception is the enumeration's [ValueError] for a value
    outside it and [Exception('unsupported accessor component type!')] for
    BYTE (5120) and SHORT (5122), once stride and offset are read. *)
Theorem get_data_unsupported_component_type (self : GLTF2Loader) (h : heap)
    (accessor : pyval) (accessor_index : Z) :
  _accessor_data_map self !! accessor_index = None ->
  names_supported_type accessor = false ->
  (exists e, get_data self h accessor accessor_index = (Raise e, self, h)) /\
  (forall bufferview buffer t buffer_data z,
      lookup_view self accessor = Ok (bufferview, buffer) ->
      accessor_type_of accessor = Ok t ->
      resolve_buffer_data self bufferview buffer = Ok buffer_data ->
      Py.getitem accessor (PStr "componentType") = Ok (PInt z) ->
      (component_type_of_Z z = Raise ValueError ->
       get_data self h accessor accessor_index
         = (Raise ValueError, self, h)) /\
      (forall ct stride offset,
          component_type_of_Z z = Ok ct ->
          bytestride_of bufferview
            (Spec.component_count t * accessor_component_type_bytesize ct)
            = Ok stride ->
          offset_of accessor = Ok offset ->
          get_data self h accessor accessor_index
            = (Raise (Exception "unsupported accessor component type!"),
               self, h))).
Proof.
  intros Hmiss Hun. split.
  - destruct (get_data_miss_unsupported self accessor Hun) as [e He].
    exists e. now apply get_data_raise.
  - intros bufferview buffer t buffer_data z Hview Ht Hres Hct.
    destruct (accessor_type_count_of accessor t Ht) as (ty & Hty & Hcount).
    assert (Hmiss_eq : get_data_miss self accessor
                       = decode accessor bufferview buffer_data).
    { unfold get_data_miss. rewrite Hview. cbn [bind]. rewrite Ht.
      cbn [bind]. rewrite Hres. reflexivity. }
    split.
    + intros Hz. apply get_data_raise; [assumption|].
      rewrite Hmiss_eq. unfold decode. rewrite Hct. cbn [bind].
      simpl AccessorComponentType_of. rewrite Hz. reflexivity.
    + intros ct stride offset Hz Hstride Hoff.
      apply get_data_raise; [assumption|].
      rewrite Hmiss_eq. unfold decode. rewrite Hct. cbn [bind].
      simpl AccessorComponentType_of. rewrite Hz. cbn [bind].
      rewrite Hty. cbn [bind]. rewrite Hcount. cbn [bind].
      rewrite Hstride. cbn [bind]. rewrite Hoff. cbn [bind].
      unfold names_supported_type in Hun. rewrite Hct in Hun.
      cbn [bind] in Hun. simpl AccessorComponentType_of in Hun.
      rewrite Hz in Hun.
      now rewrite (data_format_unsupported accessor ct Hun).
Qed.

(** C9. On a loader of the text container form ([binary] is false) a cache
    miss looks up [buffer['uri']] before anything is decoded: when the
    accessor's view and buffer are found, its type is one of the
    enumeration and the buffer dict has no [uri] key, [get_data] raises
    [KeyError('uri')], on any platform, and leaves loader and heap as they
    were. *)
Theorem get_data_text_requires_uri (self : GLTF2Loader) (h : heap)
    (accessor : pyval) (accessor_index : Z)
    (bufferview : pyval) (buffer : list (string * pyval))
    (t : AccessorType) :
  binary self = false ->
  _accessor_data_map self !! accessor_index = None ->
  lookup_view self accessor = Ok (bufferview, PDict buffer) ->
  accessor_type_of accessor = Ok t ->
  Py.dict_get buffer "uri" = None ->
  get_data self h accessor accessor_index
    = (Raise (KeyError (PStr "uri")), self, h).
Proof.
  intros Hbin Hmiss Hview Ht Huri.
  apply get_data_raise; [assumption|].
  unfold get_data_miss. rewrite Hview. cbn [bind]. rewrite Ht. cbn [bind].
  unfold resolve_buffer_data. rewrite Hbin. simpl. rewrite Huri. reflexivity.
Qed.

End GetDataFailureClaims.

(** C5 at a BYTE accessor over the bytes of the VEC3 example. *)
Lemma get_data_unsupported_component_type_witness :
  @get_data (Sample.platform Sample.no_json) Sample.gltf2
    Sample.vec3_loader [] (Sample.accessor "VEC3" 5120 1 true) 0
  = (Raise (Exception "unsupported accessor component type!"),
     Sample.vec3_loader, []).
Proof.
  destruct (@get_data_unsupported_component_type
              (Sample.platform Sample.no_json) Sample.gltf2
              Sample.vec3_loader [] (Sample.accessor "VEC3" 5120 1 true) 0
              eq_refl eq_refl) as [_ H].
  edestruct H as [_ H']; [reflexivity | reflexivity | reflexivity
                         | reflexivity |].
  eapply H'; reflexivity.
Defined.

(** C9 at a text-form loader whose only buffer has no [uri]. *)
Lemma get_data_text_requires_uri_witness :
  @get_data (Sample.platform Sample.no_json) Sample.gltf2
    (Sample.loader (Sample.doc_of [xff; x00; x80] 3 None) false) []
    Sample.vec3_accessor 0
  = (Raise (KeyError (PStr "uri")),
     Sample.loader (Sample.doc_of [xff; x00; x80] 3 None) false, []).
Proof.
  eapply (@get_data_text_requires_uri (Sample.platform Sample.no_json)
            Sample.gltf2); reflexivity.
Defined.

(** ** The main scene *)

Section MainScene.
Context {P : Platform} {G : Gltf2} {C : Gltf2Ctors}.

Lemma seq_index_nil {A} (i : Z) : Py.seq_index (@nil A) i = Raise IndexError.
Proof.
  unfold Py.seq_index. cbv zeta. simpl length. change (Z.of_nat 0) with 0.
  rewrite Z.add_0_r.
  destruct (Z.ltb_spec i 0) as [Hneg|Hpos];
    destruct (Z.leb_spec 0 i); destruct (Z.ltb_spec i 0);
    simpl; try reflexivity; lia.
Qed.

Lemma seq_index_nth {A} (l : list A) (i : Z) (x : A) :
  0 <= i -> nth_error l (Z.to_nat i) = Some x -> Py.seq_index l i = Ok x.
Proof.
  intros Hi Hx. unfold Py.seq_index.
  assert (Hlt : (Z.to_nat i < length l)%nat)
    by (apply nth_error_Some; congruence).
  destruct (Z.ltb_spec i 0); [lia|].
  destruct (Z.leb_spec 0 i); [|lia].
  destruct (Z.ltb_spec i (Z.of_nat (length l))); [|lia].
  simpl. now rewrite Hx.
Qed.

(** No [scenes] key: no scenes and no main scene. *)
Lemma initialize_scenes_absent (d : list (string * pyval)) (ns : list Node) :
  Py.dict_get d "scenes" = None ->
  _initialize_scenes (PDict d) ns = Ok ([], None).
Proof. intros H. unfold _initialize_scenes. simpl. now rewrite H. Qed.

(** Scenes but no [scene] key: the main scene is scene 0. *)
Lemma initialize_scenes_default (d : list (string * pyval)) (ns : list Node)
    (entries : list pyval) (s0 : Scene) (rest : list Scene) :
  Py.dict_get d "scenes" = Some (PList entries) ->
  build_scenes ns entries 0 [] = Ok (s0 :: rest) ->
  Py.dict_get d "scene" = None ->
  _initialize_scenes (PDict d) ns = Ok (s0 :: rest, Some s0).
Proof.
  intros Hs Hb Hk.
  unfold _initialize_scenes. simpl. rewrite Hs. simpl. rewrite Hb. simpl.
  rewrite Hk. reflexivity.
Qed.

(** A [scene] key that is a position of the list: that scene. *)
Lemma initialize_scenes_indexed (d : list (string * pyval)) (ns : list Node)
    (entries : list pyval) (scenes : list Scene) (k : Z) (s : Scene) :
  Py.dict_get d "scenes" = Some (PList entries) ->
  build_scenes ns entries 0 [] = Ok scenes ->
  Py.dict_get d "scene" = Some (PInt k) ->
  0 <= k -> nth_error scenes (Z.to_nat k) = Some s ->
  _initialize_scenes (PDict d) ns = Ok (scenes, Some s).
Proof.
  intros Hs Hb Hk Hpos Hnth.
  unfold _initialize_scenes. simpl. rewrite Hs. simpl. rewrite Hb. simpl.
  rewrite Hk. simpl. now rewrite (seq_index_nth scenes k s Hpos Hnth).
Qed.

(** C8 (where the code departs from it). A document whose [scenes] list is
    empty has no scenes, yet [_initialize_scenes] does not leave the main
    scene at none: it indexes the empty list and raises [IndexError], so
    the loader is never constructed. (With no [scenes] key the main scene
    is none, with scenes it is scene 0 or the scene the [scene] key
    names: [initialize_scenes_absent], [initialize_scenes_default],
    [initialize_scenes_indexed].) *)
Theorem initialize_scenes_empty_list (d : list (string * pyval))
    (ns : list Node) :
  Py.dict_get d "scenes" = Some (PList []) ->
  (Py.dict_get d "scene" = None \/
   exists k, Py.dict_get d "scene" = Some (PInt k)) ->
  _initialize_scenes (PDict d) ns = Raise IndexError.
Proof.
  intros Hs Hk. unfold _initialize_scenes. simpl. rewrite Hs. simpl.
  destruct Hk as [Hk | [k Hk]]; rewrite Hk; simpl.
  - reflexivity.
  - now rewrite seq_index_nil.
Qed.

(** The whole assembler on the document [{"scenes": []}]. *)
Lemma initialize_empty_scenes_document (profile : USDZProfile)
    (root : string) (o g b : bool) (h : heap) :
  _initialize
    (mkBare profile root o g (Some (PDict [("scenes"%string, PList [])])) b) h
  = Raise IndexError.
Proof. reflexivity. Qed.

End MainScene.

(** ** The binary container *)

(** *** Words and headers *)

Lemma byte_of_Z_value (z : Z) :
  Z.of_N (Byte.to_N (byte_of_Z z)) = z mod 256.
Proof.
  unfold byte_of_Z.
  assert (Hr : 0 <= z mod 256 < 256) by (apply Z.mod_pos_bound; lia).
  destruct (Byte.of_N (Z.to_N (z mod 256))) as [b|] eqn:E.
  - apply Byte.to_of_N in E. rewrite E. apply Z2N.id. lia.
  - apply Byte.of_N_None_iff in E. lia.
Qed.

Lemma le_uint_uint32_le (z : Z) :
  0 <= z < 2 ^ 32 -> Py.le_uint (uint32_le z) = z.
Proof.
  intros Hz. unfold uint32_le, Py.le_uint. simpl fold_right.
  rewrite !byte_of_Z_value.
  change 65536 with (256 * 256). change 16777216 with (256 * 256 * 256).
  rewrite <- !Z.div_div by lia.
  set (a := z / 256). set (b := a / 256). set (c := b / 256).
  assert (Ha : z = 256 * a + z mod 256) by (apply Z.div_mod; lia).
  assert (Hb : a = 256 * b + a mod 256) by (apply Z.div_mod; lia).
  assert (Hc : b = 256 * c + b mod 256) by (apply Z.div_mod; lia).
  assert (Hza : 0 <= z mod 256 < 256) by (apply Z.mod_pos_bound; lia).
  assert (Hab : 0 <= a mod 256 < 256) by (apply Z.mod_pos_bound; lia).
  assert (Hbc : 0 <= b mod 256 < 256) by (apply Z.mod_pos_bound; lia).
  assert (Hc0 : 0 <= c < 256).
  { change (2 ^ 32) with 4294967296 in Hz. lia. }
  rewrite (Z.mod_small c 256) by lia. lia.
Qed.

Lemma frombuffer_two (a b : Z) :
  0 <= a < 2 ^ 32 -> 0 <= b < 2 ^ 32 ->
  frombuffer_uint32 (uint32_le a ++ uint32_le b) = Ok [a; b].
Proof.
  intros Ha Hb.
  change (frombuffer_uint32 (uint32_le a ++ uint32_le b))
    with (Ok [Py.le_uint (uint32_le a); Py.le_uint (uint32_le b)]
          : outcome (list Z)).
  now rewrite !le_uint_uint32_le.
Qed.

Lemma frombuffer_three (a b c : Z) :
  0 <= a < 2 ^ 32 -> 0 <= b < 2 ^ 32 -> 0 <= c < 2 ^ 32 ->
  frombuffer_uint32 (glb_header a b c) = Ok [a; b; c].
Proof.
  intros Ha Hb Hc.
  change (frombuffer_uint32 (glb_header a b c))
    with (Ok [Py.le_uint (uint32_le a); Py.le_uint (uint32_le b);
              Py.le_uint (uint32_le c)] : outcome (list Z)).
  now rewrite !le_uint_uint32_le.
Qed.

(** A buffer that decodes to two words is eight bytes long. *)
Lemma frombuffer_two_length (b : list byte) (x y : Z) :
  (length b <= 8)%nat ->
  frombuffer_uint32 b = Ok [x; y] -> length b = 8%nat.
Proof.
  intros Hlen H.
  do 9 (destruct b as [|? b]; simpl in *; try discriminate; try lia).
Qed.

(** Every word that [np.frombuffer] yields is a [uint32]. *)
Lemma frombuffer_range (n : nat) :
  forall (b : list byte) (ws : list Z),
    (length b <= n)%nat ->
    frombuffer_uint32 b = Ok ws ->
    Forall (fun w => 0 <= w < 2 ^ 32) ws.
Proof.
  induction n as [|n IH]; intros b ws Hlen H.
  - destruct b; [|simpl in Hlen; lia]. inversion H. constructor.
  - destruct b as [|b0 [|b1 [|b2 [|b3 b']]]]; try discriminate.
    + inversion H. constructor.
    + cbn [frombuffer_uint32] in H. bind_inv H. inversion H; subst.
      constructor.
      * unfold Py.le_uint. simpl fold_right.
        pose proof (Byte.to_N_bounded b0). pose proof (Byte.to_N_bounded b1).
        pose proof (Byte.to_N_bounded b2). pose proof (Byte.to_N_bounded b3).
        change (2 ^ 32) with 4294967296. lia.
      * apply (IH b'); [simpl in Hlen; lia | assumption].
Qed.

(** *** The chunk loop *)

Section ChunkLoop.
Context {P : Platform}.

(** A turn that goes on has read an eight-byte header and counted its
    eight bytes and the announced length. *)
Lemma chunk_step_next (root : string) (file_size : Z) (s s' : demux_state) :
  chunk_step root file_size s = Ok (Next s') ->
  exists chunk_size chunk_type,
    frombuffer_uint32 (firstn 8 (file_buffer s)) = Ok [chunk_size; chunk_type] /\
    total_bytes_read s' = uint32_add (total_bytes_read s + 8) chunk_size /\
    file_buffer s' = skipn (Z.to_nat chunk_size) (skipn 8 (file_buffer s)).
Proof.
  unfold chunk_step. intros H.
  destruct (firstn 8 (file_buffer s)) as [|b0 hdr] eqn:Hh.
  - destruct (negb (total_bytes_read s =? file_size)); discriminate.
  - destruct (frombuffer_uint32 (b0 :: hdr)) as [ws|e]; [|discriminate].
    cbn [bind] in H.
    destruct ws as [|chunk_size [|chunk_type [|? ?]]]; try discriminate.
    exists chunk_size, chunk_type. split; [reflexivity|].
    bind_inv H. inversion H; subst; simpl. auto.
Qed.

Lemma chunk_step_shrinks (root : string) (file_size : Z) (s s' : demux_state) :
  chunk_step root file_size s = Ok (Next s') ->
  (length (file_buffer s') + 8 <= length (file_buffer s))%nat.
Proof.
  intros H. apply chunk_step_next in H.
  destruct H as (chunk_size & chunk_type & Hh & _ & Hb).
  apply frombuffer_two_length in Hh; [|rewrite length_firstn; lia].
  rewrite length_firstn in Hh. rewrite Hb, !length_skipn. lia.
Qed.

(** The loop ends: fuel beyond the bytes ahead is enough. *)
Lemma chunk_loop_total (root : string) (file_size : Z) (fuel : nat) :
  forall s : demux_state,
    (length (file_buffer s) < fuel)%nat ->
    exists r, chunk_loop fuel root file_size s = Some r.
Proof.
  induction fuel as [|fuel IH]; intros s Hlen; [lia|].
  simpl. destruct (chunk_step root file_size s) as [[|s']|e] eqn:E; eauto.
  apply IH. apply chunk_step_shrinks in E. lia.
Qed.

(** At the end of the stream the byte count decides. *)
Lemma chunk_step_end (root : string) (file_size : Z) (s : demux_state) :
  file_buffer s = [] ->
  chunk_step root file_size s
  = if total_bytes_read s =? file_size then Ok Break else Raise TypeError.
Proof.
  intros H. unfold chunk_step. rewrite H. simpl.
  destruct (total_bytes_read s =? file_size); reflexivity.
Qed.

(** The count after some chunks: what it was plus 8 + chunkLength for
    every chunk, modulo 2^32. *)
Lemma consumes_total (root : string) (file_size : Z)
    (s s' : demux_state) (sizes : list Z) :
  consumes root file_size s sizes s' ->
  (0 <= total_bytes_read s < 2 ^ 32 ->
   total_bytes_read s'
   = (total_bytes_read s + consumed_bytes sizes - 12) mod 2 ^ 32) /\
  (8 * length sizes + length (file_buffer s') <= length (file_buffer s))%nat.
Proof.
  unfold consumed_bytes.
  induction 1 as [s | s s1 s2 chunk_size chunk_type sizes Hh Hstep Hrest IH].
  - split; [|simpl; lia]. intros Hs. simpl.
    replace (total_bytes_read s + (12 + 0) - 12) with (total_bytes_read s)
      by lia.
    symmetry. apply Z.mod_small. exact Hs.
  - destruct IH as [IHt IHl].
    pose proof (chunk_step_shrinks _ _ _ _ Hstep) as Hshrink.
    apply chunk_step_next in Hstep.
    destruct Hstep as (cs & ct & Hh' & Ht & _).
    rewrite Hh in Hh'. inversion Hh'; subst cs ct. split; [|simpl; lia].
    intros Hs. rewrite IHt.
    + rewrite Ht. unfold uint32_add. simpl fold_right.
      rewrite <- Z.add_sub_assoc, Z.add_mod_idemp_l by lia.
      f_equal. lia.
    + rewrite Ht. unfold uint32_add. apply Z.mod_pos_bound. lia.
Qed.

(** From the start of the loop the count is the byte count of the chunks
    modulo 2^32. *)
Lemma consumes_count (root : string) (file_size : Z) (ahead : list byte)
    (json : option pyval) (s' : demux_state) (sizes : list Z) :
  consumes root file_size (mkDemux ahead 12 json) sizes s' ->
  total_bytes_read s' = consumed_bytes sizes mod 2 ^ 32.
Proof.
  intros H. apply consumes_total in H. destruct H as [H _].
  cbn [total_bytes_read] in H. rewrite H by lia. f_equal. lia.
Qed.

(** The loop follows the chunks it handles. *)
Lemma chunk_loop_consumes (root : string) (file_size : Z)
    (s s' : demux_state) (sizes : list Z) :
  consumes root file_size s sizes s' ->
  forall fuel,
    (length (file_buffer s) < fuel)%nat ->
    exists fuel',
      (length (file_buffer s') < fuel')%nat /\
      chunk_loop fuel root file_size s = chunk_loop fuel' root file_size s'.
Proof.
  induction 1 as [s | s s1 s2 chunk_size chunk_type sizes Hh Hstep Hrest IH];
    intros fuel Hfuel.
  - exists fuel. auto.
  - destruct fuel as [|fuel]; [lia|].
    pose proof (chunk_step_shrinks _ _ _ _ Hstep) as Hshrink.
    destruct (IH fuel ltac:(lia)) as (fuel' & Hf' & E).
    exists fuel'. split; [assumption|]. simpl. now rewrite Hstep.
Qed.

End ChunkLoop.

(** *** Construction *)

Section Construction.
Context {P : Platform} {G : Gltf2} {C : Gltf2Ctors}.

(** [demux_glb] always answers: the chunk loop never runs out of fuel. *)
Lemma demux_glb_total (root : string) (content : list byte) :
  exists r, demux_glb root content = Some r.
Proof.
  unfold demux_glb.
  destruct (frombuffer_uint32 (firstn 12 content)) as [ws|e]; [|eauto].
  destruct ws as [|magic [|version [|file_size [|? ?]]]]; eauto.
  destruct (magic =? MAGIC); [|eauto].
  destruct (negb (version =? 2)); [eauto|].
  destruct (chunk_loop_total root file_size (S (length content))
              (mkDemux (skipn 12 content) 12 None)) as [r Hr].
  { simpl. rewrite length_skipn. lia. }
  rewrite Hr. destruct r; eauto.
Qed.

(** So does the constructor. *)
Lemma init_total (gltf_file : string) (profile : USDZProfile) (o g : bool)
    (h : heap) :
  exists r, __init__ gltf_file profile o g h = Some r.
Proof.
  unfold __init__.
  destruct (negb (os_path_isfile gltf_file)); [eauto|].
  destruct (negb (str_endswith gltf_file ".gltf")
            && negb (str_endswith gltf_file ".glb")); [eauto|].
  destruct (str_endswith gltf_file ".glb").
  - destruct (open_rb gltf_file) as [content|e]; [|eauto].
    destruct (demux_glb_total (os_path_dirname gltf_file) content) as [r Hr].
    rewrite Hr. destruct r as [bound|e]; eauto.
  - destruct (load_gltf gltf_file); eauto.
Qed.

Lemma initialize_binary (self : bare_loader) (h h' : heap)
    (loader : GLTF2Loader) :
  _initialize self h = Ok (loader, h') ->
  binary loader = bare_binary self /\
  bare_json_data self = Some (json_data loader).
Proof.
  unfold _initialize. intros H. repeat bind_inv H.
  inversion H; subst; simpl. split; [reflexivity|].
  destruct (bare_json_data self); simpl in *; congruence.
Qed.

(** A constructed loader is binary exactly when its file is a [.glb]. *)
Lemma init_binary (gltf_file : string) (profile : USDZProfile) (o g : bool)
    (h h' : heap) (loader : GLTF2Loader) :
  __init__ gltf_file profile o g h = Some (Ok (loader, h')) ->
  binary loader = str_endswith gltf_file ".glb".
Proof.
  unfold __init__. intros H.
  destruct (negb (os_path_isfile gltf_file)); [discriminate|].
  destruct (negb (str_endswith gltf_file ".gltf")
            && negb (str_endswith gltf_file ".glb")); [discriminate|].
  destruct (str_endswith gltf_file ".glb").
  - destruct (open_rb gltf_file) as [content|e]; [|discriminate].
    destruct (demux_glb (os_path_dirname gltf_file) content)
      as [[bound|e]|]; try discriminate.
    inversion H as [H']. now apply initialize_binary in H'.
  - destruct (load_gltf gltf_file) as [doc|e]; [|discriminate].
    inversion H as [H']. now apply initialize_binary in H'.
Qed.

(** C3 (where the code departs from it). A [.glb] file whose first header
    word is not the magic constant makes construction fail before any JSON
    is parsed, but not at the magic test and not with a format error: the
    test has no else branch, so the chunk loop is skipped, [json_data]
    stays unbound, [binary] is set, and [_initialize_asset] then raises
    [AttributeError] on reading [self.json_data]. *)
Theorem init_bad_magic (gltf_file : string) (profile : USDZProfile)
    (o g : bool) (h : heap) (content : list byte)
    (magic version file_size : Z) :
  os_path_isfile gltf_file = true ->
  str_endswith gltf_file ".glb" = true ->
  open_rb gltf_file = Ok content ->
  frombuffer_uint32 (firstn 12 content) = Ok [magic; version; file_size] ->
  magic <> MAGIC ->
  demux_glb (os_path_dirname gltf_file) content = Some (Ok None) /\
  __init__ gltf_file profile o g h
    = Some (Raise (AttributeError "json_data")).
Proof.
  intros Hfile Hglb Hopen Hhdr Hmagic.
  assert (Hd : demux_glb (os_path_dirname gltf_file) content = Some (Ok None)).
  { unfold demux_glb. rewrite Hhdr.
    destruct (Z.eqb_spec magic MAGIC); [contradiction | reflexivity]. }
  split; [exact Hd|].
  unfold __init__. rewrite Hfile, Hglb, Hopen, Hd. simpl.
  rewrite andb_false_r. reflexivity.
Qed.

(** When the stream is exhausted the count, which is the byte count of
    the chunks modulo 2^32, decides. *)
Lemma demux_glb_at_end (root : string) (content : list byte)
    (file_size : Z) (sizes : list Z) (s_end : demux_state) :
  frombuffer_uint32 (firstn 12 content) = Ok [MAGIC; 2; file_size] ->
  consumes root file_size (mkDemux (skipn 12 content) 12 None) sizes s_end ->
  file_buffer s_end = [] ->
  demux_glb root content
  = Some (if consumed_bytes sizes mod 2 ^ 32 =? file_size
          then Ok (demux_json_data s_end) else Raise TypeError).
Proof.
  intros Hhdr Hcons Hend.
  unfold demux_glb. rewrite Hhdr.
  destruct (chunk_loop_consumes _ _ _ _ _ Hcons (S (length content)))
    as (fuel' & Hfuel' & E).
  { simpl. rewrite length_skipn. lia. }
  rewrite E. destruct fuel' as [|fuel']; [lia|].
  simpl. rewrite (chunk_step_end root file_size s_end Hend).
  rewrite (consumes_count _ _ _ _ _ _ Hcons).
  destruct (_ =? file_size); reflexivity.
Qed.

(** When the stream is exhausted and the count agrees, the document that
    the chunks bound is the result. *)
Lemma demux_glb_byte_count_match (root : string) (content : list byte)
    (file_size : Z) (sizes : list Z) (s_end : demux_state) :
  frombuffer_uint32 (firstn 12 content) = Ok [MAGIC; 2; file_size] ->
  consumes root file_size (mkDemux (skipn 12 content) 12 None) sizes s_end ->
  file_buffer s_end = [] ->
  file_size = consumed_bytes sizes ->
  demux_glb root content = Some (Ok (demux_json_data s_end)).
Proof.
  intros Hhdr Hcons Hend Hsize.
  rewrite (demux_glb_at_end _ _ _ _ _ Hhdr Hcons Hend).
  assert (Hrange : 0 <= file_size < 2 ^ 32).
  { apply (frombuffer_range 12) in Hhdr; [|rewrite length_firstn; lia].
    inversion Hhdr as [|? ? _ Hrest]. inversion Hrest as [|? ? _ Hrest'].
    inversion Hrest' as [|? ? Hfs _]. exact Hfs. }
  rewrite <- Hsize, Z.mod_small by exact Hrange.
  now rewrite Z.eqb_refl.
Qed.

(** C4 (where the code departs from it). The loop counts 12 bytes for the
    header and 8 + chunkLength for every chunk, and when the stream is
    exhausted it compares the count with the declared total. The count is
    kept as a [uint32], so it is the byte count modulo 2^32. Where it
    differs from the declared total demuxing does fail, but the
    [raise ValueError(...)] statement never gets to raise: building its
    message adds a number to a string, which raises [TypeError], the
    exception of an unknown chunk type. Where the two agree the container
    is accepted, also when the byte count itself is 2^32 or more above the
    declared total. *)
Theorem demux_glb_byte_count_mismatch (root : string) (content : list byte)
    (file_size : Z) (sizes : list Z) (s_end : demux_state) :
  frombuffer_uint32 (firstn 12 content) = Ok [MAGIC; 2; file_size] ->
  consumes root file_size (mkDemux (skipn 12 content) 12 None) sizes s_end ->
  file_buffer s_end = [] ->
  total_bytes_read s_end = consumed_bytes sizes mod 2 ^ 32 /\
  (file_size <> consumed_bytes sizes mod 2 ^ 32 ->
   demux_glb root content = Some (Raise TypeError)) /\
  (file_size = consumed_bytes sizes mod 2 ^ 32 ->
   demux_glb root content = Some (Ok (demux_json_data s_end))).
Proof.
  intros Hhdr Hcons Hend.
  split; [exact (consumes_count _ _ _ _ _ _ Hcons)|].
  rewrite (demux_glb_at_end _ _ _ _ _ Hhdr Hcons Hend).
  split; intros Hsize.
  - destruct (Z.eqb_spec (consumed_bytes sizes mod 2 ^ 32) file_size);
      [congruence | reflexivity].
  - destruct (Z.eqb_spec (consumed_bytes sizes mod 2 ^ 32) file_size);
      [reflexivity | congruence].
Qed.

End Construction.

(** *** Chunks in order *)

Section ChunkOrder.
Context {P : Platform}.

Lemma length_uint32_le (z : Z) : length (uint32_le z) = 4%nat.
Proof. reflexivity. Qed.

Lemma length_chunk_bytes (chunk_type : Z) (payload : list byte) :
  length (chunk_bytes chunk_type payload) = (8 + length payload)%nat.
Proof. unfold chunk_bytes. rewrite !length_app, !length_uint32_le. lia. Qed.

(** [l[:n]] for a bound that is not negative. *)
Lemma seq_slice_upto {A} (l : list A) (n : Z) :
  0 <= n -> Py.seq_slice l None (Some n) = firstn (Z.to_nat n) l.
Proof.
  intros Hn. unfold Py.seq_slice, Py.clamp.
  change (skipn (Z.to_nat 0) l) with l.
  destruct (Z.ltb_spec n 0); [lia|]. rewrite Z.sub_0_r.
  destruct (Z.min_spec n (Z.of_nat (length l))) as [[Hlt ->]|[Hge ->]].
  - reflexivity.
  - rewrite Nat2Z.id. rewrite firstn_all.
    symmetry. apply firstn_all2. lia.
Qed.

(** A turn that finds a whole chunk ahead hands its payload to
    [handle_chunk] and moves behind it. *)
Lemma chunk_step_at_chunk (root : string) (file_size : Z) (s : demux_state)
    (chunk_type : Z) (payload rest : list byte) :
  file_buffer s = chunk_bytes chunk_type payload ++ rest ->
  Z.of_nat (length payload) < 2 ^ 32 ->
  0 <= chunk_type < 2 ^ 32 ->
  frombuffer_uint32 (firstn 8 (file_buffer s))
    = Ok [Z.of_nat (length payload); chunk_type] /\
  chunk_step root file_size s
    = (json_data <- handle_chunk root (demux_json_data s) chunk_type payload ;;
       Ok (Next (mkDemux rest
                   (uint32_add (total_bytes_read s + 8)
                      (Z.of_nat (length payload)))
                   (Some json_data)))).
Proof.
  intros Hbuf Hlen Htype.
  set (hdr := uint32_le (Z.of_nat (length payload)) ++ uint32_le chunk_type).
  assert (Hlayout : file_buffer s = hdr ++ (payload ++ rest)).
  { rewrite Hbuf. unfold chunk_bytes, hdr. now rewrite <- !app_assoc. }
  assert (Hfirst : firstn 8 (file_buffer s) = hdr).
  { rewrite Hlayout. now apply take_app_length'. }
  assert (Hskip : skipn 8 (file_buffer s) = payload ++ rest).
  { rewrite Hlayout. now apply drop_app_length'. }
  assert (Hwords : frombuffer_uint32 hdr
                   = Ok [Z.of_nat (length payload); chunk_type]).
  { apply frombuffer_two; lia. }
  split; [now rewrite Hfirst|].
  unfold chunk_step. rewrite Hfirst, Hskip, Hwords. cbn [bind].
  rewrite Nat2Z.id, take_app_length, drop_app_length.
  reflexivity.
Qed.

Lemma handle_json_chunk (root : string) (json : option pyval)
    (chunk : list byte) :
  handle_chunk root json JSON_CHUNK chunk = json_loads chunk.
Proof. reflexivity. Qed.

(** A binary chunk needs the document: before the JSON chunk there is
    none. *)
Lemma handle_binary_chunk_unbound (root : string) (chunk : list byte) :
  handle_chunk root None BINARY_CHUNK chunk
  = Raise (AttributeError "json_data").
Proof. reflexivity. Qed.

(** A binary chunk after the JSON chunk becomes the data of the first
    buffer, cut to its [byteLength], when that buffer names no [uri]. *)
Lemma handle_binary_chunk_bound (root : string) (chunk : list byte)
    (d buffer : list (string * pyval)) (others : list pyval) (n : Z) :
  Py.dict_get d "buffers" = Some (PList (PDict buffer :: others)) ->
  Py.dict_get buffer "uri" = None ->
  Py.dict_get buffer "byteLength" = Some (PInt n) ->
  0 <= n ->
  handle_chunk root (Some (PDict d)) BINARY_CHUNK chunk
  = Ok (PDict (Py.dict_set d "buffers"
                 (PList (PDict (Py.dict_set buffer "data"
                                  (PByteArray (firstn (Z.to_nat n) chunk)))
                           :: others)))).
Proof.
  intros Hbuffers Huri Hlen Hn.
  unfold handle_chunk.
  change (BINARY_CHUNK =? JSON_CHUNK) with false.
  change (BINARY_CHUNK =? BINARY_CHUNK) with true.
  assert (Hfirst : Py.seq_index (PDict buffer :: others) 0 = Ok (PDict buffer)).
  { apply seq_index_nth; [lia | reflexivity]. }
  cbn [read_json_data bind Py.getitem]. rewrite Hbuffers.
  cbn [bind Py.getitem Py.as_index]. rewrite Hfirst.
  cbn [bind dict_method_get]. rewrite Huri.
  cbn [Py.truthy Py.getitem]. rewrite Hlen. cbn [bind].
  unfold Py.getslice. cbn [Py.as_bound Py.as_index bind].
  rewrite seq_slice_upto by assumption.
  unfold bind_buffer0_data. now rewrite Hbuffers.
Qed.

End ChunkOrder.

Section ChunkOrderClaims.
Context {P : Platform}.

Lemma glb_header_split (magic version total : Z) (body : list byte) :
  firstn 12 (glb_header magic version total ++ body)
    = glb_header magic version total /\
  skipn 12 (glb_header magic version total ++ body) = body.
Proof.
  split; [now apply take_app_length' | now apply drop_app_length'].
Qed.

(** C6, as the code has it. The demuxer tells chunks apart by their type
    tag, but it binds a binary chunk into the document the JSON chunk has
    produced, so the order of the two matters. For every container of
    version 2 whose declared length is right and whose JSON chunk parses:
    with the JSON chunk alone the document is bound as parsed; with the
    JSON chunk followed by a binary chunk the document is bound with
    [buffers[0]['data']] set to the first [byteLength] bytes of the chunk
    (the buffer naming no [uri]); and a container whose binary chunk comes
    first is refused with [AttributeError], whatever follows. *)
Theorem demux_glb_json_first (root : string) (json bin : list byte)
    (doc : pyval) (total : Z) :
  json_loads json = Ok doc ->
  0 <= total < 2 ^ 32 ->
  Z.of_nat (length json) < 2 ^ 32 ->
  Z.of_nat (length bin) < 2 ^ 32 ->
  (total = consumed_bytes [Z.of_nat (length json)] ->
   demux_glb root (glb_header MAGIC 2 total ++ chunk_bytes JSON_CHUNK json)
   = Some (Ok (Some doc))) /\
  (forall (d buffer : list (string * pyval)) (others : list pyval) (n : Z),
      total = consumed_bytes [Z.of_nat (length json); Z.of_nat (length bin)] ->
      doc = PDict d ->
      Py.dict_get d "buffers" = Some (PList (PDict buffer :: others)) ->
      Py.dict_get buffer "uri" = None ->
      Py.dict_get buffer "byteLength" = Some (PInt n) ->
      0 <= n ->
      demux_glb root
        (glb_header MAGIC 2 total ++ chunk_bytes JSON_CHUNK json
           ++ chunk_bytes BINARY_CHUNK bin)
      = Some (Ok (Some
          (PDict (Py.dict_set d "buffers"
                    (PList (PDict (Py.dict_set buffer "data"
                                     (PByteArray (firstn (Z.to_nat n) bin)))
                              :: others))))))) /\
  (forall rest : list byte,
      demux_glb root
        (glb_header MAGIC 2 total ++ chunk_bytes BINARY_CHUNK bin ++ rest)
      = Some (Raise (AttributeError "json_data"))).
Proof.
  intros Hloads Htotal Hjson Hbin.
  assert (Hmagic : 0 <= MAGIC < 2 ^ 32) by (unfold MAGIC; lia).
  assert (Hjt : 0 <= JSON_CHUNK < 2 ^ 32) by (unfold JSON_CHUNK; lia).
  assert (Hbt : 0 <= BINARY_CHUNK < 2 ^ 32) by (unfold BINARY_CHUNK; lia).
  assert (Hhdr : forall body,
             frombuffer_uint32
               (firstn 12 (glb_header MAGIC 2 total ++ body))
             = Ok [MAGIC; 2; total]).
  { intros body. rewrite (proj1 (glb_header_split _ _ _ body)).
    apply frombuffer_three; lia. }
  split; [|split].
  - intros Hsize.
    set (s0 := mkDemux (chunk_bytes JSON_CHUNK json) 12 None).
    destruct (chunk_step_at_chunk root total s0 JSON_CHUNK json [])
      as [Hw Hstep]; [symmetry; apply app_nil_r | lia | lia |].
    rewrite handle_json_chunk, Hloads in Hstep. cbn [bind] in Hstep.
    eapply (demux_glb_byte_count_match root _ total
              [Z.of_nat (length json)]
              (mkDemux [] (uint32_add (12 + 8) (Z.of_nat (length json)))
                 (Some doc)));
      [apply Hhdr | | reflexivity | exact Hsize].
    rewrite (proj2 (glb_header_split _ _ _ _)).
    eapply consumes_cons; [exact Hw | exact Hstep | apply consumes_nil].
  - intros d buffer others n Hsize -> Hbuffers Huri Hlen Hn.
    set (s0 := mkDemux (chunk_bytes JSON_CHUNK json
                          ++ chunk_bytes BINARY_CHUNK bin) 12 None).
    destruct (chunk_step_at_chunk root total s0 JSON_CHUNK json
                (chunk_bytes BINARY_CHUNK bin))
      as [Hw0 Hstep0]; [reflexivity | lia | lia |].
    rewrite handle_json_chunk, Hloads in Hstep0. cbn [bind] in Hstep0.
    set (s1 := mkDemux (chunk_bytes BINARY_CHUNK bin)
                 (uint32_add (12 + 8) (Z.of_nat (length json)))
                 (Some (PDict d))).
    destruct (chunk_step_at_chunk root total s1 BINARY_CHUNK bin [])
      as [Hw1 Hstep1]; [symmetry; apply app_nil_r | lia | lia |].
    cbn [demux_json_data s1] in Hstep1.
    rewrite (handle_binary_chunk_bound root bin d buffer others n
               Hbuffers Huri Hlen Hn) in Hstep1.
    cbn [bind] in Hstep1.
    match type of Hstep1 with
    | _ = Ok (Next ?s2) =>
        apply (demux_glb_byte_count_match root _ total
                 [Z.of_nat (length json); Z.of_nat (length bin)] s2);
          [apply Hhdr | | reflexivity | exact Hsize]
    end.
    rewrite (proj2 (glb_header_split _ _ _ _)).
    eapply consumes_cons; [exact Hw0 | exact Hstep0 |].
    eapply consumes_cons; [exact Hw1 | exact Hstep1 | apply consumes_nil].
  - intros rest. unfold demux_glb. rewrite Hhdr.
    rewrite (proj2 (glb_header_split _ _ _ _)).
    change (MAGIC =? MAGIC) with true. change (negb (2 =? 2)) with false.
    cbv iota.
    set (s0 := mkDemux (chunk_bytes BINARY_CHUNK bin ++ rest) 12 None).
    destruct (chunk_step_at_chunk root total s0 BINARY_CHUNK bin rest)
      as [_ Hstep]; [reflexivity | lia | lia |].
    cbn [demux_json_data s0] in Hstep.
    rewrite handle_binary_chunk_unbound in Hstep. cbn [bind] in Hstep.
    cbn [chunk_loop]. now rewrite Hstep.
Qed.

End ChunkOrderClaims.

(** C6 as stated fails: the same two chunks, JSON first and binary first.
    Both files are well-formed containers of 64 bytes with one JSON chunk
    and one binary chunk; the first is demuxed, the second is refused. *)
Lemma demux_glb_order_matters :
  @demux_glb (Sample.platform Sample.loads) EmptyString Sample.glb_json_first
  = Some (Ok (Some
      (PDict [("buffers"%string,
               PList [PDict [("byteLength"%string, PInt 4);
                             ("data"%string,
                              PByteArray Sample.bin_payload)]])]))) /\
  @demux_glb (Sample.platform Sample.loads) EmptyString Sample.glb_binary_first
  = Some (Raise (AttributeError "json_data")).
Proof. split; vm_compute; reflexivity. Qed.

(** C6, amended, at the sample container with the JSON chunk first. *)
Lemma demux_glb_json_first_witness :
  @demux_glb (Sample.platform Sample.loads) EmptyString Sample.glb_json_first
  = Some (Ok (Some
      (PDict [("buffers"%string,
               PList [PDict [("byteLength"%string, PInt 4);
                             ("data"%string,
                              PByteArray Sample.bin_payload)]])]))).
Proof.
  destruct (@demux_glb_json_first (Sample.platform Sample.loads) EmptyString
              Sample.json_text Sample.bin_payload Sample.json_doc 64
              eq_refl ltac:(lia) ltac:(simpl; lia) ltac:(simpl; lia))
    as (_ & H & _).
  exact (H [("buffers"%string, PList [PDict [("byteLength"%string, PInt 4)]])]
           [("byteLength"%string, PInt 4)] [] 4
           eq_refl eq_refl eq_refl eq_refl eq_refl ltac:(lia)).
Defined.

(** C3 at the sample container with a zeroed magic word. *)
Lemma init_bad_magic_witness :
  @__init__
    (Sample.platform_of (Sample.one_file "model.glb" Sample.glb_bad_magic)
       Sample.loads)
    Sample.gltf2 Sample.ctors "model.glb" tt false true []
  = Some (Raise (AttributeError "json_data")).
Proof.
  refine (proj2 (@init_bad_magic
                   (Sample.platform_of
                      (Sample.one_file "model.glb" Sample.glb_bad_magic)
                      Sample.loads)
                   Sample.gltf2 Sample.ctors "model.glb" tt false true []
                   Sample.glb_bad_magic 0 2 64
                   eq_refl eq_refl eq_refl eq_refl _)).
  unfold MAGIC. lia.
Defined.

(** C4 at the sample container that declares 999 bytes and has 52. *)
Lemma demux_glb_byte_count_mismatch_witness :
  @demux_glb (Sample.platform Sample.loads) EmptyString Sample.glb_wrong_total
  = Some (Raise TypeError).
Proof.
  refine (proj1 (proj2 (@demux_glb_byte_count_mismatch
                          (Sample.platform Sample.loads) EmptyString
                          Sample.glb_wrong_total 999 [32]
                          (mkDemux [] 52 (Some Sample.json_doc))
                          eq_refl _ eq_refl)) _).
  - eapply consumes_cons with (chunk_type := JSON_CHUNK);
      [reflexivity | reflexivity | apply consumes_nil].
  - vm_compute. discriminate.
Defined.

(** C8 at the document [{"scenes": []}]. *)
Lemma initialize_scenes_empty_list_witness :
  @_initialize_scenes Sample.gltf2 Sample.ctors
    (PDict [("scenes"%string, PList [])]) []
  = Raise IndexError.
Proof.
  exact (@initialize_scenes_empty_list Sample.gltf2 Sample.ctors
           [("scenes"%string, PList [])] [] eq_refl (or_introl eq_refl)).
Defined.

(** ** [get_data]: the decoded sequence *)

Section Decoding.

(** A slice that lies inside the sequence. *)
Lemma seq_slice_inside {A} (l : list A) (x n : Z) :
  0 <= x -> 0 <= n -> x + n <= Z.of_nat (length l) ->
  Py.seq_slice l (Some x) (Some (x + n))
    = firstn (Z.to_nat n) (skipn (Z.to_nat x) l).
Proof.
  intros Hx Hn Hfit. unfold Py.seq_slice, Py.clamp.
  destruct (Z.ltb_spec x 0); [lia|].
  destruct (Z.ltb_spec (x + n) 0); [lia|].
  rewrite !Z.min_l by lia. f_equal. lia.
Qed.

(** The length of a slice that starts inside the sequence. *)
Lemma seq_slice_length {A} (l : list A) (x n : Z) :
  0 <= x -> 0 <= n ->
  Z.of_nat (length (Py.seq_slice l (Some x) (Some (x + n))))
    = Z.max 0 (Z.min (x + n) (Z.of_nat (length l)) - x).
Proof.
  intros Hx Hn. unfold Py.seq_slice, Py.clamp.
  destruct (Z.ltb_spec x 0); [lia|].
  destruct (Z.ltb_spec (x + n) 0); [lia|].
  rewrite length_firstn, length_skipn. lia.
Qed.

Lemma window_length (data : list byte) (x n : Z) :
  0 <= x -> 0 <= n -> x + n <= Z.of_nat (length data) ->
  length (Spec.window data x n) = Z.to_nat n.
Proof.
  intros Hx Hn Hfit. unfold Spec.window.
  rewrite length_firstn, length_skipn. lia.
Qed.

Lemma getslice_bytes (buffer_data : pyval) (data : list byte) (x n : Z) :
  bytes_of buffer_data = Some data ->
  exists w,
    Py.getslice buffer_data (PInt x) (PInt (x + n)) = Ok w /\
    bytes_of w = Some (Py.seq_slice data (Some x) (Some (x + n))).
Proof.
  destruct buffer_data; simpl; intros H; inversion H; subst;
    eexists; split; reflexivity.
Qed.

(** The format, size and divisor of a component type that is decoded. *)
Lemma data_format_supported (a : list (string * pyval))
    (ct : AccessorComponentType) (normalized : option bool) :
  supported ct = true ->
  Py.dict_get a "normalized" = option_map PBool normalized ->
  exists data_type,
    data_format (PDict a) ct
      = Ok (data_type, accessor_component_type_bytesize ct,
            Spec.divisor ct (default false normalized)) /\
    forall w : pyval, forall bs : list byte,
      bytes_of w = Some bs ->
      length bs = Z.to_nat (accessor_component_type_bytesize ct) ->
      exists v,
        Py.struct_unpack data_type w = Ok v /\
        Py.truediv v (Spec.divisor ct (default false normalized))
        = Ok (PrimFloat.div
                (match ct with
                 | FLOAT => Py.float_of_bits32 (Py.le_uint bs)
                 | _ => Py.float_of_Z (Py.le_uint bs)
                 end)
                (Spec.divisor ct (default false normalized))).
Proof.
  intros Hs Hn.
  assert (Hdiv : forall d : float,
             normalize_divisor_of (PDict a) d
             = Ok (if default false normalized then d else 1%float)).
  { intros d. unfold normalize_divisor_of. simpl. rewrite Hn.
    destruct normalized as [[|]|]; reflexivity. }
  destruct ct; try discriminate; simpl data_format; rewrite ?Hdiv;
    cbn [bind]; eexists; (split; [reflexivity|]);
    intros w bs Hw Hlen; simpl in Hlen;
    destruct w; simpl in Hw; inversion Hw; subst;
    unfold Py.struct_unpack; simpl String.eqb; cbv iota;
    rewrite Hlen; simpl; eexists; split; reflexivity.
Qed.

Lemma bytesize_positive (ct : AccessorComponentType) :
  0 < accessor_component_type_bytesize ct.
Proof. destruct ct; simpl; lia. Qed.

Lemma component_count_positive (t : AccessorType) :
  0 < Spec.component_count t.
Proof. destruct t; simpl; lia. Qed.

(** *** The two loops *)

Section Loops.
Variables (buffer_data : pyval) (data : list byte).
Variables (ct : AccessorComponentType) (data_type : string) (d : float).
Hypothesis Hbytes : bytes_of buffer_data = Some data.
Hypothesis Hunpack :
  forall (w : pyval) (bs : list byte),
    bytes_of w = Some bs ->
    length bs = Z.to_nat (accessor_component_type_bytesize ct) ->
    exists v,
      Py.struct_unpack data_type w = Ok v /\
      Py.truediv v d
      = Ok (PrimFloat.div
              (match ct with
               | FLOAT => Py.float_of_bits32 (Py.le_uint bs)
               | _ => Py.float_of_Z (Py.le_uint bs)
               end) d).

Let size := accessor_component_type_bytesize ct.

(** One component that lies inside the bytes. *)
Lemma read_component (x : Z) :
  0 <= x -> x + size <= Z.of_nat (length data) ->
  exists w v,
    Py.getslice buffer_data (PInt x) (PInt (x + size)) = Ok w /\
    Py.struct_unpack data_type w = Ok v /\
    Py.truediv v d = Ok (PrimFloat.div (Spec.number_at ct data x) d).
Proof.
  intros Hx Hfit.
  pose proof (bytesize_positive ct) as Hpos. fold size in Hpos.
  destruct (getslice_bytes buffer_data data x size Hbytes) as (w & Hw & Hbs).
  rewrite seq_slice_inside in Hbs by lia.
  destruct (Hunpack w _ Hbs) as (v & Hv & Hq).
  { rewrite length_firstn, length_skipn. fold size. lia. }
  exists w, v. split; [exact Hw|]. split; [exact Hv|]. exact Hq.
Qed.

(** The inner loop over the components of one entry. *)
Lemma read_entries_fits (offset : Z) (todo : nat) :
  forall j0 : nat,
    (forall j : nat, (j0 <= j < j0 + todo)%nat ->
       0 <= offset + Z.of_nat j * size /\
       offset + Z.of_nat j * size + size <= Z.of_nat (length data)) ->
    read_entries buffer_data data_type size size d offset todo (Z.of_nat j0)
    = Ok (map (fun j => PrimFloat.div
                          (Spec.number_at ct data (offset + Z.of_nat j * size))
                          d)
            (seq j0 todo)).
Proof.
  induction todo as [|todo IH]; intros j0 Hfit; [reflexivity|].
  destruct (Hfit j0 ltac:(lia)) as [Hx Hend].
  destruct (read_component _ Hx Hend) as (w & v & Hw & Hv & Hq).
  cbn [read_entries]. rewrite Hw. cbn [bind]. rewrite Hv. cbn [bind].
  rewrite Hq. cbn [bind].
  replace (Z.of_nat j0 + 1) with (Z.of_nat (S j0)) by lia.
  rewrite IH by (intros j Hj; apply Hfit; lia).
  reflexivity.
Qed.

Variables (t : AccessorType) (normalized : bool) (off stride : Z).
Hypothesis Hd : d = Spec.divisor ct normalized.

Lemma pack_entries_entry (i : nat) :
  pack_entries
    (map (Spec.component ct normalized data off stride i)
       (seq 0 (Z.to_nat (Spec.component_count t))))
  = Ok (Spec.entry_at t ct normalized data off stride i).
Proof. destruct t; reflexivity. Qed.

(** The outer loop over the entries. *)
Lemma decode_loop_fits (todo : nat) :
  forall (i0 : nat) (data_arr : list entry),
    (forall i j : nat,
        (i0 <= i < i0 + todo)%nat ->
        (j < Z.to_nat (Spec.component_count t))%nat ->
        0 <= off + Z.of_nat i * stride + Z.of_nat j * size /\
        off + Z.of_nat i * stride + Z.of_nat j * size + size
          <= Z.of_nat (length data)) ->
    decode_loop buffer_data data_type size size (Spec.component_count t) d
      stride todo (off + Z.of_nat i0 * stride) data_arr
    = Ok (data_arr
            ++ map (Spec.entry_at t ct normalized data off stride)
                 (seq i0 todo)).
Proof.
  induction todo as [|todo IH]; intros i0 data_arr Hfit.
  - simpl. now rewrite app_nil_r.
  - cbn [decode_loop].
    pose proof (read_entries_fits (off + Z.of_nat i0 * stride)
                  (Z.to_nat (Spec.component_count t)) 0%nat) as Hinner.
    change (Z.of_nat 0) with 0 in Hinner.
    rewrite Hinner by (intros j Hj; apply Hfit; lia).
    cbn [bind]. rewrite Hd.
    change (map _ (seq 0 (Z.to_nat (Spec.component_count t))))
      with (map (Spec.component ct normalized data off stride i0)
              (seq 0 (Z.to_nat (Spec.component_count t)))).
    rewrite pack_entries_entry. cbn [bind].
    replace (off + Z.of_nat i0 * stride + stride)
      with (off + Z.of_nat (S i0) * stride) by lia.
    rewrite <- Hd. rewrite IH by (intros i j Hi Hj; apply Hfit; lia).
    cbn [seq map]. now rewrite <- app_assoc.
Qed.

End Loops.

(** *** The accessor's fields *)

Section Fields.
Context {P : Platform}.

Lemma bytestride_of_declared (bv : list (string * pyval))
    (stride : option Z) (packed : Z) :
  Py.dict_get bv "byteStride" = option_map PInt stride ->
  bytestride_of (PDict bv) packed = Ok (default packed stride).
Proof.
  intros H. unfold bytestride_of. simpl. rewrite H.
  destruct stride; reflexivity.
Qed.

Lemma offset_of_declared (a : list (string * pyval)) (offset : option Z) :
  Py.dict_get a "byteOffset" = option_map PInt offset ->
  offset_of (PDict a) = Ok (default 0 offset).
Proof.
  intros H. unfold offset_of. simpl. rewrite H.
  destruct offset; reflexivity.
Qed.

End Fields.

End Decoding.

Section DecodingClaims.
Context {P : Platform} {G : Gltf2}.

(** The bytes of a binary container's buffer: the bound data from the
    view's offset on. *)
Lemma resolve_buffer_data_binary (self : GLTF2Loader)
    (bv buffer : list (string * pyval)) (data : pyval) (offset : option Z) :
  binary self = true ->
  Py.dict_get buffer "data" = Some data ->
  Py.dict_get bv "byteOffset" = option_map PInt offset ->
  resolve_buffer_data self (PDict bv) (PDict buffer)
  = match offset with
    | Some o => Py.getslice data (PInt o) PNone
    | None => Ok data
    end.
Proof.
  intros Hbin Hdata Hoff. unfold resolve_buffer_data, drop_view_offset.
  rewrite Hbin. simpl. rewrite Hdata. simpl. rewrite Hoff.
  destruct offset; reflexivity.
Qed.

(** The bytes of a base64 data URI, from the view's offset on. *)
Lemma resolve_buffer_data_data_uri (self : GLTF2Loader)
    (bv buffer : list (string * pyval)) (u payload : string)
    (data : list byte) (offset : option Z) :
  binary self = false ->
  Py.dict_get buffer "uri" = Some (PStr u) ->
  Py.re_match_data_base64 u = true ->
  Py.seq_index (Py.str_split "," u) 1 = Ok payload ->
  base64_b64decode payload = Ok data ->
  Py.dict_get bv "byteOffset" = option_map PInt offset ->
  resolve_buffer_data self (PDict bv) (PDict buffer)
  = match offset with
    | Some o => Py.getslice (PBytes data) (PInt o) PNone
    | None => Ok (PBytes data)
    end.
Proof.
  intros Hbin Huri Hmatch Hsplit Hdecode Hoff.
  unfold resolve_buffer_data, drop_view_offset.
  rewrite Hbin. simpl. rewrite Huri. cbn [bind]. rewrite Hmatch, Hsplit.
  cbn [bind]. rewrite Hdecode. simpl. rewrite Hoff.
  destruct offset; reflexivity.
Qed.

(** The bytes of a file next to the document: [byteLength] bytes from the
    view's offset on. *)
Lemma resolve_buffer_data_file (self : GLTF2Loader)
    (bv buffer : list (string * pyval)) (u : string)
    (content : list byte) (offset : option Z) (n : Z) :
  binary self = false ->
  Py.dict_get buffer "uri" = Some (PStr u) ->
  Py.re_match_data_base64 u = false ->
  open_rb (os_path_join (root_dir self) u) = Ok content ->
  Py.dict_get bv "byteOffset" = option_map PInt offset ->
  0 <= default 0 offset ->
  Py.dict_get bv "byteLength" = Some (PInt n) ->
  0 <= n ->
  resolve_buffer_data self (PDict bv) (PDict buffer)
  = Ok (PBytes (firstn (Z.to_nat n)
                  (skipn (Z.to_nat (default 0 offset)) content))).
Proof.
  intros Hbin Huri Hmatch Hopen Hoff Hpos Hlen Hn.
  unfold resolve_buffer_data.
  rewrite Hbin. simpl. rewrite Huri. cbn [bind]. rewrite Hmatch, Hopen.
  simpl. rewrite Hoff, Hlen.
  destruct offset as [o|]; simpl in *.
  - unfold file_seek_cur. simpl.
    destruct (Z.ltb_spec o 0); [lia|]. simpl.
    destruct (Z.ltb_spec n 0); [lia|].
    destruct (Z.ltb_spec n (-1)); [lia|]. reflexivity.
  - destruct (Z.ltb_spec n 0); [lia|].
    destruct (Z.ltb_spec n (-1)); [lia|]. reflexivity.
Qed.

(** Decoding bytes that hold every component the accessor describes. *)
Lemma decode_fits (a bv : list (string * pyval)) (buffer_data : pyval)
    (data : list byte) (t : AccessorType) (v : pyval)
    (ct : AccessorComponentType) (count : Z)
    (offset stride : option Z) (normalized : option bool) :
  bytes_of buffer_data = Some data ->
  accessor_type_of (PDict a) = Ok t ->
  Py.dict_get a "componentType" = Some v ->
  AccessorComponentType_of v = Ok ct ->
  supported ct = true ->
  Py.dict_get a "count" = Some (PInt count) ->
  Py.dict_get a "byteOffset" = option_map PInt offset ->
  Py.dict_get bv "byteStride" = option_map PInt stride ->
  Py.dict_get a "normalized" = option_map PBool normalized ->
  Spec.fits t ct data (default 0 offset) (Spec.stride stride t ct) count ->
  decode (PDict a) (PDict bv) buffer_data
  = Ok (map (Spec.entry_at t ct (default false normalized) data
               (default 0 offset) (Spec.stride stride t ct))
          (seq 0 (Z.to_nat count))).
Proof.
  intros Hbytes Ht Hv Hct Hsup Hcount Hoff Hstride Hnorm Hfit.
  destruct (accessor_type_count_of (PDict a) t Ht) as (ty & Hty & Hcc).
  destruct (data_format_supported a ct normalized Hsup Hnorm)
    as (data_type & Hfmt & Hunpack).
  unfold decode.
  cbn [Py.getitem]. rewrite Hv. cbn [bind]. rewrite Hct. cbn [bind].
  cbn [Py.getitem] in Hty. rewrite Hty. cbn [bind]. rewrite Hcc. cbn [bind].
  rewrite (bytestride_of_declared bv stride _ Hstride). cbn [bind].
  rewrite (offset_of_declared a offset Hoff). cbn [bind].
  rewrite Hfmt. cbn [bind]. rewrite Hcount. cbn [bind Py.as_index].
  pose proof (decode_loop_fits buffer_data data ct data_type
                (Spec.divisor ct (default false normalized))
                Hbytes Hunpack t (default false normalized)
                (default 0 offset) (Spec.stride stride t ct) eq_refl
                (Z.to_nat count) 0%nat []) as Hloop.
  change (Z.of_nat 0) with 0 in Hloop.
  replace (default 0 offset + 0 * Spec.stride stride t ct)
    with (default 0 offset) in Hloop by lia.
  apply Hloop. intros i j Hi Hj. apply Hfit; lia.
Qed.

End DecodingClaims.

(** ** [get_data]: bytes that run out *)

Section Underrun.

(** A window that is cut short is not unpacked. *)
Lemma data_format_short (a : list (string * pyval))
    (ct : AccessorComponentType) (data_type : string) (size : Z) (d : float) :
  data_format (PDict a) ct = Ok (data_type, size, d) ->
  forall (w : pyval) (bs : list byte),
    bytes_of w = Some bs ->
    length bs <> Z.to_nat (accessor_component_type_bytesize ct) ->
    Py.struct_unpack data_type w = Raise struct_error.
Proof.
  intros Hfmt w bs Hw Hlen.
  destruct ct; simpl in Hfmt; try discriminate;
    try (destruct (normalize_divisor_of (PDict a) _); simpl in Hfmt;
         try discriminate);
    inversion Hfmt; subst; simpl in Hlen;
    destruct w; simpl in Hw; inversion Hw; subst;
    unfold Py.struct_unpack; simpl String.eqb; cbv iota;
    match goal with
    | |- context [(length ?l =? ?n)%nat] =>
        destruct (Nat.eqb_spec (length l) n); [contradiction | reflexivity]
    end.
Qed.

Section Loops.
Variables (buffer_data : pyval) (data : list byte).
Variables (ct : AccessorComponentType) (data_type : string) (d : float).
Hypothesis Hbytes : bytes_of buffer_data = Some data.
Hypothesis Hunpack :
  forall (w : pyval) (bs : list byte),
    bytes_of w = Some bs ->
    length bs = Z.to_nat (accessor_component_type_bytesize ct) ->
    exists v,
      Py.struct_unpack data_type w = Ok v /\
      Py.truediv v d
      = Ok (PrimFloat.div
              (match ct with
               | FLOAT => Py.float_of_bits32 (Py.le_uint bs)
               | _ => Py.float_of_Z (Py.le_uint bs)
               end) d).
Hypothesis Hshort :
  forall (w : pyval) (bs : list byte),
    bytes_of w = Some bs ->
    length bs <> Z.to_nat (accessor_component_type_bytesize ct) ->
    Py.struct_unpack data_type w = Raise struct_error.

Let size := accessor_component_type_bytesize ct.

(** One component that does not lie inside the bytes. *)
Lemma read_component_short (x : Z) :
  0 <= x -> Z.of_nat (length data) < x + size ->
  exists w,
    Py.getslice buffer_data (PInt x) (PInt (x + size)) = Ok w /\
    Py.struct_unpack data_type w = Raise struct_error.
Proof.
  intros Hx Hout.
  pose proof (bytesize_positive ct) as Hpos. fold size in Hpos.
  destruct (getslice_bytes buffer_data data x size Hbytes) as (w & Hw & Hbs).
  exists w. split; [exact Hw|].
  apply (Hshort w _ Hbs).
  pose proof (seq_slice_length data x size Hx ltac:(lia)) as Hlen.
  fold size. lia.
Qed.

(** The inner loop stops at the first component that is cut short. *)
Lemma read_entries_outcome (offset : Z) (todo : nat) :
  forall j0 : nat,
    0 <= offset ->
    (exists l, read_entries buffer_data data_type size size d offset todo
                 (Z.of_nat j0) = Ok l /\ length l = todo /\
               forall j : nat, (j0 <= j < j0 + todo)%nat ->
                 offset + Z.of_nat j * size + size
                   <= Z.of_nat (length data)) \/
    read_entries buffer_data data_type size size d offset todo (Z.of_nat j0)
      = Raise struct_error.
Proof.
  pose proof (bytesize_positive ct) as Hpos. fold size in Hpos.
  induction todo as [|todo IH]; intros j0 Hoff.
  - left. exists []. repeat split. intros j Hj. lia.
  - cbn [read_entries].
    destruct (Z_le_gt_dec (offset + Z.of_nat j0 * size + size)
                (Z.of_nat (length data))) as [Hin|Hout].
    + destruct (read_component buffer_data data ct data_type d Hbytes Hunpack
                  (offset + Z.of_nat j0 * size) ltac:(nia) Hin)
        as (w & v & Hw & Hv & Hq).
      fold size in Hw. rewrite Hw. cbn [bind]. rewrite Hv. cbn [bind].
      rewrite Hq. cbn [bind].
      replace (Z.of_nat j0 + 1) with (Z.of_nat (S j0)) by lia.
      destruct (IH (S j0) Hoff) as [(l & Hl & Hlen & Hfit) | Hraise].
      * left. rewrite Hl. cbn [bind]. eexists. split; [reflexivity|].
        split; [simpl; lia|].
        intros j Hj. destruct (decide (j = j0)) as [->|Hne];
          [exact Hin | apply Hfit; lia].
      * right. now rewrite Hraise.
    + right.
      destruct (read_component_short (offset + Z.of_nat j0 * size)
                  ltac:(nia) ltac:(lia)) as (w & Hw & Hv).
      rewrite Hw. cbn [bind]. now rewrite Hv.
Qed.

Variables (t : AccessorType) (off stride : Z).
Hypothesis Hoff : 0 <= off.
Hypothesis Hstride : 0 <= stride.

(** An entry list of at least one component is packed. *)
Lemma pack_entries_ok (l : list float) :
  l <> [] -> exists e, pack_entries l = Ok e.
Proof.
  intros Hl. unfold pack_entries.
  destruct (1 <? length l)%nat; [eauto|].
  destruct l; [contradiction | eauto].
Qed.

(** The outer loop raises as soon as an entry has such a component. *)
Lemma decode_loop_underrun (todo : nat) :
  forall (i0 : nat) (data_arr : list entry),
    (exists i j : nat,
        (i0 <= i < i0 + todo)%nat /\
        (j < Z.to_nat (Spec.component_count t))%nat /\
        Z.of_nat (length data)
          < off + Z.of_nat i * stride + Z.of_nat j * size + size) ->
    decode_loop buffer_data data_type size size (Spec.component_count t) d
      stride todo (off + Z.of_nat i0 * stride) data_arr
    = Raise struct_error.
Proof.
  pose proof (component_count_positive t) as Hcc.
  induction todo as [|todo IH]; intros i0 data_arr (i & j & Hi & Hj & Hout).
  - lia.
  - cbn [decode_loop].
    pose proof (read_entries_outcome (off + Z.of_nat i0 * stride)
                  (Z.to_nat (Spec.component_count t)) 0%nat ltac:(nia))
      as Hinner.
    change (Z.of_nat 0) with 0 in Hinner.
    destruct Hinner as [(l & Hl & Hlen & Hfit) | Hraise].
    + rewrite Hl. cbn [bind].
      destruct (pack_entries_ok l) as [e He].
      { intros ->. simpl in Hlen. lia. }
      rewrite He. cbn [bind].
      replace (off + Z.of_nat i0 * stride + stride)
        with (off + Z.of_nat (S i0) * stride) by lia.
      apply IH. exists i, j. repeat split; try lia.
      destruct (decide (i = i0)) as [->|Hne]; [|lia].
      specialize (Hfit j ltac:(lia)). lia.
    + now rewrite Hraise.
Qed.

End Loops.

(** A loop that returns has appended one entry per turn. *)
Lemma decode_loop_length (buffer_data : pyval) (data_type : string)
    (data_type_size component_size n : Z) (d : float) (bytestride : Z)
    (todo : nat) :
  forall (offset : Z) (data_arr result : list entry),
    decode_loop buffer_data data_type data_type_size component_size n d
      bytestride todo offset data_arr = Ok result ->
    length result = (length data_arr + todo)%nat.
Proof.
  induction todo as [|todo IH]; intros offset data_arr result H.
  - simpl in H. inversion H; subst. lia.
  - cbn [decode_loop] in H. repeat bind_inv H.
    apply IH in H. rewrite length_app in H. simpl in H. lia.
Qed.

End Underrun.

Section DecodingTheorems.
Context {P : Platform} {G : Gltf2}.

(** C1. On a cache miss, for an accessor with one of the four supported
    component types whose view and backing bytes are found and hold every
    component the accessor describes, [get_data] returns a new sequence of
    exactly [count] entries and caches it under the accessor's index.
    Component [j] of entry [i] is the little-endian number at
    [byteOffset + i*stride + j*componentByteSize], where the stride is the
    declared [byteStride] if the view has one and
    [componentCount * componentByteSize] otherwise, divided by 255 for a
    normalized UNSIGNED_BYTE accessor, by 65535 for a normalized
    UNSIGNED_SHORT accessor and by 1.0 otherwise. A SCALAR entry is the
    bare number; an entry of any other type is the tuple of its components
    in order. *)
Theorem get_data_decodes (self : GLTF2Loader) (h : heap)
    (accessor_index : Z) (a bv : list (string * pyval))
    (buffer buffer_data : pyval) (data : list byte)
    (t : AccessorType) (v : pyval) (ct : AccessorComponentType) (count : Z)
    (offset stride : option Z) (normalized : option bool) :
  _accessor_data_map self !! accessor_index = None ->
  lookup_view self (PDict a) = Ok (PDict bv, buffer) ->
  resolve_buffer_data self (PDict bv) buffer = Ok buffer_data ->
  bytes_of buffer_data = Some data ->
  accessor_type_of (PDict a) = Ok t ->
  Py.dict_get a "componentType" = Some v ->
  AccessorComponentType_of v = Ok ct ->
  supported ct = true ->
  Py.dict_get a "count" = Some (PInt count) ->
  0 <= count ->
  Py.dict_get a "byteOffset" = option_map PInt offset ->
  Py.dict_get bv "byteStride" = option_map PInt stride ->
  Py.dict_get a "normalized" = option_map PBool normalized ->
  Spec.fits t ct data (default 0 offset) (Spec.stride stride t ct) count ->
  exists data_arr : list entry,
    get_data self h (PDict a) accessor_index
    = (Ok (length h),
       set_accessor_data_map self
         (<[accessor_index := length h]> (_accessor_data_map self)),
       h ++ [data_arr]) /\
    Z.of_nat (length data_arr) = count /\
    forall i : nat,
      (i < Z.to_nat count)%nat ->
      data_arr !! i
      = Some (Spec.entry_at t ct (default false normalized) data
                (default 0 offset) (Spec.stride stride t ct) i).
Proof.
  intros Hmiss Hview Hres Hbytes Ht Hv Hct Hsup Hcount Hpos Hoff Hstride
    Hnorm Hfit.
  eexists. split; [|split].
  - apply get_data_store; [exact Hmiss|].
    unfold get_data_miss. rewrite Hview. cbn [bind]. rewrite Ht. cbn [bind].
    rewrite Hres. cbn [bind].
    exact (decode_fits a bv buffer_data data t v ct count offset stride
             normalized Hbytes Ht Hv Hct Hsup Hcount Hoff Hstride Hnorm Hfit).
  - rewrite length_map, length_seq. lia.
  - intros i Hi. rewrite list_lookup_fmap, lookup_seq_lt by exact Hi.
    reflexivity.
Qed.

(** A decoded sequence is never shorter than [count]. *)
Lemma decode_never_truncates (accessor bufferview buffer_data : pyval)
    (count : Z) (data_arr : list entry) :
  Py.getitem accessor (PStr "count") = Ok (PInt count) ->
  decode accessor bufferview buffer_data = Ok data_arr ->
  length data_arr = Z.to_nat count.
Proof.
  intros Hcount H. unfold decode in H. rewrite Hcount in H.
  repeat (cbn [bind Py.as_index] in H;
          match type of H with
          | bind ?c _ = Ok _ =>
              destruct c as [?|?]; cbn [bind] in H; [|discriminate]
          | match ?p with pair _ _ => _ end = Ok _ =>
              destruct p as [[? ?] ?]
          end).
  apply decode_loop_length in H. simpl in H. exact H.
Qed.

(** C7, as the code has it. [get_data] checks no geometry beforehand; it
    fails where [struct.unpack] is handed a window that is cut short. For
    an accessor with a supported component type whose offset and stride
    are not negative: if some component of some entry, at
    [byteOffset + i*stride + j*componentByteSize], ends beyond the bytes
    the view resolves to, then [get_data] raises [struct.error] and leaves
    the loader and the heap as they were; no shortened sequence is
    returned or cached. The bytes are those from the view's offset to the
    end of the buffer (to the view's [byteLength] only for a file), and
    the last entry needs its components, not a whole stride. *)
Theorem get_data_underrun (self : GLTF2Loader) (h : heap)
    (accessor_index : Z) (a bv : list (string * pyval))
    (buffer buffer_data : pyval) (data : list byte)
    (t : AccessorType) (v : pyval) (ct : AccessorComponentType) (count : Z)
    (offset stride : option Z) (normalized : option bool) :
  _accessor_data_map self !! accessor_index = None ->
  lookup_view self (PDict a) = Ok (PDict bv, buffer) ->
  resolve_buffer_data self (PDict bv) buffer = Ok buffer_data ->
  bytes_of buffer_data = Some data ->
  accessor_type_of (PDict a) = Ok t ->
  Py.dict_get a "componentType" = Some v ->
  AccessorComponentType_of v = Ok ct ->
  supported ct = true ->
  Py.dict_get a "count" = Some (PInt count) ->
  Py.dict_get a "byteOffset" = option_map PInt offset ->
  Py.dict_get bv "byteStride" = option_map PInt stride ->
  Py.dict_get a "normalized" = option_map PBool normalized ->
  0 <= default 0 offset ->
  0 <= Spec.stride stride t ct ->
  (exists i j : Z,
      0 <= i < count /\ 0 <= j < Spec.component_count t /\
      Z.of_nat (length data)
        < default 0 offset + i * Spec.stride stride t ct
          + j * accessor_component_type_bytesize ct
          + accessor_component_type_bytesize ct) ->
  get_data self h (PDict a) accessor_index = (Raise struct_error, self, h).
Proof.
  intros Hmiss Hview Hres Hbytes Ht Hv Hct Hsup Hcount Hoff Hstride Hnorm
    Hoff0 Hstride0 (i & j & Hi & Hj & Hout).
  apply get_data_raise; [exact Hmiss|].
  unfold get_data_miss. rewrite Hview. cbn [bind]. rewrite Ht. cbn [bind].
  rewrite Hres. cbn [bind].
  destruct (accessor_type_count_of (PDict a) t Ht) as (ty & Hty & Hcc).
  destruct (data_format_supported a ct normalized Hsup Hnorm)
    as (data_type & Hfmt & Hunpack).
  unfold decode.
  cbn [Py.getitem]. rewrite Hv. cbn [bind]. rewrite Hct. cbn [bind].
  cbn [Py.getitem] in Hty. rewrite Hty. cbn [bind]. rewrite Hcc. cbn [bind].
  rewrite (bytestride_of_declared bv stride _ Hstride). cbn [bind].
  rewrite (offset_of_declared a offset Hoff). cbn [bind].
  rewrite Hfmt. cbn [bind]. rewrite Hcount. cbn [bind Py.as_index].
  pose proof (decode_loop_underrun buffer_data data ct data_type
                (Spec.divisor ct (default false normalized))
                Hbytes Hunpack (data_format_short a ct _ _ _ Hfmt)
                t (default 0 offset) (Spec.stride stride t ct)
                Hoff0 Hstride0 (Z.to_nat count) 0%nat []) as Hloop.
  change (Z.of_nat 0) with 0 in Hloop.
  replace (default 0 offset + 0 * Spec.stride stride t ct)
    with (default 0 offset) in Hloop by lia.
  apply Hloop. exists (Z.to_nat i), (Z.to_nat j).
  rewrite !Z2Nat.id by lia. repeat split; try lia.
Qed.

End DecodingTheorems.

(** C1 at the VEC3 example: normalized unsigned bytes 255, 0, 128 decode
    to the tuple (1.0, 0.0, 128/255). *)
Lemma get_data_decodes_witness :
  exists data_arr : list entry,
    Sample.vec3_call = (Ok 0%nat, snd (fst Sample.vec3_call), [data_arr]) /\
    data_arr = [Tuple [1%float; 0%float; (128 / 255)%float]].
Proof.
  destruct (@get_data_decodes (Sample.platform Sample.no_json) Sample.gltf2
              Sample.vec3_loader [] 0
              [("bufferView"%string, PInt 0);
               ("componentType"%string, PInt 5121);
               ("type"%string, PStr "VEC3");
               ("count"%string, PInt 1);
               ("normalized"%string, PBool true)]
              [("buffer"%string, PInt 0); ("byteLength"%string, PInt 3)]
              (PDict [("byteLength"%string, PInt 3);
                      ("data"%string, PByteArray [xff; x00; x80])])
              (PByteArray [xff; x00; x80]) [xff; x00; x80]
              VEC3 (PInt 5121) UNSIGNED_BYTE 1 None None (Some true)
              eq_refl eq_refl eq_refl eq_refl eq_refl eq_refl eq_refl eq_refl
              eq_refl ltac:(lia) eq_refl eq_refl eq_refl)
    as (data_arr & Hcall & Hlen & Hentries).
  { intros i j Hi Hj. simpl in *. lia. }
  exists data_arr. split; [exact Hcall|].
  specialize (Hentries 0%nat ltac:(simpl; lia)).
  destruct data_arr as [|e [|e' rest]]; simpl in Hlen; try lia.
  simpl in Hentries. inversion Hentries as [He].
  vm_compute. reflexivity.
Defined.

(** C7 as stated fails. A view of 2 bytes over a buffer of 4 and a
    SCALAR UNSIGNED_BYTE accessor of count 4: count times stride is 4,
    the view has 2 bytes, and all 4 entries are decoded from beyond the
    view. A view of 1 byte with a declared stride of 8 and an accessor of
    count 1: count times stride is 8, one byte is there, and the entry is
    decoded. *)
Lemma get_data_no_geometry_check :
  (let r := @get_data (Sample.platform Sample.no_json) Sample.gltf2
              (Sample.loader (Sample.doc_of [x01; x02; x03; x04] 2 None) true)
              [] (Sample.accessor "SCALAR" 5121 4 false) 0 in
   fst (fst r) = Ok 0%nat /\
   snd r = [[Scalar 1%float; Scalar 2%float; Scalar 3%float;
             Scalar 4%float]]) /\
  (let r := @get_data (Sample.platform Sample.no_json) Sample.gltf2
              (Sample.loader (Sample.doc_of [x07] 1 (Some 8)) true)
              [] (Sample.accessor "SCALAR" 5121 1 false) 0 in
   fst (fst r) = Ok 0%nat /\ snd r = [[Scalar 7%float]]).
Proof. repeat split; vm_compute; reflexivity. Qed.

(** C7, amended, at the VEC3 example asked for two entries: the second
    one starts at byte 3 of 3. *)
Lemma get_data_underrun_witness :
  @get_data (Sample.platform Sample.no_json) Sample.gltf2
    Sample.vec3_loader [] (Sample.accessor "VEC3" 5121 2 true) 0
  = (Raise struct_error, Sample.vec3_loader, []).
Proof.
  refine (@get_data_underrun (Sample.platform Sample.no_json) Sample.gltf2
            Sample.vec3_loader [] 0
            [("bufferView"%string, PInt 0);
             ("componentType"%string, PInt 5121);
             ("type"%string, PStr "VEC3");
             ("count"%string, PInt 2);
             ("normalized"%string, PBool true)]
            [("buffer"%string, PInt 0); ("byteLength"%string, PInt 3)]
            (PDict [("byteLength"%string, PInt 3);
                    ("data"%string, PByteArray [xff; x00; x80])])
            (PByteArray [xff; x00; x80]) [xff; x00; x80]
            VEC3 (PInt 5121) UNSIGNED_BYTE 2 None None (Some true)
            eq_refl eq_refl eq_refl eq_refl eq_refl eq_refl eq_refl eq_refl
            eq_refl eq_refl eq_refl eq_refl _ _ _).
  - simpl. lia.
  - simpl. lia.
  - exists 1, 0. simpl. lia.
Defined.

(** ** Further examples of the specification *)

(** Three tightly packed little-endian floats 1.0, 2.0, 3.0 read through a
    SCALAR FLOAT accessor. *)
Example get_data_scalar_floats :
  snd (@get_data (Sample.platform Sample.no_json) Sample.gltf2
         (Sample.loader
            (Sample.doc_of [x00; x00; x80; x3f; x00; x00; x00; x40;
                            x00; x00; x40; x40] 12 None) true)
         [] (Sample.accessor "SCALAR" 5126 3 false) 0)
  = [[Scalar 1%float; Scalar 2%float; Scalar 3%float]].
Proof. vm_compute. reflexivity. Qed.

(** Two scenes and no [scene] key: the main scene is scene 0; with
    [scene] set to 1 it is scene 1. The sample [Scene] objects are their
    own indices. *)
Example main_scene_of_two_scenes :
  let scenes :=
    PList [PDict [("nodes"%string, PList [PInt 0])];
           PDict [("nodes"%string, PList [PInt 1])]] in
  @_initialize_scenes Sample.gltf2 Sample.ctors
    (PDict [("scenes"%string, scenes)]) []
  = Ok ([0; 1], Some 0) /\
  @_initialize_scenes Sample.gltf2 Sample.ctors
    (PDict [("scenes"%string, scenes); ("scene"%string, PInt 1)]) []
  = Ok ([0; 1], Some 1).
Proof. split; reflexivity. Qed.

(** * Further properties *)

(** ** [align] and the tables of the accessor types *)

(** X1. For a positive [size], [align(value, size)] is the least multiple of
    [size] that is not below [value]: it is a multiple of [size], it lies
    in [value .. value + size - 1], no smaller multiple reaches [value],
    and aligning it again leaves it as it is. *)
Theorem align_least_multiple (value size : Z) :
  0 < size ->
  exists r,
    align value size = Some r /\
    (size | r) /\
    value <= r < value + size /\
    (forall m, (size | m) -> value <= m -> r <= m) /\
    align r size = Some r.
Proof.
  intros Hsize.
  assert (Hrem : 0 <= value mod size < size) by (apply Z.mod_pos_bound; lia).
  assert (Hdiv : value = size * (value / size) + value mod size)
    by (apply Z.div_mod; lia).
  assert (Hlow : forall m, (size | m) -> value <= m ->
                           size * (value / size) + value mod size <= m ->
                           0 < value mod size ->
                           value + size - value mod size <= m).
  { intros m [q ->] _ Hm Hpos.
    assert (Hq : value / size < q) by nia.
    nia. }
  unfold align. destruct (Z.eqb_spec size 0) as [|_]; [lia|].
  destruct (Z.eqb_spec (value mod size) 0) as [Hz|Hnz].
  - exists value. repeat split; try lia.
    + apply Z.mod_divide; lia.
    + rewrite Hz. reflexivity.
  - assert (Hr : value + size - value mod size = size * (value / size + 1))
      by lia.
    exists (value + size - value mod size). repeat split; try lia.
    + rewrite Hr. apply Z.divide_factor_l.
    + intros m Hm Hge. apply Hlow; try assumption; lia.
    + rewrite Hr, Z.mul_comm, Z.mod_mul by lia. reflexivity.
Qed.

(** X1 at 5 aligned to 4. *)
Lemma align_least_multiple_witness :
  exists r, align 5 4 = Some r /\ r = 8.
Proof.
  destruct (align_least_multiple 5 4 ltac:(lia)) as (r & Hr & _).
  exists r. split; [exact Hr|].
  vm_compute in Hr. congruence.
Defined.

(** X3. The function [accessor_type_count] and the classes [AccessorType]
    and [AccessorTypeCount] agree: the function answers exactly for the
    values [AccessorType] accepts, and then with the number
    [AccessorTypeCount] gives that name. So the count lookup of [get_data]
    cannot fail once the type lookup has passed. *)
Theorem accessor_type_count_domain (x : pyval) (n : Z) :
  accessor_type_count x = Ok n <->
  exists t, AccessorType_of x = Ok t /\ n = AccessorTypeCount_value t.
Proof.
  split.
  - intros H. unfold accessor_type_count in H.
    destruct x; cbn [Py.getitem Py.as_index Py.dict_get bind] in H;
      try discriminate.
    repeat match type of H with
           | context [String.eqb ?x ?y] =>
               destruct (String.eqb_spec x y) as [<-|_];
                 [cbn [Py.as_index bind] in H; inversion H; subst;
                  eexists; split; reflexivity|]
           end.
    discriminate.
  - intros (t & Ht & ->).
    destruct x; simpl in Ht; try discriminate.
    repeat match type of Ht with
           | (if String.eqb ?x ?y then _ else _) = _ =>
               destruct (String.eqb_spec x y) as [->|_];
                 [inversion Ht; subst; reflexivity|]
           end.
    discriminate.
Qed.

(** ** [get_data]: failures, lengths and the objects of the cache *)

Section GetDataMore.
Context {P : Platform} {G : Gltf2}.

Lemma get_data_sound_step (self self' : GLTF2Loader) (h h' : heap)
    (accessor : pyval) (accessor_index : Z) (res : outcome ref) :
  cache_sound self h ->
  get_data self h accessor accessor_index = (res, self', h') ->
  cache_sound self' h' /\ (length h <= length h')%nat.
Proof.
  intros [Hvalid Hinj] Hg.
  destruct (get_data_cases self h accessor accessor_index)
    as [(r & Hc & E) | [(e & Hc & E) | (d & Hc & Hm & E)]];
    rewrite E in Hg; inversion Hg; subst; clear Hg.
  - split; [split; assumption | lia].
  - split; [split; assumption | lia].
  - split; [|rewrite length_app; lia]. split.
    + intros k r. simpl. rewrite length_app. simpl.
      destruct (decide (accessor_index = k)) as [->|Hne].
      * rewrite lookup_insert_eq. intros [= <-]. lia.
      * rewrite lookup_insert_ne by assumption. intros Hk.
        apply Hvalid in Hk. lia.
    + intros k k' r. simpl.
      destruct (decide (accessor_index = k)) as [Hk|Hk];
        destruct (decide (accessor_index = k')) as [Hk'|Hk'];
        try (subst k); try (subst k');
        rewrite ?lookup_insert_eq, ?lookup_insert_ne by assumption;
        try reflexivity.
      * intros [= <-] Hr. apply Hvalid in Hr. lia.
      * intros Hr [= <-]. apply Hvalid in Hr. lia.
      * apply Hinj.
Qed.

Lemma run_calls_sound (calls : list (pyval * Z)) :
  forall (self self' : GLTF2Loader) (h h' : heap),
    cache_sound self h ->
    run_calls calls self h = (self', h') ->
    cache_sound self' h' /\ (length h <= length h')%nat.
Proof.
  induction calls as [|[a i] calls IH]; intros self self' h h' Hs Hr.
  - simpl in Hr. inversion Hr; subst. split; [assumption | lia].
  - simpl in Hr.
    destruct (get_data self h a i) as [[res self1] h1] eqn:Hg.
    destruct (get_data_sound_step _ _ _ _ _ _ _ Hs Hg) as [Hs1 Hl1].
    destruct (IH _ _ _ _ Hs1 Hr) as [Hs' Hl']. split; [assumption | lia].
Qed.

(** X4. A [get_data] call that raises changes nothing: the loader and the
    heap are as before, so no partly decoded sequence is cached or
    allocated; and it raises only for an index that is not cached. *)
Theorem get_data_failure_changes_nothing (self self' : GLTF2Loader)
    (h h' : heap) (accessor : pyval) (accessor_index : Z) (e : exn) :
  get_data self h accessor accessor_index = (Raise e, self', h') ->
  self' = self /\ h' = h /\ _accessor_data_map self !! accessor_index = None.
Proof.
  intros Hg.
  destruct (get_data_cases self h accessor accessor_index)
    as [(r & Hc & E) | [(e' & Hc & E) | (d & Hc & Hm & E)]];
    rewrite E in Hg; inversion Hg; subst; auto.
Qed.

(** X5. A sequence that [get_data] decodes is never cut short: on a cache
    miss, whatever the bytes and the stride, the object it returns holds
    exactly [count] entries (none for a count that is not positive). *)
Theorem get_data_length (self self' : GLTF2Loader) (h h' : heap)
    (accessor : pyval) (accessor_index : Z) (count : Z) (r : ref) :
  _accessor_data_map self !! accessor_index = None ->
  Py.getitem accessor (PStr "count") = Ok (PInt count) ->
  get_data self h accessor accessor_index = (Ok r, self', h') ->
  exists data_arr,
    h' !! r = Some data_arr /\ length data_arr = Z.to_nat count.
Proof.
  intros Hmiss Hcount Hg.
  destruct (get_data_cases self h accessor accessor_index)
    as [(r0 & Hc & E) | [(e' & Hc & E) | (d & Hc & Hm & E)]];
    rewrite E in Hg; inversion Hg; subst; try congruence.
  exists d. split.
  - exact (list_lookup_middle h [] d (length h) eq_refl).
  - unfold get_data_miss in Hm. bind_inv Hm. destruct a as [bufferview buffer].
    do 2 bind_inv Hm.
    exact (decode_never_truncates _ _ _ _ _ Hcount Hm).
Qed.

(** X6. The cache stays sound through any run of [get_data] calls,
    whatever they are given and however they end: every cached reference
    is the address of an object on the heap and no two accessor indices
    share an object. The heap only grows, and every reference a later
    call returns is the address of an object. *)
Theorem cache_sound_preserved (calls : list (pyval * Z))
    (self self' : GLTF2Loader) (h h' : heap) :
  cache_sound self h ->
  run_calls calls self h = (self', h') ->
  cache_sound self' h' /\ (length h <= length h')%nat /\
  (forall (accessor : pyval) (accessor_index : Z) (r : ref)
          (self'' : GLTF2Loader) (h'' : heap),
      get_data self' h' accessor accessor_index = (Ok r, self'', h'') ->
      exists data_arr, h'' !! r = Some data_arr).
Proof.
  intros Hs Hrun.
  destruct (run_calls_sound calls _ _ _ _ Hs Hrun) as [Hs' Hlen].
  split; [exact Hs'|]. split; [exact Hlen|].
  intros accessor accessor_index r self'' h'' Hg.
  destruct (get_data_sound_step _ _ _ _ _ _ _ Hs' Hg) as [[Hvalid _] _].
  apply get_data_binds in Hg. apply Hvalid in Hg.
  apply lookup_lt_is_Some_2 in Hg. destruct Hg as [data_arr Hd].
  exists data_arr. exact Hd.
Qed.

(** X7. Different accessor indices never get the same sequence object:
    from a sound cache, if a call for index [i] returns an object and,
    after any run of calls, a call for another index [j] returns an
    object, the two are different objects, even for equal accessors. A
    caller that changes one sequence in place cannot change another. *)
Theorem distinct_indices_distinct_objects (calls : list (pyval * Z))
    (self s1 s2 s3 : GLTF2Loader) (h h1 h2 h3 : heap)
    (a a' : pyval) (i j : Z) (r1 r2 : ref) :
  cache_sound self h ->
  get_data self h a i = (Ok r1, s1, h1) ->
  run_calls calls s1 h1 = (s2, h2) ->
  get_data s2 h2 a' j = (Ok r2, s3, h3) ->
  i <> j ->
  r1 <> r2.
Proof.
  intros Hs Hg1 Hrun Hg2 Hij Heq. subst r2.
  destruct (get_data_sound_step _ _ _ _ _ _ _ Hs Hg1) as [Hs1 _].
  destruct (run_calls_sound _ _ _ _ _ Hs1 Hrun) as [Hs2 _].
  destruct (get_data_sound_step _ _ _ _ _ _ _ Hs2 Hg2) as [[_ Hinj] _].
  pose proof (get_data_binds _ _ _ _ _ _ _ Hg1) as Hb1.
  pose proof (get_data_binds _ _ _ _ _ _ _ Hg2) as Hb2.
  apply run_calls_preserves in Hrun. destruct Hrun as [Hkeep _].
  apply get_data_preserves in Hg2. destruct Hg2 as [Hkeep2 _].
  apply Hij. apply (Hinj i j r1); auto.
Qed.

(** Bytes and bytearrays are read alike. *)
Lemma read_entries_bytes_or_bytearray (data : list byte) (data_type : string)
    (data_type_size component_size : Z) (d : float) (offset : Z)
    (todo : nat) :
  forall j : Z,
    read_entries (PBytes data) data_type data_type_size component_size d
      offset todo j
    = read_entries (PByteArray data) data_type data_type_size component_size
        d offset todo j.
Proof.
  induction todo as [|todo IH]; intros j; [reflexivity|].
  cbn [read_entries]. unfold Py.getslice.
  cbn [Py.as_bound Py.as_index bind]. rewrite IH. reflexivity.
Qed.

Lemma decode_loop_bytes_or_bytearray (data : list byte) (data_type : string)
    (data_type_size component_size n : Z) (d : float) (bytestride : Z)
    (todo : nat) :
  forall (offset : Z) (data_arr : list entry),
    decode_loop (PBytes data) data_type data_type_size component_size n d
      bytestride todo offset data_arr
    = decode_loop (PByteArray data) data_type data_type_size component_size
        n d bytestride todo offset data_arr.
Proof.
  induction todo as [|todo IH]; intros offset data_arr; [reflexivity|].
  cbn [decode_loop]. rewrite read_entries_bytes_or_bytearray.
  destruct (read_entries _ _ _ _ _ _ _ _) as [entries|e]; [|reflexivity].
  cbn [bind]. destruct (pack_entries entries) as [e|e]; [|reflexivity].
  cbn [bind]. apply IH.
Qed.

(** X8. Decoding looks only at the bytes, not at the kind of object that
    holds them: the bytearray bound from a binary chunk and the bytes that
    base64 or a file yield decode to the same result (the same sequence or
    the same exception) when their content is the same. *)
Theorem decode_bytes_or_bytearray (accessor bufferview : pyval)
    (buffer_data buffer_data' : pyval) (data : list byte) :
  bytes_of buffer_data = Some data ->
  bytes_of buffer_data' = Some data ->
  decode accessor bufferview buffer_data
  = decode accessor bufferview buffer_data'.
Proof.
  intros H H'.
  assert (E : forall data_type data_type_size component_size n d bytestride
                     todo offset,
             decode_loop buffer_data data_type data_type_size component_size
               n d bytestride todo offset []
             = decode_loop buffer_data' data_type data_type_size
                 component_size n d bytestride todo offset []).
  { intros.
    destruct buffer_data; simpl in H; inversion H; subst;
      destruct buffer_data'; simpl in H'; inversion H'; subst;
      try reflexivity;
      [| symmetry]; apply decode_loop_bytes_or_bytearray. }
  unfold decode.
  repeat match goal with
         | |- bind ?c _ = bind ?c _ =>
             destruct c as [?|?]; cbn [bind]; [|reflexivity]
         | |- match ?p with pair _ _ => _ end = _ => destruct p as [[? ?] ?]
         end.
  apply E.
Qed.

End GetDataMore.

(** The empty cache is sound on any heap. *)
Lemma cache_sound_empty (doc : pyval) (is_binary : bool) (h : heap) :
  @cache_sound Sample.gltf2 (Sample.loader doc is_binary) h.
Proof.
  split.
  - intros k r H. simpl in H. rewrite lookup_empty in H. discriminate.
  - intros k k' r H. simpl in H. rewrite lookup_empty in H. discriminate.
Qed.

(** X4 at a BYTE accessor over the VEC3 example. *)
Lemma get_data_failure_changes_nothing_witness :
  let r := @get_data (Sample.platform Sample.no_json) Sample.gltf2
             Sample.vec3_loader [] (Sample.accessor "VEC3" 5120 1 true) 0 in
  snd (fst r) = Sample.vec3_loader /\ snd r = [].
Proof.
  cbv zeta.
  destruct (@get_data_failure_changes_nothing
              (Sample.platform Sample.no_json) Sample.gltf2
              Sample.vec3_loader
              (snd (fst (@get_data (Sample.platform Sample.no_json)
                           Sample.gltf2 Sample.vec3_loader []
                           (Sample.accessor "VEC3" 5120 1 true) 0)))
              []
              (snd (@get_data (Sample.platform Sample.no_json)
                      Sample.gltf2 Sample.vec3_loader []
                      (Sample.accessor "VEC3" 5120 1 true) 0))
              (Sample.accessor "VEC3" 5120 1 true) 0
              (Exception "unsupported accessor component type!")
              eq_refl) as (H1 & H2 & _).
  split; assumption.
Defined.

(** X5 at the VEC3 example: one entry. *)
Lemma get_data_length_witness :
  exists data_arr,
    snd Sample.vec3_call !! 0%nat = Some data_arr /\ length data_arr = 1%nat.
Proof.
  exact (@get_data_length (Sample.platform Sample.no_json) Sample.gltf2
           Sample.vec3_loader (snd (fst Sample.vec3_call)) []
           (snd Sample.vec3_call) Sample.vec3_accessor 0 1 0%nat
           eq_refl eq_refl eq_refl).
Defined.

(** X6 at the VEC3 example asked for indices 0 and 1. *)
Lemma cache_sound_preserved_witness :
  let calls := [(Sample.vec3_accessor, 0); (Sample.vec3_accessor, 1)] in
  let r := @run_calls (Sample.platform Sample.no_json) Sample.gltf2 calls
             Sample.vec3_loader [] in
  @cache_sound Sample.gltf2 (fst r) (snd r) /\ length (snd r) = 2%nat.
Proof.
  cbv zeta.
  destruct (@cache_sound_preserved (Sample.platform Sample.no_json)
              Sample.gltf2
              [(Sample.vec3_accessor, 0); (Sample.vec3_accessor, 1)]
              Sample.vec3_loader
              (fst (@run_calls (Sample.platform Sample.no_json) Sample.gltf2
                      [(Sample.vec3_accessor, 0); (Sample.vec3_accessor, 1)]
                      Sample.vec3_loader []))
              []
              (snd (@run_calls (Sample.platform Sample.no_json) Sample.gltf2
                      [(Sample.vec3_accessor, 0); (Sample.vec3_accessor, 1)]
                      Sample.vec3_loader []))
              (cache_sound_empty _ _ _) eq_refl) as (Hs & _ & _).
  split; [exact Hs | reflexivity].
Defined.

(** X7 at the VEC3 example: the same accessor under indices 0 and 1. *)
Lemma distinct_indices_distinct_objects_witness :
  let r0 := Sample.vec3_call in
  let r1 := @get_data (Sample.platform Sample.no_json) Sample.gltf2
              (snd (fst r0)) (snd r0) Sample.vec3_accessor 1 in
  fst (fst r0) = Ok 0%nat /\ fst (fst r1) = Ok 1%nat /\ 0%nat <> 1%nat.
Proof.
  cbv zeta. split; [reflexivity|]. split; [reflexivity|].
  exact (@distinct_indices_distinct_objects
           (Sample.platform Sample.no_json) Sample.gltf2 []
           Sample.vec3_loader (snd (fst Sample.vec3_call))
           (snd (fst Sample.vec3_call))
           (snd (fst (@get_data (Sample.platform Sample.no_json)
                        Sample.gltf2 (snd (fst Sample.vec3_call))
                        (snd Sample.vec3_call) Sample.vec3_accessor 1)))
           [] (snd Sample.vec3_call) (snd Sample.vec3_call)
           (snd (@get_data (Sample.platform Sample.no_json)
                   Sample.gltf2 (snd (fst Sample.vec3_call))
                   (snd Sample.vec3_call) Sample.vec3_accessor 1))
           Sample.vec3_accessor Sample.vec3_accessor 0 1 0%nat 1%nat
           (cache_sound_empty _ _ _) eq_refl eq_refl eq_refl ltac:(lia)).
Defined.

(** X8 at the bytes of the VEC3 example, as bytes and as a bytearray. *)
Lemma decode_bytes_or_bytearray_witness :
  @decode (Sample.platform Sample.no_json) Sample.vec3_accessor
    (PDict []) (PBytes [xff; x00; x80])
  = @decode (Sample.platform Sample.no_json) Sample.vec3_accessor
      (PDict []) (PByteArray [xff; x00; x80]).
Proof.
  exact (@decode_bytes_or_bytearray (Sample.platform Sample.no_json)
           Sample.vec3_accessor (PDict []) (PBytes [xff; x00; x80])
           (PByteArray [xff; x00; x80]) [xff; x00; x80] eq_refl eq_refl).
Defined.

(** ** The binary container: termination and what a loader vouches for *)

Section DemuxMore.
Context {P : Platform}.

(** More fuel than the bytes ahead changes nothing. *)
Lemma chunk_loop_fuel (root : string) (file_size : Z) (fuel : nat) :
  forall (fuel' : nat) (s : demux_state),
    (length (file_buffer s) < fuel)%nat ->
    (length (file_buffer s) < fuel')%nat ->
    chunk_loop fuel root file_size s = chunk_loop fuel' root file_size s.
Proof.
  induction fuel as [|fuel IH]; intros fuel' s Hf Hf'; [lia|].
  destruct fuel' as [|fuel']; [lia|].
  simpl. destruct (chunk_step root file_size s) as [[|s']|e] eqn:E;
    try reflexivity.
  apply chunk_step_shrinks in E. apply IH; lia.
Qed.

(** A loop that ends normally has handled every chunk, has reached the end
    of the file, and has counted what the header declares. *)
Lemma chunk_loop_ok (root : string) (file_size : Z) (fuel : nat) :
  forall s s' : demux_state,
    chunk_loop fuel root file_size s = Some (Ok s') ->
    exists sizes,
      consumes root file_size s sizes s' /\
      file_buffer s' = [] /\ total_bytes_read s' = file_size.
Proof.
  induction fuel as [|fuel IH]; intros s s' H; [discriminate|].
  simpl in H. destruct (chunk_step root file_size s) as [[|s1]|e] eqn:E;
    try discriminate.
  - inversion H; subst. exists []. split; [apply consumes_nil|].
    unfold chunk_step in E.
    destruct (firstn 8 (file_buffer s')) as [|b hdr] eqn:Hh.
    + destruct (Z.eqb_spec (total_bytes_read s') file_size);
        simpl in E; [|discriminate].
      split; [|assumption].
      destruct (file_buffer s'); [reflexivity | discriminate].
    + destruct (frombuffer_uint32 (b :: hdr)) as [ws|]; [|discriminate].
      cbn [bind] in E.
      destruct ws as [|? [|? [|? ?]]]; try discriminate.
      destruct (handle_chunk _ _ _ _); discriminate.
  - destruct (IH _ _ H) as (sizes & Hc & Hend & Ht).
    destruct (chunk_step_next _ _ _ _ E) as (cs & ct & Hh & _ & _).
    exists (cs :: sizes). split; [|auto].
    eapply consumes_cons; eassumption.
Qed.

(** Where a turn raises after handled chunks, demuxing raises that. *)
Lemma demux_glb_raises_at (root : string) (content : list byte)
    (file_size : Z) (sizes : list Z) (s : demux_state) (e : exn) :
  frombuffer_uint32 (firstn 12 content) = Ok [MAGIC; 2; file_size] ->
  consumes root file_size (mkDemux (skipn 12 content) 12 None) sizes s ->
  chunk_step root file_size s = Raise e ->
  demux_glb root content = Some (Raise e).
Proof.
  intros Hhdr Hcons Hstep.
  unfold demux_glb. rewrite Hhdr.
  destruct (chunk_loop_consumes _ _ _ _ _ Hcons (S (length content)))
    as (fuel' & Hfuel' & E).
  { simpl. rewrite length_skipn. lia. }
  rewrite E. destruct fuel' as [|fuel']; [lia|].
  simpl. now rewrite Hstep.
Qed.

Lemma consumes_snoc (root : string) (file_size : Z)
    (s s1 s2 : demux_state) (sizes : list Z) (chunk_size chunk_type : Z) :
  consumes root file_size s sizes s1 ->
  frombuffer_uint32 (firstn 8 (file_buffer s1)) = Ok [chunk_size; chunk_type] ->
  chunk_step root file_size s1 = Ok (Next s2) ->
  consumes root file_size s (sizes ++ [chunk_size]) s2.
Proof.
  induction 1 as [s | s sa sb cs ct sizes Hh Hstep Hrest IH]; intros Hw Hs.
  - simpl. eapply consumes_cons; [eassumption | eassumption|].
    apply consumes_nil.
  - simpl. eapply consumes_cons; [eassumption | eassumption|].
    apply IH; assumption.
Qed.

(** A turn at the last chunk, whose payload may be shorter than its
    header announces. *)
Lemma chunk_step_last_chunk (root : string) (file_size : Z)
    (s : demux_state) (chunk_size chunk_type : Z) (payload : list byte)
    (doc : pyval) :
  file_buffer s = uint32_le chunk_size ++ uint32_le chunk_type ++ payload ->
  Z.of_nat (length payload) <= chunk_size < 2 ^ 32 ->
  0 <= chunk_type < 2 ^ 32 ->
  handle_chunk root (demux_json_data s) chunk_type payload = Ok doc ->
  frombuffer_uint32 (firstn 8 (file_buffer s)) = Ok [chunk_size; chunk_type] /\
  chunk_step root file_size s
  = Ok (Next (mkDemux [] (uint32_add (total_bytes_read s + 8) chunk_size)
                (Some doc))).
Proof.
  intros Hbuf Hlen Hty Hhandle.
  set (hdr := uint32_le chunk_size ++ uint32_le chunk_type).
  assert (Hlayout : file_buffer s = hdr ++ payload).
  { rewrite Hbuf. unfold hdr. now rewrite <- app_assoc. }
  assert (Hfirst : firstn 8 (file_buffer s) = hdr).
  { rewrite Hlayout. now apply take_app_length'. }
  assert (Hskip : skipn 8 (file_buffer s) = payload).
  { rewrite Hlayout. now apply drop_app_length'. }
  assert (Hwords : frombuffer_uint32 hdr = Ok [chunk_size; chunk_type]).
  { apply frombuffer_two; lia. }
  split; [now rewrite Hfirst|].
  unfold chunk_step. rewrite Hfirst, Hskip, Hwords. cbn [bind].
  rewrite firstn_all2 by lia.
  rewrite skipn_all2 by lia.
  rewrite Hhandle. cbn [bind].
  destruct hdr eqn:E; [discriminate Hwords | reflexivity].
Qed.

(** A buffer of one to seven bytes is no chunk header. *)
Lemma frombuffer_stray (b : list byte) :
  (0 < length b < 8)%nat ->
  frombuffer_uint32 b = Raise ValueError \/
  exists w, frombuffer_uint32 b = Ok [w].
Proof.
  intros Hlen.
  do 8 (destruct b as [|? b]; simpl in *; try lia; eauto).
Qed.

End DemuxMore.

Section ConstructionMore.
Context {P : Platform} {G : Gltf2} {C : Gltf2Ctors}.

(** X9. Construction always comes to an end, with a loader or with an
    exception: the chunk loop of a binary container uses up at least
    eight bytes a turn, so it stops on every file, and running it with
    more fuel than the file has bytes gives the same result. *)
Theorem init_terminates (gltf_file : string) (profile : USDZProfile)
    (o g : bool) (h : heap) :
  (exists r, __init__ gltf_file profile o g h = Some r) /\
  (forall (root : string) (content : list byte) (file_size : Z) (fuel : nat),
      (length content < fuel)%nat ->
      exists r,
        chunk_loop fuel root file_size (mkDemux (skipn 12 content) 12 None)
          = Some r /\
        chunk_loop (S (length content)) root file_size
          (mkDemux (skipn 12 content) 12 None) = Some r).
Proof.
  split; [apply init_total|].
  intros root content file_size fuel Hfuel.
  assert (Hlen : (length (file_buffer (mkDemux (skipn 12 content) 12 None))
                  < fuel)%nat).
  { simpl. rewrite length_skipn. lia. }
  destruct (chunk_loop_total root file_size fuel _ Hlen) as [r Hr].
  exists r. split; [exact Hr|].
  rewrite <- Hr. apply chunk_loop_fuel; [|exact Hlen].
  simpl. rewrite length_skipn. lia.
Qed.

(** X10. A loader constructed from a [.glb] file vouches for its
    container: the file could be read, its header has the magic constant
    and version 2, every chunk up to the end of the file was handled
    without an error, the declared length is 12 plus 8 + chunkLength for
    every chunk, taken modulo 2^32 as the [uint32] count of the loop has
    it, the loader's document is the one the chunks bound, and the loader
    is marked binary. *)
Theorem init_glb_sound (gltf_file : string) (profile : USDZProfile)
    (o g : bool) (h h' : heap) (loader : GLTF2Loader) :
  __init__ gltf_file profile o g h = Some (Ok (loader, h')) ->
  str_endswith gltf_file ".glb" = true ->
  exists (content : list byte) (file_size : Z) (sizes : list Z)
         (s_end : demux_state),
    open_rb gltf_file = Ok content /\
    frombuffer_uint32 (firstn 12 content) = Ok [MAGIC; 2; file_size] /\
    consumes (os_path_dirname gltf_file) file_size
      (mkDemux (skipn 12 content) 12 None) sizes s_end /\
    file_buffer s_end = [] /\
    file_size = consumed_bytes sizes mod 2 ^ 32 /\
    demux_json_data s_end = Some (json_data loader) /\
    binary loader = true.
Proof.
  unfold __init__. intros H Hglb. rewrite Hglb in H.
  destruct (negb (os_path_isfile gltf_file)); [discriminate|].
  rewrite andb_false_r in H.
  destruct (open_rb gltf_file) as [content|e]; [|discriminate].
  destruct (demux_glb (os_path_dirname gltf_file) content)
    as [[bound|e]|] eqn:Hd; try discriminate.
  inversion H as [Hinit]. clear H.
  destruct (initialize_binary _ _ _ _ Hinit) as [Hbin Hjson].
  simpl in Hbin, Hjson. subst bound.
  unfold demux_glb in Hd.
  destruct (frombuffer_uint32 (firstn 12 content)) as [ws|e] eqn:Hhdr;
    [|discriminate].
  destruct ws as [|magic [|version [|file_size [|? ?]]]]; try discriminate.
  destruct (Z.eqb_spec magic MAGIC) as [->|]; [|discriminate].
  destruct (Z.eqb_spec version 2) as [->|]; cbn [negb] in Hd; [|discriminate].
  destruct (chunk_loop _ _ _ _) as [[s_end|e]|] eqn:Hloop; try discriminate.
  inversion Hd as [Hbound]. clear Hd.
  destruct (chunk_loop_ok _ _ _ _ _ Hloop) as (sizes & Hcons & Hend & Htotal).
  exists content, file_size, sizes, s_end.
  pose proof (consumes_count _ _ _ _ _ _ Hcons) as Ht.
  repeat split; try assumption; try reflexivity. congruence.
Qed.

End ConstructionMore.

(** ** The binary container: what the chunk loop refuses and accepts *)

Section DemuxEdges.
Context {P : Platform}.

(** X11. One to seven bytes left over behind the chunks handled so far
    are no chunk header: demuxing fails with [ValueError], raised by
    [np.frombuffer] (a length that is no multiple of four) or by the
    unpacking of its single word into [chunk_size, chunk_type]. *)
Theorem demux_glb_stray_bytes (root : string) (content : list byte)
    (file_size : Z) (sizes : list Z) (s : demux_state) :
  frombuffer_uint32 (firstn 12 content) = Ok [MAGIC; 2; file_size] ->
  consumes root file_size (mkDemux (skipn 12 content) 12 None) sizes s ->
  (0 < length (file_buffer s) < 8)%nat ->
  demux_glb root content = Some (Raise ValueError).
Proof.
  intros Hhdr Hcons Hlen.
  apply (demux_glb_raises_at root content file_size sizes s); try assumption.
  unfold chunk_step. rewrite firstn_all2 by lia.
  destruct (file_buffer s) as [|b0 b] eqn:Hb; [simpl in Hlen; lia|].
  destruct (frombuffer_stray (b0 :: b) Hlen) as [E|[w E]];
    rewrite E; reflexivity.
Qed.

(** X12. A chunk whose type tag is neither JSON nor BIN makes demuxing
    fail with [TypeError], whatever its payload, whatever follows it and
    whatever length the header declares; the chunks before it have been
    handled by then. *)
Theorem demux_glb_unknown_chunk_type (root : string) (content : list byte)
    (file_size : Z) (sizes : list Z) (s : demux_state)
    (chunk_type : Z) (payload rest : list byte) :
  frombuffer_uint32 (firstn 12 content) = Ok [MAGIC; 2; file_size] ->
  consumes root file_size (mkDemux (skipn 12 content) 12 None) sizes s ->
  file_buffer s = chunk_bytes chunk_type payload ++ rest ->
  Z.of_nat (length payload) < 2 ^ 32 ->
  0 <= chunk_type < 2 ^ 32 ->
  chunk_type <> JSON_CHUNK ->
  chunk_type <> BINARY_CHUNK ->
  demux_glb root content = Some (Raise TypeError).
Proof.
  intros Hhdr Hcons Hbuf Hlen Hty Hj Hb.
  apply (demux_glb_raises_at root content file_size sizes s); try assumption.
  destruct (chunk_step_at_chunk root file_size s chunk_type payload rest
              Hbuf Hlen Hty) as [_ ->].
  unfold handle_chunk.
  destruct (Z.eqb_spec chunk_type JSON_CHUNK); [contradiction|].
  destruct (Z.eqb_spec chunk_type BINARY_CHUNK); [contradiction|].
  reflexivity.
Qed.

(** X13. The payload of the last chunk may be shorter than its header
    announces: the chunk is handled with the bytes there are, the count
    goes by the announced length, and a file whose declared total agrees
    with the announced lengths is accepted though it is cut short. *)
Theorem demux_glb_short_last_payload (root : string) (content : list byte)
    (file_size : Z) (sizes : list Z) (s : demux_state)
    (chunk_size chunk_type : Z) (payload : list byte) (doc : pyval) :
  frombuffer_uint32 (firstn 12 content) = Ok [MAGIC; 2; file_size] ->
  consumes root file_size (mkDemux (skipn 12 content) 12 None) sizes s ->
  file_buffer s = uint32_le chunk_size ++ uint32_le chunk_type ++ payload ->
  Z.of_nat (length payload) <= chunk_size < 2 ^ 32 ->
  0 <= chunk_type < 2 ^ 32 ->
  handle_chunk root (demux_json_data s) chunk_type payload = Ok doc ->
  file_size = consumed_bytes (sizes ++ [chunk_size]) ->
  demux_glb root content = Some (Ok (Some doc)).
Proof.
  intros Hhdr Hcons Hbuf Hlen Hty Hhandle Hsize.
  destruct (chunk_step_last_chunk root file_size s chunk_size chunk_type
              payload doc Hbuf Hlen Hty Hhandle) as [Hwords Hstep].
  pose proof (consumes_snoc _ _ _ _ _ _ _ _ Hcons Hwords Hstep) as Hcons'.
  apply (demux_glb_byte_count_match root content file_size _ _ Hhdr Hcons');
    [reflexivity | exact Hsize].
Qed.

(** X14. When the first buffer of the document names a [uri] (any value
    that counts as true), the payload of the binary chunk is ignored: the
    buffer's data is whatever [load_uri] makes of the uri relative to the
    directory of the file (the fetched or read bytes, or [None] after a
    refused fetch), and a failure of [load_uri] is the failure of the
    chunk. *)
Theorem binary_chunk_uri_wins (root : string) (chunk : list byte)
    (d buffer : list (string * pyval)) (others : list pyval) (uri : pyval) :
  Py.dict_get d "buffers" = Some (PList (PDict buffer :: others)) ->
  Py.dict_get buffer "uri" = Some uri ->
  Py.truthy uri = true ->
  handle_chunk root (Some (PDict d)) BINARY_CHUNK chunk
  = (data <- load_uri uri root ;;
     Ok (PDict (Py.dict_set d "buffers"
                  (PList (PDict (Py.dict_set buffer "data" data)
                            :: others))))) /\
  forall chunk' : list byte,
    handle_chunk root (Some (PDict d)) BINARY_CHUNK chunk'
    = handle_chunk root (Some (PDict d)) BINARY_CHUNK chunk.
Proof.
  intros Hbuffers Huri Htrue.
  assert (Hfirst : Py.seq_index (PDict buffer :: others) 0 = Ok (PDict buffer)).
  { apply seq_index_nth; [lia | reflexivity]. }
  assert (H : forall c,
             handle_chunk root (Some (PDict d)) BINARY_CHUNK c
             = (data <- load_uri uri root ;;
                Ok (PDict (Py.dict_set d "buffers"
                             (PList (PDict (Py.dict_set buffer "data" data)
                                       :: others)))))).
  { intros c. unfold handle_chunk.
    change (BINARY_CHUNK =? JSON_CHUNK) with false.
    change (BINARY_CHUNK =? BINARY_CHUNK) with true.
    cbn [read_json_data bind Py.getitem]. rewrite Hbuffers.
    cbn [bind Py.getitem Py.as_index]. rewrite Hfirst.
    cbn [bind dict_method_get]. rewrite Huri, Htrue.
    cbn [Py.getitem]. rewrite Huri. cbn [bind].
    unfold bind_buffer0_data. now rewrite Hbuffers. }
  split; [apply H|]. intros chunk'. now rewrite !H.
Qed.

End DemuxEdges.

(** The count wraps: a container that declares 19 bytes and whose only
    chunk announces 2^32 - 1 bytes is counted as 12 + 8 + (2^32 - 1), which
    is 19 modulo 2^32, and is accepted with the 32 bytes of JSON text that
    are there. *)
Example demux_glb_count_wraps :
  @demux_glb (Sample.platform Sample.loads) EmptyString
    (glb_header MAGIC 2 19 ++ uint32_le 4294967295 ++ uint32_le JSON_CHUNK
       ++ Sample.json_text)
  = Some (Ok (Some Sample.json_doc)).
Proof.
  set (content := glb_header MAGIC 2 19 ++ uint32_le 4294967295
                    ++ uint32_le JSON_CHUNK ++ Sample.json_text).
  assert (Hhdr : frombuffer_uint32 (firstn 12 content) = Ok [MAGIC; 2; 19])
    by reflexivity.
  destruct (@chunk_step_last_chunk (Sample.platform Sample.loads) EmptyString
              19 (mkDemux (skipn 12 content) 12 None) 4294967295 JSON_CHUNK
              Sample.json_text Sample.json_doc eq_refl)
    as [Hwords Hstep]; [simpl; lia | unfold JSON_CHUNK; lia | reflexivity |].
  rewrite (demux_glb_at_end EmptyString content 19 [4294967295] _ Hhdr
             (consumes_cons _ _ _ _ _ _ _ _ Hwords Hstep
                (consumes_nil _ _ _)) eq_refl).
  reflexivity.
Qed.

(** X11 at the sample JSON chunk followed by two stray bytes. *)
Lemma demux_glb_stray_bytes_witness :
  @demux_glb (Sample.platform Sample.loads) EmptyString
    (glb_header MAGIC 2 54 ++ chunk_bytes JSON_CHUNK Sample.json_text
       ++ [x00; x00])
  = Some (Raise ValueError).
Proof.
  refine (@demux_glb_stray_bytes (Sample.platform Sample.loads) EmptyString
            (glb_header MAGIC 2 54 ++ chunk_bytes JSON_CHUNK Sample.json_text
               ++ [x00; x00])
            54 [32] (mkDemux [x00; x00] 52 (Some Sample.json_doc))
            eq_refl _ _).
  - eapply consumes_cons with (chunk_type := JSON_CHUNK);
      [reflexivity | reflexivity | apply consumes_nil].
  - simpl. lia.
Defined.

(** X12 at a container whose only chunk has the type tag 7. *)
Lemma demux_glb_unknown_chunk_type_witness :
  @demux_glb (Sample.platform Sample.loads) EmptyString
    (glb_header MAGIC 2 24 ++ chunk_bytes 7 Sample.bin_payload)
  = Some (Raise TypeError).
Proof.
  refine (@demux_glb_unknown_chunk_type (Sample.platform Sample.loads)
            EmptyString
            (glb_header MAGIC 2 24 ++ chunk_bytes 7 Sample.bin_payload)
            24 [] _ 7 Sample.bin_payload []
            eq_refl (consumes_nil _ _ _) eq_refl _ _ _ _).
  - simpl. lia.
  - lia.
  - unfold JSON_CHUNK. lia.
  - unfold BINARY_CHUNK. lia.
Defined.

(** X13 at a container that declares 64 bytes and whose binary chunk
    announces four bytes but holds two. *)
Lemma demux_glb_short_last_payload_witness :
  @demux_glb (Sample.platform Sample.loads) EmptyString
    (glb_header MAGIC 2 64 ++ chunk_bytes JSON_CHUNK Sample.json_text
       ++ uint32_le 4 ++ uint32_le BINARY_CHUNK ++ [x01; x02])
  = Some (Ok (Some
      (PDict [("buffers"%string,
               PList [PDict [("byteLength"%string, PInt 4);
                             ("data"%string, PByteArray [x01; x02])]])]))).
Proof.
  refine (@demux_glb_short_last_payload (Sample.platform Sample.loads)
            EmptyString
            (glb_header MAGIC 2 64 ++ chunk_bytes JSON_CHUNK Sample.json_text
               ++ uint32_le 4 ++ uint32_le BINARY_CHUNK ++ [x01; x02])
            64 [32]
            (mkDemux (uint32_le 4 ++ uint32_le BINARY_CHUNK ++ [x01; x02]) 52
               (Some Sample.json_doc))
            4 BINARY_CHUNK [x01; x02] _ eq_refl _ eq_refl _ _ eq_refl eq_refl).
  - eapply consumes_cons with (chunk_type := JSON_CHUNK);
      [reflexivity | reflexivity | apply consumes_nil].
  - simpl. lia.
  - unfold BINARY_CHUNK. lia.
Defined.

(** X14 at a document whose first buffer names the file [buf.bin]. *)
Lemma binary_chunk_uri_wins_witness :
  @handle_chunk
    (Sample.platform_of (Sample.one_file "buf.bin" [x0a; x0b]) Sample.loads)
    EmptyString
    (Some (PDict [("buffers"%string,
                   PList [PDict [("uri"%string, PStr "buf.bin")]])]))
    BINARY_CHUNK Sample.bin_payload
  = Ok (PDict [("buffers"%string,
                PList [PDict [("uri"%string, PStr "buf.bin");
                              ("data"%string, PBytes [x0a; x0b])]])]).
Proof.
  exact (proj1 (@binary_chunk_uri_wins
                  (Sample.platform_of (Sample.one_file "buf.bin" [x0a; x0b])
                     Sample.loads)
                  EmptyString Sample.bin_payload
                  [("buffers"%string,
                    PList [PDict [("uri"%string, PStr "buf.bin")]])]
                  [("uri"%string, PStr "buf.bin")] [] (PStr "buf.bin")
                  eq_refl eq_refl eq_refl)).
Defined.

(** ** Data URIs and buffers without bytes *)

Ltac bind_inv_as H a H1 :=
  apply bind_ok in H; destruct H as (a & H1 & H).

Section Uris.
Context {P : Platform} {G : Gltf2}.

Lemma str_split_no_sep (sep : ascii) (s : string) :
  Py.str_after sep s = None -> Py.str_split sep s = [s].
Proof.
  induction s as [|c s IH]; intros H; [reflexivity|].
  simpl in *. destruct (Ascii.eqb c sep); [discriminate|].
  now rewrite (IH H).
Qed.

Lemma str_split_second (sep : ascii) (s p : string) :
  Py.str_after sep s = Some p ->
  Py.str_after sep p = None ->
  nth_error (Py.str_split sep s) 1 = Some p.
Proof.
  induction s as [|c s IH]; intros H Hp; [discriminate|].
  simpl in *. destruct (Ascii.eqb c sep).
  - inversion H; subst. now rewrite (str_split_no_sep sep p Hp).
  - specialize (IH H Hp).
    destruct (Py.str_split sep s) as [|w ws]; [discriminate | exact IH].
Qed.

(** X15. The module decodes a base64 data URI in two places, [get_data]
    (text containers, from [uri.split(',')[1]]) and [load_uri] (binary
    containers, from everything behind the first comma). For a uri with
    one comma only, as base64 text has it, the two agree: the bytes
    [get_data] resolves are what [load_uri] returns, from the view's
    [byteOffset] on, and they fail alike. *)
Theorem data_uri_decoders_agree (self : GLTF2Loader) (bufferview : pyval)
    (buffer : list (string * pyval)) (u payload folder : string) :
  binary self = false ->
  Py.dict_get buffer "uri" = Some (PStr u) ->
  Py.re_match_data_base64 u = true ->
  Py.str_after "," u = Some payload ->
  Py.str_after "," payload = None ->
  resolve_buffer_data self bufferview (PDict buffer)
  = (data <- load_uri (PStr u) folder ;; drop_view_offset bufferview data).
Proof.
  intros Hbin Huri Hmatch Hafter Hone.
  assert (Hprefix : String.prefix "data:" u = true).
  { unfold Py.re_match_data_base64 in Hmatch.
    destruct (Py.str_after ":" u); [|discriminate].
    now apply andb_true_iff in Hmatch. }
  assert (Hsplit : Py.seq_index (Py.str_split "," u) 1 = Ok payload).
  { apply seq_index_nth; [lia|]. now apply str_split_second. }
  unfold resolve_buffer_data, load_uri.
  rewrite Hbin. cbn [Py.getitem]. rewrite Huri. cbn [bind].
  rewrite Hmatch, Hsplit, Hprefix, Hafter. cbn [bind].
  destruct (base64_b64decode payload); reflexivity.
Qed.

Lemma getslice_not_bytes (o lo hi o' : pyval) :
  bytes_of o = None -> Py.getslice o lo hi = Ok o' -> bytes_of o' = None.
Proof.
  intros Ho H. unfold Py.getslice in H. do 2 bind_inv H.
  destruct o; simpl in Ho; try discriminate; inversion H; reflexivity.
Qed.

Lemma drop_view_offset_not_bytes (bufferview data data' : pyval) :
  bytes_of data = None ->
  drop_view_offset bufferview data = Ok data' ->
  bytes_of data' = None.
Proof.
  intros Hd H. unfold drop_view_offset in H. bind_inv H.
  destruct a.
  - bind_inv H. eapply getslice_not_bytes; eassumption.
  - inversion H; subst. exact Hd.
Qed.

Lemma struct_unpack_needs_bytes (fmt : string) (w v : pyval) :
  bytes_of w = None -> Py.struct_unpack fmt w <> Ok v.
Proof. intros Hw. destruct w; simpl in Hw; try discriminate; simpl; discriminate. Qed.

Lemma read_entries_needs_bytes (buffer_data : pyval) (data_type : string)
    (data_type_size component_size : Z) (d : float) (offset : Z)
    (todo : nat) (j : Z) (l : list float) :
  bytes_of buffer_data = None ->
  read_entries buffer_data data_type data_type_size component_size d offset
    (S todo) j <> Ok l.
Proof.
  intros Hb H. cbn [read_entries] in H. do 2 bind_inv H.
  apply (getslice_not_bytes _ _ _ _ Hb) in H0.
  exact (struct_unpack_needs_bytes _ _ _ H0 H1).
Qed.

Lemma accessor_type_count_positive (x : pyval) (n : Z) :
  accessor_type_count x = Ok n -> 1 <= n.
Proof.
  unfold accessor_type_count. intros H. bind_inv H.
  destruct x; try discriminate. cbn [Py.getitem] in H0.
  destruct (Py.dict_get _ s) as [v|] eqn:E; [|discriminate].
  inversion H0; subst v. clear H0. cbn [Py.dict_get] in E.
  repeat match type of E with
         | (if ?c then _ else _) = _ =>
             destruct c;
             [inversion E; subst a; simpl in H; inversion H; lia|]
         end.
  discriminate.
Qed.

Lemma decode_needs_bytes (accessor bufferview buffer_data : pyval)
    (l : list entry) :
  bytes_of buffer_data = None ->
  decode accessor bufferview buffer_data = Ok l ->
  l = [].
Proof.
  intros Hb H. unfold decode in H.
  bind_inv_as H ct Hct. bind_inv_as H act Hact.
  bind_inv_as H ty Hty. bind_inv_as H n Hn.
  apply accessor_type_count_positive in Hn.
  bind_inv_as H stride Hstride. bind_inv_as H offset Hoffset.
  bind_inv_as H fmt Hfmt.
  destruct fmt as [[data_type data_type_size] normalize_divisor].
  bind_inv_as H count Hcount. bind_inv_as H k Hk.
  destruct (Z.to_nat k) as [|todo]; [simpl in H; now inversion H|].
  cbn [decode_loop] in H. bind_inv_as H entries Hentries.
  destruct (Z.to_nat n) as [|m] eqn:Em; [lia|].
  now apply read_entries_needs_bytes in Hentries.
Qed.

(** X16. A binary loader whose buffer holds no bytes (its [data] is
    [None] after a refused fetch, or any value that is neither bytes nor
    bytearray) decodes nothing: a [get_data] call that reads this buffer
    on a cache miss returns normally only with the empty sequence, so it
    never yields a decoded entry. *)
Theorem get_data_needs_bytes (self self' : GLTF2Loader) (h h' : heap)
    (accessor bufferview : pyval) (accessor_index : Z)
    (buffer : list (string * pyval)) (data : pyval) (r : ref) :
  binary self = true ->
  _accessor_data_map self !! accessor_index = None ->
  lookup_view self accessor = Ok (bufferview, PDict buffer) ->
  Py.dict_get buffer "data" = Some data ->
  bytes_of data = None ->
  get_data self h accessor accessor_index = (Ok r, self', h') ->
  h' !! r = Some [].
Proof.
  intros Hbin Hmiss Hview Hdata Hnone Hg.
  destruct (get_data_cases self h accessor accessor_index)
    as [(r0 & Hc & E) | [(e' & Hc & E) | (d & Hc & Hm & E)]];
    rewrite E in Hg; inversion Hg; subst; try congruence.
  assert (d = []) as ->.
  { unfold get_data_miss in Hm. rewrite Hview in Hm. cbn [bind] in Hm.
    do 2 bind_inv Hm.
    unfold resolve_buffer_data in H0. rewrite Hbin in H0.
    cbn [Py.getitem] in H0. rewrite Hdata in H0. cbn [bind] in H0.
    apply (drop_view_offset_not_bytes _ _ _ Hnone) in H0.
    exact (decode_needs_bytes _ _ _ _ H0 Hm). }
  exact (list_lookup_middle h [] [] (length h) eq_refl).
Qed.

End Uris.

(** X15 at the data URI of the bytes 1, 2, 3. *)
Lemma data_uri_decoders_agree_witness :
  @resolve_buffer_data Sample.platform_b64 Sample.gltf2
    (Sample.loader (PDict []) false) (PDict [])
    (PDict [("uri"%string,
             PStr "data:application/octet-stream;base64,AQID")])
  = Ok (PBytes [x01; x02; x03]).
Proof.
  exact (@data_uri_decoders_agree Sample.platform_b64 Sample.gltf2
           (Sample.loader (PDict []) false) (PDict [])
           [("uri"%string, PStr "data:application/octet-stream;base64,AQID")]
           "data:application/octet-stream;base64,AQID" "AQID" EmptyString
           eq_refl eq_refl eq_refl eq_refl eq_refl).
Defined.

(** X16 at a buffer that holds [None], for an accessor without entries. *)
Lemma get_data_needs_bytes_witness :
  snd (@get_data (Sample.platform Sample.no_json) Sample.gltf2
         (Sample.loader Sample.doc_unfetched true) []
         (Sample.accessor "VEC3" 5121 0 true) 0) !! 0%nat
  = Some [].
Proof.
  exact (@get_data_needs_bytes (Sample.platform Sample.no_json) Sample.gltf2
           (Sample.loader Sample.doc_unfetched true)
           (snd (fst (@get_data (Sample.platform Sample.no_json) Sample.gltf2
                        (Sample.loader Sample.doc_unfetched true) []
                        (Sample.accessor "VEC3" 5121 0 true) 0)))
           []
           (snd (@get_data (Sample.platform Sample.no_json) Sample.gltf2
                   (Sample.loader Sample.doc_unfetched true) []
                   (Sample.accessor "VEC3" 5121 0 true) 0))
           (Sample.accessor "VEC3" 5121 0 true)
           (PDict [("buffer"%string, PInt 0)]) 0
           [("uri"%string, PStr "http://example.org/b.bin");
            ("data"%string, PNone)]
           PNone 0%nat eq_refl eq_refl eq_refl eq_refl eq_refl eq_refl).
Defined.

(** ** The graph assembler *)

Section Graph.
Context {P : Platform} {G : Gltf2} {C : Gltf2Ctors}.

(** [l[k]] is there exactly for [-len(l) <= k < len(l)], and it is the
    element at [k mod len(l)]. *)
Lemma seq_index_spec {A} (l : list A) (k : Z) :
  let n := Z.of_nat (length l) in
  (- n <= k < n ->
   exists x, nth_error l (Z.to_nat (k mod n)) = Some x /\
             Py.seq_index l k = Ok x) /\
  (k < - n \/ n <= k -> Py.seq_index l k = Raise IndexError).
Proof.
  intros n. unfold Py.seq_index. fold n. split.
  - intros Hk.
    assert (Hmod : k mod n = if k <? 0 then k + n else k).
    { destruct (Z.ltb_spec k 0).
      - symmetry. apply (Z.mod_unique k n (-1)); lia.
      - apply Z.mod_small. lia. }
    rewrite Hmod.
    set (i' := if k <? 0 then k + n else k).
    assert (Hi : 0 <= i' < n) by (unfold i'; destruct (Z.ltb_spec k 0); lia).
    destruct (Z.leb_spec 0 i'); [|lia].
    destruct (Z.ltb_spec i' n); [|lia]. simpl.
    destruct (nth_error l (Z.to_nat i')) as [x|] eqn:E; [eauto|].
    apply nth_error_None in E. lia.
  - intros Hk.
    destruct (Z.ltb_spec k 0);
      destruct (Z.leb_spec 0 (k + n)); destruct (Z.leb_spec 0 k);
      destruct (Z.ltb_spec (k + n) n); destruct (Z.ltb_spec k n);
      simpl; try reflexivity; lia.
Qed.

(** A position depends on the length of the list only. *)
Lemma seq_position_inv {A B} (l : list A) (l' : list B) (k : Z) (c : nat) :
  seq_position l k = Ok c ->
  length l' = length l ->
  (c < length l)%nat /\ seq_position l' k = Ok c.
Proof.
  unfold seq_position. intros H Hlen. bind_inv_as H x Hx.
  inversion H as [Hc]. clear H.
  destruct (seq_index_spec l k) as [Hin Hout].
  destruct (seq_index_spec l' k) as [Hin' _].
  rewrite Hlen in *.
  assert (Hk : - Z.of_nat (length l) <= k < Z.of_nat (length l)).
  { destruct (Z_lt_dec k (- Z.of_nat (length l))) as [Hlt|Hge];
      [rewrite Hout in Hx by lia; discriminate|].
    destruct (Z_le_dec (Z.of_nat (length l)) k) as [Hle|Hgt];
      [rewrite Hout in Hx by lia; discriminate|]. lia. }
  destruct (Hin' Hk) as (y & _ & ->). cbn [bind].
  split; [|reflexivity].
  destruct (Z.ltb_spec k 0); lia.
Qed.

Lemma build_each_length {T} (ctor : pyval -> Z -> mem -> outcome (T * mem))
    (entries : list pyval) :
  forall (i : Z) (m m' : mem) (objs l : list T),
    build_each ctor entries i m objs = Ok (l, m') ->
    length l = (length objs + length entries)%nat.
Proof.
  induction entries as [|e entries IH]; intros i m m' objs l H.
  - simpl in H. inversion H; subst. simpl. lia.
  - cbn [build_each] in H. bind_inv_as H r Hr.
    apply IH in H. rewrite length_app in H. simpl in *. lia.
Qed.

Lemma build_section_length {T}
    (ctor : pyval -> Z -> mem -> outcome (T * mem))
    (key : string) (json_data : pyval) (m m' : mem) (l : list T) :
  build_section ctor key json_data m = Ok (l, m') ->
  length l = length (entries_of json_data key).
Proof.
  unfold build_section, entries_of. intros H.
  bind_inv_as H has Hhas. rewrite Hhas. cbn [bind].
  destruct has.
  - bind_inv_as H section Hsection. bind_inv_as H entries Hentries.
    rewrite Hsection. cbn [bind]. rewrite Hentries.
    apply build_each_length in H. exact H.
  - now inversion H.
Qed.

Lemma build_skins_length (json_data : pyval) (entries : list pyval) :
  forall (m m' : mem) (l : list Skin),
    build_skins json_data entries m = Ok (l, m') ->
    length l = length entries.
Proof.
  induction entries as [|e entries IH]; intros m m' l H.
  - simpl in H. now inversion H.
  - cbn [build_skins] in H. bind_inv_as H r Hr. bind_inv_as H rest Hrest.
    inversion H; subst. destruct rest as [sk m1]. apply IH in Hrest.
    simpl. now rewrite Hrest.
Qed.

Lemma build_scenes_length (ns : list Node) (entries : list pyval) :
  forall (i : Z) (scenes l : list Scene),
    build_scenes ns entries i scenes = Ok l ->
    length l = (length scenes + length entries)%nat.
Proof.
  induction entries as [|e entries IH]; intros i scenes l H.
  - simpl in H. inversion H; subst. simpl. lia.
  - cbn [build_scenes] in H. bind_inv_as H scene Hscene.
    apply IH in H. rewrite length_app in H. simpl in *. lia.
Qed.

(** What binding the skins does to the nodes. *)
Lemma bind_skins_spec (sk : list Skin) (ns : list Node) :
  forall ns' : list Node,
    bind_skins sk ns = Ok ns' ->
    length ns' = length ns /\
    forall (i : nat) (n : Node),
      ns !! i = Some n ->
      exists n',
        ns' !! i = Some n' /\
        (_skin_index n = PNone -> n' = n) /\
        (_skin_index n <> PNone ->
         exists k s,
           Py.as_index (_skin_index n) = Ok k /\
           Py.seq_index sk k = Ok s /\
           n' = set_skin n s).
Proof.
  induction ns as [|node ns IH]; intros ns' H.
  - simpl in H. inversion H; subst. split; [reflexivity|].
    intros i n Hn. destruct i; discriminate.
  - cbn [bind_skins] in H. bind_inv_as H node' Hnode. bind_inv_as H rest Hrest.
    inversion H; subst. destruct (IH _ Hrest) as [Hlen Hnodes].
    split; [simpl; now rewrite Hlen|].
    intros [|i] n Hn.
    + simpl in Hn. inversion Hn; subst n. exists node'.
      split; [reflexivity|].
      destruct (_skin_index node) eqn:E; cbv iota in Hnode;
        try (bind_inv_as Hnode k Hk; bind_inv_as Hnode skin Hskin;
             inversion Hnode; subst;
             split; [discriminate | intros _; exists k, skin; auto]).
      inversion Hnode; subst. split; [reflexivity | congruence].
    + simpl in Hn. apply (Hnodes i n Hn).
Qed.

(** What the children of one node entry do to the nodes. *)
Lemma wire_children_spec (i : nat) (children : list pyval) :
  forall ns ns' : list Node,
    wire_children i children ns = Ok ns' ->
    exists cs,
      child_positions (length ns) children = Ok cs /\
      length ns' = length ns /\
      forall (j : nat) (n : Node),
        ns !! j = Some n ->
        exists n',
          ns' !! j = Some n' /\
          node_base n' = node_base n /\
          _skin_index n' = _skin_index n /\
          _skin n' = _skin n /\
          _children n' = _children n ++ (if decide (j = i) then cs else []) /\
          _parent n' = (if decide (j ∈ cs) then Some i else _parent n).
Proof.
  induction children as [|child_index children IH]; intros ns ns' H.
  - simpl in H. inversion H; subst. exists []. do 2 (split; [reflexivity|]).
    intros j n Hn. exists n. split; [exact Hn|].
    do 3 (split; [reflexivity|]). split.
    + destruct (decide (j = i)); now rewrite app_nil_r.
    + destruct (decide (j ∈ [])) as [Hin|]; [|reflexivity].
      now apply elem_of_nil in Hin.
  - cbn [wire_children] in H. bind_inv_as H k Hk. bind_inv_as H c Hc.
    destruct (seq_position_inv ns (repeat tt (length ns)) k c Hc
                (repeat_length _ _)) as [Hlt Hpos].
    apply IH in H. destruct H as (cs & Hcs & Hlen & Hnodes).
    rewrite !length_alter in Hcs, Hlen.
    exists (c :: cs). split.
    { cbn [child_positions]. rewrite Hk. cbn [bind]. rewrite Hpos.
      cbn [bind]. rewrite Hcs. reflexivity. }
    split; [exact Hlen|]. intros j n Hn.
    destruct (Hnodes j
                ((if decide (i = j) then fun p => add_child p c else id)
                   ((if decide (c = j) then fun x => set_parent x i else id)
                      n)))
      as (n' & Hn' & Hb & Hsi & Hs & Hch & Hp).
    { rewrite !list_lookup_alter.
      destruct (decide (i = j)) as [->|Hij];
        destruct (decide (c = j)) as [Hcj|Hcj];
        try rewrite Hcj; rewrite ?list_lookup_alter, ?Hn;
        repeat match goal with
               | |- context [decide (?a = ?a)] =>
                   destruct (decide (a = a)); [|congruence]
               | Hne : ?a <> ?b |- context [decide (?a = ?b)] =>
                   destruct (decide (a = b)); [congruence|]
               end;
        rewrite ?Hn; reflexivity. }
    exists n'. split; [exact Hn'|].
    destruct (decide (i = j)) as [Hij|Hij];
      destruct (decide (c = j)) as [Hcj|Hcj]; simpl in *;
      (split; [exact Hb|]); (split; [exact Hsi|]); (split; [exact Hs|]);
      split.
    all: try (rewrite Hch; destruct (decide (j = i)); try congruence;
              rewrite <- ?app_assoc; reflexivity).
    all: rewrite Hp; destruct (decide (j ∈ cs)) as [Hin|Hin];
      destruct (decide (j ∈ c :: cs)) as [Hin'|Hin']; try reflexivity;
      try (exfalso; apply Hin'; subst; set_solver).
    all: apply elem_of_cons in Hin'; destruct Hin' as [->|Hin'];
      congruence.
Qed.

(** One pass of the second loop over the node entries. *)
Lemma entry_step_spec (i : nat) (e : pyval) (has : bool)
    (ns ns1 : list Node) :
  Py.contains "children" e = Ok has ->
  (if has
   then (cs <- Py.getitem e (PStr "children") ;;
         (children <- Py.iter cs ;;
          wire_children i children ns))
   else Ok ns) = Ok ns1 ->
  exists cs,
    entry_children (length ns) e = Ok cs /\
    length ns1 = length ns /\
    forall (j : nat) (n : Node),
      ns !! j = Some n ->
      exists n1,
        ns1 !! j = Some n1 /\
        node_base n1 = node_base n /\
        _skin_index n1 = _skin_index n /\
        _skin n1 = _skin n /\
        _children n1 = _children n ++ (if decide (j = i) then cs else []) /\
        _parent n1 = (if decide (j ∈ cs) then Some i else _parent n).
Proof.
  intros Hhas H. unfold entry_children. rewrite Hhas. cbn [bind].
  destruct has.
  - bind_inv_as H cs Hcs. bind_inv_as H children Hchildren.
    rewrite Hcs. cbn [bind]. rewrite Hchildren. cbn [bind].
    now apply wire_children_spec.
  - apply (wire_children_spec i [] ns ns1 H).
Qed.

(** Whether some entry names node [j] as a child can be told. *)
Lemma names_dec (N j : nat) (es : list pyval) :
  (exists p e cs,
      es !! p = Some e /\ entry_children N e = Ok cs /\ j ∈ cs) \/
  (forall p e cs,
      es !! p = Some e -> entry_children N e = Ok cs -> j ∉ cs).
Proof.
  induction es as [|e es IH].
  - right. intros p e cs Hp. rewrite lookup_nil in Hp. discriminate.
  - destruct (entry_children N e) as [cs|x] eqn:E.
    + destruct (decide (j ∈ cs)) as [Hin|Hout].
      * left. exists 0%nat, e, cs. auto.
      * destruct IH as [(p & e' & cs' & H1 & H2 & H3)|IH].
        -- left. exists (S p), e', cs'. auto.
        -- right. intros [|p] e' cs' H1 H2; simpl in H1.
           ++ inversion H1; subst. congruence.
           ++ eapply IH; eassumption.
    + destruct IH as [(p & e' & cs' & H1 & H2 & H3)|IH].
      * left. exists (S p), e', cs'. auto.
      * right. intros [|p] e' cs' H1 H2; simpl in H1.
        -- inversion H1; subst. congruence.
        -- eapply IH; eassumption.
Qed.

(** The second loop over the node entries, from entry [i] on. *)
Lemma wire_nodes_spec (entries : list pyval) :
  forall (i : nat) (ns ns' : list Node),
    wire_nodes entries i ns = Ok ns' ->
    length ns' = length ns /\
    (forall p e, entries !! p = Some e ->
                 exists cs, entry_children (length ns) e = Ok cs) /\
    forall (j : nat) (n : Node),
      ns !! j = Some n ->
      exists n',
        ns' !! j = Some n' /\
        node_base n' = node_base n /\
        _skin_index n' = _skin_index n /\
        _skin n' = _skin n /\
        (forall p e cs,
            entries !! p = Some e ->
            entry_children (length ns) e = Ok cs ->
            j = (i + p)%nat ->
            _children n' = _children n ++ cs) /\
        ((j < i)%nat \/ (i + length entries <= j)%nat ->
         _children n' = _children n) /\
        (forall p e cs,
            entries !! p = Some e ->
            entry_children (length ns) e = Ok cs ->
            j ∈ cs ->
            exists q e' cs',
              _parent n' = Some (i + q)%nat /\ (p <= q)%nat /\
              entries !! q = Some e' /\
              entry_children (length ns) e' = Ok cs' /\ j ∈ cs') /\
        ((forall p e cs,
             entries !! p = Some e ->
             entry_children (length ns) e = Ok cs -> j ∉ cs) ->
         _parent n' = _parent n).
Proof.
  induction entries as [|e es IH]; intros i ns ns' H.
  - simpl in H. inversion H; subst. split; [reflexivity|]. split.
    { intros p e Hp. rewrite lookup_nil in Hp. discriminate. }
    intros j n Hn. exists n. split; [exact Hn|].
    do 3 (split; [reflexivity|]). split.
    { intros p e cs Hp. rewrite lookup_nil in Hp. discriminate. }
    split; [reflexivity|]. split; [|reflexivity].
    intros p e cs Hp. rewrite lookup_nil in Hp. discriminate.
  - cbn [wire_nodes] in H. bind_inv_as H has Hhas. bind_inv_as H ns1 Hns1.
    destruct (entry_step_spec i e has ns ns1 Hhas Hns1)
      as (cs0 & Hcs0 & Hlen1 & Hstep).
    destruct (IH _ _ _ H) as (Hlen & Hall & Hnodes). rewrite Hlen1 in *.
    split; [exact Hlen|]. split.
    { intros [|p] e' Hp; simpl in Hp; [inversion Hp; subst; eauto | eauto]. }
    intros j n Hn.
    destruct (Hstep j n Hn) as (n1 & Hn1 & Hb1 & Hsi1 & Hs1 & Hch1 & Hp1).
    destruct (Hnodes j n1 Hn1)
      as (n' & Hn' & Hb & Hsi & Hs & Hch & Hout & Hpar & Hnone).
    exists n'. split; [exact Hn'|].
    split; [congruence|]. split; [congruence|]. split; [congruence|].
    split; [|split; [|split]].
    + intros [|p] e' cs Hp Hcs Hj; simpl in Hp.
      * inversion Hp; subst e'. rewrite Hcs0 in Hcs. inversion Hcs; subst cs.
        rewrite Hout by lia. rewrite Hch1.
        destruct (decide (j = i)); [reflexivity | lia].
      * rewrite (Hch p e' cs Hp Hcs) by lia. rewrite Hch1.
        destruct (decide (j = i)); [lia|]. now rewrite app_nil_r.
    + intros Hj. simpl in Hj. rewrite Hout by lia. rewrite Hch1.
      destruct (decide (j = i)); [lia|]. apply app_nil_r.
    + intros [|p] e' cs Hp Hcs Hin; simpl in Hp.
      * inversion Hp; subst e'.
        destruct (names_dec (length ns) j es)
          as [(p' & e2 & cs2 & Hp2 & Hcs2 & Hin2)|Hno].
        -- destruct (Hpar p' e2 cs2 Hp2 Hcs2 Hin2)
             as (q & e3 & cs3 & Hq & Hle & Hq3 & Hcs3 & Hin3).
           exists (S q), e3, cs3.
           replace (i + S q)%nat with (S i + q)%nat by lia.
           repeat split; try assumption. lia.
        -- exists 0%nat, e, cs0. rewrite (Hnone Hno), Hp1.
           rewrite Hcs0 in Hcs. inversion Hcs; subst cs.
           destruct (decide (j ∈ cs0)); [|contradiction].
           replace (i + 0)%nat with i by lia. auto.
      * destruct (Hpar p e' cs Hp Hcs Hin)
          as (q & e3 & cs3 & Hq & Hle & Hq3 & Hcs3 & Hin3).
        exists (S q), e3, cs3.
        replace (i + S q)%nat with (S i + q)%nat by lia.
        repeat split; try assumption. lia.
    + intros Hnone'. rewrite Hnone, Hp1.
      * destruct (decide (j ∈ cs0)) as [Hin|]; [|reflexivity].
        exfalso. exact (Hnone' 0%nat e cs0 eq_refl Hcs0 Hin).
      * intros p e' cs Hp Hcs. exact (Hnone' (S p) e' cs Hp Hcs).
Qed.

End Graph.

Section GraphTheorems.
Context {P : Platform} {G : Gltf2} {C : Gltf2Ctors}.

Lemma entries_of_section (json_data section : pyval) (key : string)
    (entries : list pyval) :
  Py.contains key json_data = Ok true ->
  Py.getitem json_data (PStr key) = Ok section ->
  Py.iter section = Ok entries ->
  entries_of json_data key = entries.
Proof.
  intros Hhas Hsection Hentries. unfold entries_of.
  rewrite Hhas. cbn [bind]. rewrite Hsection. cbn [bind].
  now rewrite Hentries.
Qed.

Lemma entries_of_absent (json_data : pyval) (key : string) :
  Py.contains key json_data = Ok false -> entries_of json_data key = [].
Proof. intros Hhas. unfold entries_of. now rewrite Hhas. Qed.

Lemma initialize_nodes_length (json_data : pyval) (m m' : mem)
    (ns : list Node) :
  _initialize_nodes json_data m = Ok (ns, m') ->
  length ns = length (entries_of json_data "nodes").
Proof.
  unfold _initialize_nodes. intros H. bind_inv_as H has Hhas.
  destruct has.
  - bind_inv_as H section Hsection. bind_inv_as H entries Hentries.
    bind_inv_as H r Hr. bind_inv_as H section' Hsection'.
    bind_inv_as H entries' Hentries'. bind_inv_as H ns1 Hns1.
    inversion H; subst.
    rewrite (entries_of_section _ _ _ _ Hhas Hsection Hentries).
    destruct r as [built m1].
    apply build_each_length in Hr. apply wire_nodes_spec in Hns1.
    destruct Hns1 as [Hlen _]. simpl in *. lia.
  - inversion H; subst. now rewrite entries_of_absent.
Qed.

Lemma initialize_skins_length (json_data : pyval) (ns ns' : list Node)
    (m m' : mem) (sk : list Skin) :
  _initialize_skins json_data ns m = Ok (sk, ns', m') ->
  length sk = length (entries_of json_data "skins") /\
  length ns' = length ns.
Proof.
  unfold _initialize_skins. intros H. bind_inv_as H has Hhas.
  destruct has.
  - bind_inv_as H section Hsection. bind_inv_as H entries Hentries.
    bind_inv_as H r Hr. bind_inv_as H ns1 Hns1. inversion H; subst.
    rewrite (entries_of_section _ _ _ _ Hhas Hsection Hentries).
    destruct r as [sk1 m1]. apply build_skins_length in Hr.
    apply bind_skins_spec in Hns1. destruct Hns1 as [Hlen _].
    simpl in *. auto.
  - inversion H; subst. now rewrite entries_of_absent.
Qed.

Lemma initialize_scenes_length (json_data : pyval) (ns : list Node)
    (scenes : list Scene) (main : option Scene) :
  _initialize_scenes json_data ns = Ok (scenes, main) ->
  length scenes = length (entries_of json_data "scenes").
Proof.
  unfold _initialize_scenes. intros H. bind_inv_as H has Hhas.
  destruct has.
  - bind_inv_as H section Hsection. bind_inv_as H entries Hentries.
    bind_inv_as H built Hbuilt. bind_inv_as H has_scene Hhas_scene.
    rewrite (entries_of_section _ _ _ _ Hhas Hsection Hentries).
    apply build_scenes_length in Hbuilt. simpl in Hbuilt.
    destruct has_scene.
    + bind_inv_as H idx Hidx. bind_inv_as H k Hk. bind_inv_as H s Hs.
      inversion H; subst. exact Hbuilt.
    + bind_inv_as H s Hs. inversion H; subst. exact Hbuilt.
  - inversion H; subst. now rewrite entries_of_absent.
Qed.

(** X17. A constructed loader holds one object for every entry of the
    document, in every section: as many images, materials, meshes, nodes,
    skins, scenes and animations as the [images], [materials], [meshes],
    [nodes], [skins], [scenes] and [animations] lists have entries (none
    where the document has no such list). An index that is valid in the
    document is a valid position in the loader's list. *)
Theorem initialize_one_object_per_entry (self : bare_loader) (h h' : heap)
    (loader : GLTF2Loader) :
  _initialize self h = Ok (loader, h') ->
  let count key := length (entries_of (json_data loader) key) in
  length (_images loader) = count "images"%string /\
  length (_materials loader) = count "materials"%string /\
  length (_meshes loader) = count "meshes"%string /\
  length (nodes loader) = count "nodes"%string /\
  length (skins loader) = count "skins"%string /\
  length (_scenes loader) = count "scenes"%string /\
  length (animations loader) = count "animations"%string.
Proof.
  unfold _initialize. intros H.
  bind_inv_as H jd Hjd. bind_inv_as H asset Hasset.
  bind_inv_as H images Himages. bind_inv_as H materials Hmaterials.
  bind_inv_as H meshes Hmeshes. bind_inv_as H ns Hns.
  bind_inv_as H sk Hsk. bind_inv_as H scn Hsc. bind_inv_as H anims Hanims.
  inversion H; subst. cbv zeta. cbn [json_data _images _materials _meshes
    nodes skins _scenes animations].
  destruct images as [images m1], materials as [materials m2],
    meshes as [meshes m3], ns as [ns m4], sk as [[sk ns'] m5],
    scn as [scenes main], anims as [anims m6].
  cbn [fst snd] in *.
  apply build_section_length in Himages, Hmaterials, Hmeshes, Hanims.
  apply initialize_nodes_length in Hns.
  apply initialize_skins_length in Hsk. destruct Hsk as [Hsk Hns'].
  apply initialize_scenes_length in Hsc.
  repeat split; try assumption. congruence.
Qed.

(** X18. Binding the skins changes nothing of a node but its [_skin]:
    where the document has a [skins] list, every node whose [_skin_index]
    is not [None] gets the skin at that index, by Python's indexing, and
    every other node is left as it was; without a [skins] list all nodes
    are left as they were, whatever their [_skin_index]. No node is added
    or dropped. *)
Theorem initialize_skins_binds (json_data : pyval) (ns ns' : list Node)
    (m m' : mem) (sk : list Skin) :
  _initialize_skins json_data ns m = Ok (sk, ns', m') ->
  length ns' = length ns /\
  forall (i : nat) (n : Node),
    ns !! i = Some n ->
    exists n',
      ns' !! i = Some n' /\
      (Py.contains "skins" json_data = Ok false \/ _skin_index n = PNone ->
       n' = n) /\
      (Py.contains "skins" json_data = Ok true ->
       _skin_index n <> PNone ->
       exists k s,
         Py.as_index (_skin_index n) = Ok k /\
         Py.seq_index sk k = Ok s /\
         n' = set_skin n s).
Proof.
  unfold _initialize_skins. intros H. bind_inv_as H has Hhas.
  destruct has.
  - bind_inv_as H section Hsection. bind_inv_as H entries Hentries.
    bind_inv_as H r Hr. bind_inv_as H ns1 Hns1. inversion H; subst.
    destruct (bind_skins_spec _ _ _ Hns1) as [Hlen Hnodes].
    split; [exact Hlen|]. intros i n Hn.
    destruct (Hnodes i n Hn) as (n' & Hn' & Hnone & Hsome).
    exists n'. split; [exact Hn'|]. split.
    + intros [Hf|Hi]; [congruence | now apply Hnone].
    + intros _ Hi. now apply Hsome.
  - inversion H; subst. split; [reflexivity|]. intros i n Hn.
    exists n. split; [exact Hn|]. split; [reflexivity | congruence].
Qed.

(** X19. The [scene] key of the document selects the main scene by
    Python's indexing: with [n] scenes, an integer [k] from [-n] to
    [n - 1] selects the scene at [k mod n], so a negative [k] counts from
    the end, and any other integer makes construction fail with
    [IndexError]. *)
Theorem initialize_scenes_index (d : list (string * pyval))
    (ns : list Node) (entries : list pyval) (scenes : list Scene) (k : Z) :
  Py.dict_get d "scenes" = Some (PList entries) ->
  build_scenes ns entries 0 [] = Ok scenes ->
  Py.dict_get d "scene" = Some (PInt k) ->
  let n := Z.of_nat (length entries) in
  (- n <= k < n ->
   exists s, nth_error scenes (Z.to_nat (k mod n)) = Some s /\
             _initialize_scenes (PDict d) ns = Ok (scenes, Some s)) /\
  (k < - n \/ n <= k ->
   _initialize_scenes (PDict d) ns = Raise IndexError).
Proof.
  intros Hs Hb Hk n.
  assert (Hn : Z.of_nat (length scenes) = n).
  { apply build_scenes_length in Hb. simpl in Hb. unfold n. now rewrite Hb. }
  assert (E : _initialize_scenes (PDict d) ns
              = (main <- Py.seq_index scenes k ;; Ok (scenes, Some main))).
  { unfold _initialize_scenes. cbn [Py.contains bind Py.getitem].
    rewrite Hs. cbn [bind Py.iter]. rewrite Hb. cbn [bind].
    rewrite Hk. cbn [bind Py.as_index]. reflexivity. }
  destruct (seq_index_spec scenes k) as [Hin Hout]. rewrite Hn in Hin, Hout.
  split.
  - intros Hrange. destruct (Hin Hrange) as (s & Hnth & Hidx).
    exists s. split; [exact Hnth|]. rewrite E, Hidx. reflexivity.
  - intros Hrange. rewrite E, (Hout Hrange). reflexivity.
Qed.

(** X20. The node pass builds one node per entry and then wires the
    hierarchy, changing nothing of a node but [_children] and [_parent].
    Node [j] gets, behind the children its constructor gave it, the
    positions its own entry names under [children], in the entry's order
    (a negative index counting from the end). Its parent is the last entry
    that names it as a child: if some entry [p] names it, the parent is an
    entry [q >= p] that names it, so a node named by several entries keeps
    one parent only; if no entry names it, its parent stays what the
    constructor gave it. *)
Theorem initialize_nodes_wires (json_data : pyval) (m m' : mem)
    (ns' : list Node) :
  _initialize_nodes json_data m = Ok (ns', m') ->
  let entries := entries_of json_data "nodes" in
  exists built : list Node,
    build_each (Node_new json_data) entries 0 m [] = Ok (built, m') /\
    length ns' = length entries /\
    length built = length entries /\
    forall (j : nat) (n' : Node),
      ns' !! j = Some n' ->
      exists n e cs,
        built !! j = Some n /\
        entries !! j = Some e /\
        entry_children (length entries) e = Ok cs /\
        node_base n' = node_base n /\
        _skin_index n' = _skin_index n /\
        _skin n' = _skin n /\
        _children n' = _children n ++ cs /\
        (forall p e0 cs0,
            entries !! p = Some e0 ->
            entry_children (length entries) e0 = Ok cs0 ->
            j ∈ cs0 ->
            exists q e1 cs1,
              _parent n' = Some q /\ (p <= q)%nat /\
              entries !! q = Some e1 /\
              entry_children (length entries) e1 = Ok cs1 /\ j ∈ cs1) /\
        ((forall p e0 cs0,
             entries !! p = Some e0 ->
             entry_children (length entries) e0 = Ok cs0 -> j ∉ cs0) ->
         _parent n' = _parent n).
Proof.
  unfold _initialize_nodes. intros H. bind_inv_as H has Hhas.
  destruct has.
  - bind_inv_as H section Hsection. bind_inv_as H entries Hentries.
    bind_inv_as H r Hr. bind_inv_as H section' Hsection'.
    bind_inv_as H entries' Hentries'. bind_inv_as H ns1 Hns1.
    inversion H; subst. clear H.
    rewrite Hsection in Hsection'. inversion Hsection'; subst section'.
    rewrite Hentries in Hentries'. inversion Hentries'; subst entries'.
    cbv zeta. rewrite (entries_of_section _ _ _ _ Hhas Hsection Hentries).
    destruct r as [built m1]. cbn [fst snd] in *.
    pose proof (build_each_length _ _ _ _ _ _ _ Hr) as Hbl. simpl in Hbl.
    destruct (wire_nodes_spec entries 0 built ns' Hns1)
      as (Hlen & Hall & Hnodes).
    rewrite Hbl in *.
    exists built. split; [exact Hr|]. split; [exact Hlen|].
    split; [exact Hbl|]. intros j n' Hn'.
    assert (Hj : (j < length entries)%nat).
    { rewrite <- Hlen. apply lookup_lt_is_Some. eauto. }
    destruct (lookup_lt_is_Some_2 built j) as [n Hn]; [lia|].
    destruct (lookup_lt_is_Some_2 entries j Hj) as [e He].
    destruct (Hall j e He) as [cs Hcs].
    destruct (Hnodes j n Hn)
      as (n'' & Hn'' & Hb & Hsi & Hs & Hch & _ & Hpar & Hnone).
    rewrite Hn' in Hn''. inversion Hn''; subst n''.
    exists n, e, cs. repeat (split; [assumption|]).
    split; [exact (Hch j e cs He Hcs eq_refl)|].
    split; [|exact Hnone].
    intros p e0 cs0 Hp Hcs0 Hin.
    destruct (Hpar p e0 cs0 Hp Hcs0 Hin) as (q & e1 & cs1 & Hq & Hrest).
    exists q, e1, cs1. split; [exact Hq | exact Hrest].
  - inversion H; subst. cbv zeta. rewrite (entries_of_absent _ _ Hhas).
    exists []. repeat (split; [reflexivity|]).
    intros j n' Hn'. rewrite lookup_nil in Hn'. discriminate.
Qed.

End GraphTheorems.

(** X17 at the document of two nodes and one mesh. *)
Lemma initialize_one_object_per_entry_witness :
  length (@nodes Sample.gltf2 Sample.loader_two_nodes) = 2%nat /\
  length (@_meshes Sample.gltf2 Sample.loader_two_nodes) = 1%nat /\
  length (@_scenes Sample.gltf2 Sample.loader_two_nodes) = 0%nat.
Proof.
  destruct (@initialize_one_object_per_entry Sample.gltf2 Sample.ctors
              (@mkBare Sample.gltf2 tt EmptyString false true
                 (Some Sample.doc_two_nodes) false)
              [] [] Sample.loader_two_nodes eq_refl)
    as (_ & _ & Hmeshes & Hnodes & _ & Hscenes & _).
  split; [exact Hnodes|]. split; [exact Hmeshes | exact Hscenes].
Defined.

(** X18 at two nodes, the first with skin index 0, and one skin. *)
Lemma initialize_skins_binds_witness :
  exists k s,
    Py.as_index (PInt 0) = Ok k /\
    Py.seq_index [tt] k = Ok s /\
    Sample.node (PInt 0) None [] (Some tt)
    = @set_skin Sample.gltf2 (Sample.node (PInt 0) None [] None) s.
Proof.
  destruct (@initialize_skins_binds Sample.gltf2 Sample.ctors
              (PDict [("skins"%string, PList [PDict []])])
              [Sample.node (PInt 0) None [] None;
               Sample.node PNone None [] None]
              [Sample.node (PInt 0) None [] (Some tt);
               Sample.node PNone None [] None]
              (Mem ∅ []) (Mem ∅ []) [tt] eq_refl) as [_ H].
  destruct (H 0%nat (Sample.node (PInt 0) None [] None) eq_refl)
    as (n' & Hn' & _ & Hk).
  inversion Hn'; subst n'. apply Hk; [reflexivity | discriminate].
Defined.

(** X19 at two scenes and [scene = -1]: the last scene. *)
Lemma initialize_scenes_index_witness :
  @_initialize_scenes Sample.gltf2 Sample.ctors
    (PDict [("scenes"%string, PList [PDict []; PDict []]);
            ("scene"%string, PInt (-1))]) []
  = Ok ([0; 1], Some 1).
Proof.
  destruct (@initialize_scenes_index Sample.gltf2 Sample.ctors
              [("scenes"%string, PList [PDict []; PDict []]);
               ("scene"%string, PInt (-1))]
              [] [PDict []; PDict []] [0; 1] (-1)
              eq_refl eq_refl eq_refl) as [Hin _].
  destruct Hin as (s & Hs & E); [simpl; lia|].
  vm_compute in Hs. inversion Hs; subst s. exact E.
Defined.

(** X20 at the document of two nodes: both nodes are built. *)
Lemma initialize_nodes_wires_witness :
  exists built,
    @build_each _ (@Node_new Sample.gltf2 Sample.ctors Sample.doc_two_nodes)
      (entries_of Sample.doc_two_nodes "nodes") 0 (Mem ∅ []) []
    = Ok (built, Mem ∅ []) /\
    length built = 2%nat.
Proof.
  destruct (@initialize_nodes_wires Sample.gltf2 Sample.ctors
              Sample.doc_two_nodes (Mem ∅ []) (Mem ∅ [])
              [Sample.node PNone None [1%nat] None;
               Sample.node PNone (Some 0%nat) [] None]
              eq_refl) as (built & Hb & _ & Hl & _).
  exists built. split; [exact Hb | exact Hl].
Defined.

(** ** From the file to the loader *)

Section FileToLoader.
Context {P : Platform} {G : Gltf2} {C : Gltf2Ctors}.

Lemma dict_get_set (d : list (string * pyval)) (k : string) (v : pyval) :
  Py.dict_get (Py.dict_set d k v) k = Some v.
Proof.
  induction d as [|[k' v'] d IH]; cbn [Py.dict_set Py.dict_get].
  - now rewrite String.eqb_refl.
  - destruct (String.eqb k' k) eqn:E; cbn [Py.dict_get]; rewrite E;
      [reflexivity | exact IH].
Qed.

(** What [_initialize] takes over from [__init__]. *)
Lemma initialize_fields (self : bare_loader) (h h' : heap)
    (loader : GLTF2Loader) :
  _initialize self h = Ok (loader, h') ->
  usdz_profile loader = bare_usdz_profile self /\
  root_dir loader = bare_root_dir self /\
  _optimize_textures loader = bare_optimize_textures self /\
  _generate_texture_transform_texture loader
    = bare_generate_texture_transform_texture self.
Proof.
  unfold _initialize. intros H.
  bind_inv_as H jd Hjd. bind_inv_as H asset Hasset.
  bind_inv_as H images Himages. bind_inv_as H materials Hmaterials.
  bind_inv_as H meshes Hmeshes. bind_inv_as H ns Hns.
  bind_inv_as H sk Hsk. bind_inv_as H scn Hsc. bind_inv_as H anims Hanims.
  inversion H; subst. simpl. auto.
Qed.

(** A container of a JSON chunk and a binary chunk, in this order. *)
Lemma demux_glb_two_chunks (root : string) (json bin : list byte)
    (total : Z) (d buffer : list (string * pyval)) (others : list pyval)
    (n : Z) :
  json_loads json = Ok (PDict d) ->
  0 <= total < 2 ^ 32 ->
  Z.of_nat (length json) < 2 ^ 32 ->
  Z.of_nat (length bin) < 2 ^ 32 ->
  total = consumed_bytes [Z.of_nat (length json); Z.of_nat (length bin)] ->
  Py.dict_get d "buffers" = Some (PList (PDict buffer :: others)) ->
  Py.dict_get buffer "uri" = None ->
  Py.dict_get buffer "byteLength" = Some (PInt n) ->
  0 <= n ->
  demux_glb root
    (glb_header MAGIC 2 total ++ chunk_bytes JSON_CHUNK json
       ++ chunk_bytes BINARY_CHUNK bin)
  = Some (Ok (Some
      (PDict (Py.dict_set d "buffers"
                (PList (PDict (Py.dict_set buffer "data"
                                 (PByteArray (firstn (Z.to_nat n) bin)))
                          :: others)))))).
Proof.
  intros Hloads Htotal Hjson Hbin Hsize Hbuffers Huri Hlen Hn.
  assert (Hjt : 0 <= JSON_CHUNK < 2 ^ 32) by (unfold JSON_CHUNK; lia).
  assert (Hbt : 0 <= BINARY_CHUNK < 2 ^ 32) by (unfold BINARY_CHUNK; lia).
  set (body := chunk_bytes JSON_CHUNK json ++ chunk_bytes BINARY_CHUNK bin).
  assert (Hhdr : frombuffer_uint32 (firstn 12 (glb_header MAGIC 2 total ++ body))
                 = Ok [MAGIC; 2; total]).
  { rewrite (proj1 (glb_header_split _ _ _ body)).
    apply frombuffer_three; unfold MAGIC; lia. }
  set (s0 := mkDemux body 12 None).
  destruct (chunk_step_at_chunk root total s0 JSON_CHUNK json
              (chunk_bytes BINARY_CHUNK bin))
    as [Hw0 Hstep0]; [reflexivity | lia | lia |].
  rewrite handle_json_chunk, Hloads in Hstep0. cbn [bind] in Hstep0.
  set (s1 := mkDemux (chunk_bytes BINARY_CHUNK bin)
               (uint32_add (12 + 8) (Z.of_nat (length json)))
               (Some (PDict d))).
  destruct (chunk_step_at_chunk root total s1 BINARY_CHUNK bin [])
    as [Hw1 Hstep1]; [symmetry; apply app_nil_r | lia | lia |].
  cbn [demux_json_data s1] in Hstep1.
  rewrite (handle_binary_chunk_bound root bin d buffer others n
             Hbuffers Huri Hlen Hn) in Hstep1.
  cbn [bind] in Hstep1.
  match type of Hstep1 with
  | _ = Ok (Next ?s2) =>
      apply (demux_glb_byte_count_match root _ total
               [Z.of_nat (length json); Z.of_nat (length bin)] s2);
        [exact Hhdr | | reflexivity | exact Hsize]
  end.
  rewrite (proj2 (glb_header_split _ _ _ _)).
  eapply consumes_cons; [exact Hw0 | exact Hstep0 |].
  eapply consumes_cons; [exact Hw1 | exact Hstep1 | apply consumes_nil].
Qed.

(** X21. The binary chunk of a [.glb] file is what [get_data] reads: in a
    loader constructed from a container of a JSON chunk and a binary chunk
    whose first buffer names no [uri], the first buffer of the loader's
    document holds the first [byteLength] bytes of the binary chunk as its
    [data], and the bytes resolved for a view of this buffer are these
    bytes from the view's [byteOffset] on (all of them without one). *)
Theorem glb_chunk_is_buffer_data (gltf_file : string) (profile : USDZProfile)
    (o g : bool) (h h' : heap) (loader : GLTF2Loader)
    (json bin : list byte) (total : Z)
    (d buffer : list (string * pyval)) (others : list pyval) (n : Z) :
  __init__ gltf_file profile o g h = Some (Ok (loader, h')) ->
  str_endswith gltf_file ".glb" = true ->
  open_rb gltf_file
    = Ok (glb_header MAGIC 2 total ++ chunk_bytes JSON_CHUNK json
            ++ chunk_bytes BINARY_CHUNK bin) ->
  json_loads json = Ok (PDict d) ->
  0 <= total < 2 ^ 32 ->
  Z.of_nat (length json) < 2 ^ 32 ->
  Z.of_nat (length bin) < 2 ^ 32 ->
  total = consumed_bytes [Z.of_nat (length json); Z.of_nat (length bin)] ->
  Py.dict_get d "buffers" = Some (PList (PDict buffer :: others)) ->
  Py.dict_get buffer "uri" = None ->
  Py.dict_get buffer "byteLength" = Some (PInt n) ->
  0 <= n ->
  let data := PByteArray (firstn (Z.to_nat n) bin) in
  let buffer' := Py.dict_set buffer "data" data in
  binary loader = true /\
  Py.getitem (json_data loader) (PStr "buffers")
    = Ok (PList (PDict buffer' :: others)) /\
  Py.getitem (PDict buffer') (PStr "data") = Ok data /\
  forall (bv : list (string * pyval)) (offset : option Z),
    Py.dict_get bv "byteOffset" = option_map PInt offset ->
    resolve_buffer_data loader (PDict bv) (PDict buffer')
    = match offset with
      | Some off => Py.getslice data (PInt off) PNone
      | None => Ok data
      end.
Proof.
  intros H Hglb Hopen Hloads Htotal Hjson Hbin Hsize Hbuffers Huri Hlen Hn
    data buffer'.
  pose proof (demux_glb_two_chunks (os_path_dirname gltf_file) json bin total
                d buffer others n Hloads Htotal Hjson Hbin Hsize Hbuffers
                Huri Hlen Hn) as Hd.
  unfold __init__ in H. rewrite Hglb, Hopen, Hd in H.
  destruct (negb (os_path_isfile gltf_file)); [discriminate|].
  rewrite andb_false_r in H. inversion H as [Hinit]. clear H.
  destruct (initialize_binary _ _ _ _ Hinit) as [Hb Hj].
  cbn [bare_binary bare_json_data] in Hb, Hj. inversion Hj as [Hdoc].
  split; [exact Hb|]. split; [|split].
  - cbn [Py.getitem]. now rewrite dict_get_set.
  - cbn [Py.getitem]. unfold buffer'. now rewrite dict_get_set.
  - intros bv offset Hoff.
    apply (resolve_buffer_data_binary loader bv buffer' data offset Hb);
      [|exact Hoff].
    unfold buffer'. apply dict_get_set.
Qed.

(** X22. A loader constructed from a file that is no [.glb] vouches for
    its source: the file exists and its name ends in [.gltf], its content
    parsed as UTF-8 JSON, or, where it is not UTF-8, in the platform's
    default encoding, is the loader's document; the loader is not binary,
    its root directory is the directory of the file, and profile and
    texture options are the ones given. *)
Theorem init_gltf_sound (gltf_file : string) (profile : USDZProfile)
    (o g : bool) (h h' : heap) (loader : GLTF2Loader) :
  __init__ gltf_file profile o g h = Some (Ok (loader, h')) ->
  str_endswith gltf_file ".glb" = false ->
  os_path_isfile gltf_file = true /\
  str_endswith gltf_file ".gltf" = true /\
  (exists content,
      open_rb gltf_file = Ok content /\
      (json_loads content = Ok (json_data loader) \/
       json_loads content = Raise UnicodeDecodeError /\
       json_load_default content = Ok (json_data loader))) /\
  binary loader = false /\
  root_dir loader = os_path_dirname gltf_file /\
  usdz_profile loader = profile /\
  _optimize_textures loader = o /\
  _generate_texture_transform_texture loader = g.
Proof.
  unfold __init__. intros H Hglb. rewrite Hglb in H.
  destruct (os_path_isfile gltf_file); [|discriminate]. cbn [negb] in H.
  destruct (str_endswith gltf_file ".gltf"); [|discriminate].
  cbn [negb andb] in H.
  destruct (load_gltf gltf_file) as [doc|e] eqn:Hload; [|discriminate].
  inversion H as [Hinit]. clear H.
  destruct (initialize_binary _ _ _ _ Hinit) as [Hb Hj].
  destruct (initialize_fields _ _ _ _ Hinit) as (Hp & Hr & Ho & Hg).
  cbn [bare_binary bare_json_data bare_usdz_profile bare_root_dir
       bare_optimize_textures bare_generate_texture_transform_texture]
    in Hb, Hj, Hp, Hr, Ho, Hg.
  inversion Hj as [Hdoc]. subst doc.
  do 2 (split; [reflexivity|]). split; [|auto].
  unfold load_gltf in Hload. bind_inv_as Hload content Hcontent.
  exists content. split; [exact Hcontent|].
  destruct (json_loads content) as [v|e] eqn:Hjl.
  - left. exact Hload.
  - right. destruct e; try discriminate.
    rewrite Hcontent in Hload. cbn [bind] in Hload. auto.
Qed.

End FileToLoader.

(** X21 at the sample container of 64 bytes. *)
Lemma glb_chunk_is_buffer_data_witness :
  @resolve_buffer_data
    (Sample.platform_of (Sample.one_file "model.glb" Sample.glb_json_first)
       Sample.loads)
    Sample.gltf2
    (Sample.loader
       (PDict [("buffers"%string,
                PList [PDict [("byteLength"%string, PInt 4);
                              ("data"%string,
                               PByteArray Sample.bin_payload)]])])
       true)
    (PDict [])
    (PDict [("byteLength"%string, PInt 4);
            ("data"%string, PByteArray Sample.bin_payload)])
  = Ok (PByteArray Sample.bin_payload).
Proof.
  destruct (@glb_chunk_is_buffer_data
              (Sample.platform_of
                 (Sample.one_file "model.glb" Sample.glb_json_first)
                 Sample.loads)
              Sample.gltf2 Sample.ctors "model.glb" tt false true [] []
              (Sample.loader
                 (PDict [("buffers"%string,
                          PList [PDict [("byteLength"%string, PInt 4);
                                        ("data"%string,
                                         PByteArray Sample.bin_payload)]])])
                 true)
              Sample.json_text Sample.bin_payload 64
              [("buffers"%string, PList [PDict [("byteLength"%string, PInt 4)]])]
              [("byteLength"%string, PInt 4)] [] 4
              eq_refl eq_refl eq_refl eq_refl ltac:(lia)
              ltac:(simpl; lia) ltac:(simpl; lia)
              eq_refl eq_refl eq_refl eq_refl ltac:(lia))
    as (_ & _ & _ & H).
  exact (H [] None eq_refl).
Defined.

(** X22 at a text file that holds the sample JSON text. *)
Lemma init_gltf_sound_witness :
  @os_path_isfile
    (Sample.platform_of (Sample.one_file "model.gltf" Sample.json_text)
       Sample.loads) "model.gltf" = true /\
  @binary Sample.gltf2 (Sample.loader Sample.json_doc false) = false.
Proof.
  destruct (@init_gltf_sound
              (Sample.platform_of
                 (Sample.one_file "model.gltf" Sample.json_text) Sample.loads)
              Sample.gltf2 Sample.ctors "model.gltf" tt false true [] []
              (Sample.loader Sample.json_doc false) eq_refl eq_refl)
    as (Hfile & _ & _ & Hbin & _).
  split; [exact Hfile | exact Hbin].
Defined.

(** X10 at the sample container of 64 bytes. *)
Lemma init_glb_sound_witness :
  exists (content : list byte) (file_size : Z) (sizes : list Z),
    @open_rb
      (Sample.platform_of (Sample.one_file "model.glb" Sample.glb_json_first)
         Sample.loads) "model.glb" = Ok content /\
    frombuffer_uint32 (firstn 12 content) = Ok [MAGIC; 2; file_size] /\
    file_size = consumed_bytes sizes mod 2 ^ 32.
Proof.
  destruct (@init_glb_sound
              (Sample.platform_of
                 (Sample.one_file "model.glb" Sample.glb_json_first)
                 Sample.loads)
              Sample.gltf2 Sample.ctors "model.glb" tt false true [] []
              (Sample.loader
                 (PDict [("buffers"%string,
                          PList [PDict [("byteLength"%string, PInt 4);
                                        ("data"%string,
                                         PByteArray Sample.bin_payload)]])])
                 true)
              eq_refl eq_refl)
    as (content & file_size & sizes & s_end & Hopen & Hhdr & _ & _ & Hsize & _).
  exists content, file_size, sizes. auto.
Defined.

(** ** The two size tables of the decoder *)

Section Formats.

(** X23. The decoder has two tables of component sizes, the one that
    spaces the components of an entry ([accessor_component_type_bytesize])
    and the one that cuts the window handed to [struct.unpack]; for every
    component type it decodes they agree, and the [struct] format reads
    exactly a window of that size, so the components of an entry lie side
    by side without gap or overlap. The divisor is 255.0 for UNSIGNED_BYTE
    and 65535.0 for UNSIGNED_SHORT exactly when the accessor has a
    [normalized] key whose value equals [True] ([True], 1 or 1.0), and 1.0
    in every other case: the flag is ignored for UNSIGNED_INT and
    FLOAT. *)
Theorem data_format_sizes_agree (a : list (string * pyval))
    (ct : AccessorComponentType) (data_type : string) (data_type_size : Z)
    (normalize_divisor : float) :
  data_format (PDict a) ct
    = Ok (data_type, data_type_size, normalize_divisor) ->
  let normalized :=
    match Py.dict_get a "normalized" with
    | Some v => Py.eq_True v
    | None => false
    end in
  data_type_size = accessor_component_type_bytesize ct /\
  (forall w : list byte,
      length w = Z.to_nat data_type_size <->
      exists v, Py.struct_unpack data_type (PBytes w) = Ok v) /\
  normalize_divisor
  = (if normalized
     then match ct with
          | UNSIGNED_BYTE => 255%float
          | UNSIGNED_SHORT => 65535%float
          | _ => 1%float
          end
     else 1%float).
Proof.
  intros H normalized.
  assert (Hdiv : forall d0 d,
             normalize_divisor_of (PDict a) d0 = Ok d ->
             d = if normalized then d0 else 1%float).
  { intros d0 d Hd. unfold normalize_divisor_of in Hd. unfold normalized.
    cbn [Py.contains bind Py.getitem] in Hd.
    destruct (Py.dict_get a "normalized") as [v|]; cbn [bind] in Hd.
    - inversion Hd. reflexivity.
    - inversion Hd. reflexivity. }
  assert (Hunpack : forall fmt size (w : list byte),
             (fmt = "f"%string /\ size = 4%nat \/
              fmt = "I"%string /\ size = 4%nat \/
              fmt = "H"%string /\ size = 2%nat \/
              fmt = "B"%string /\ size = 1%nat) ->
             (length w = size <->
              exists v, Py.struct_unpack fmt (PBytes w) = Ok v)).
  { intros fmt size w Hf.
    destruct Hf as [[-> ->]|[[-> ->]|[[-> ->]|[-> ->]]]];
      cbv [Py.struct_unpack String.eqb Ascii.eqb Bool.eqb];
      match goal with
      | |- context [Nat.eqb (length w) ?k] =>
          destruct (Nat.eqb_spec (length w) k) as [E|E]
      end;
      (split; [intros Hl; try lia; eauto | intros [v Hv]; try discriminate;
                                           exact E]). }
  destruct ct; cbn [data_format] in H; try discriminate.
  - bind_inv_as H d Hd. inversion H; subst.
    split; [reflexivity|]. split; [intros w; apply Hunpack; auto|].
    exact (Hdiv _ _ Hd).
  - bind_inv_as H d Hd. inversion H; subst.
    split; [reflexivity|]. split; [intros w; apply Hunpack; auto|].
    exact (Hdiv _ _ Hd).
  - inversion H; subst.
    split; [reflexivity|]. split; [intros w; apply Hunpack; auto|].
    now destruct normalized.
  - inversion H; subst.
    split; [reflexivity|]. split; [intros w; apply Hunpack; auto|].
    now destruct normalized.
Qed.

End Formats.

(** X23 at a normalized UNSIGNED_SHORT accessor. *)
Lemma data_format_sizes_agree_witness :
  2 = accessor_component_type_bytesize UNSIGNED_SHORT /\
  (exists v, Py.struct_unpack "H" (PBytes [x01; x02]) = Ok v).
Proof.
  destruct (data_format_sizes_agree
              [("bufferView"%string, PInt 0);
               ("componentType"%string, PInt 5123);
               ("type"%string, PStr "SCALAR");
               ("count"%string, PInt 1);
               ("normalized"%string, PBool true)]
              UNSIGNED_SHORT "H" 2 65535%float eq_refl)
    as (Hsize & Hw & _).
  split; [exact Hsize|]. apply (Hw [x01; x02]). reflexivity.
Defined.
